(** * Hive App server: authorization, record filtering and statistics

    A shallow embedding of [server/routes.ts] and [server/storage.ts].
    The Express handlers become functions from a store snapshot and a
    request to a new store and an HTTP outcome; the Drizzle queries of
    [DatabaseStorage] become list functions over the three tables.

    Code that lives outside the two files (the Zod schemas of
    [shared/routes.ts], [hashPassword] of [server/auth.ts], the string
    parsers of the JavaScript runtime, the SQL [ILIKE] operator, the
    time zone of the process) is gathered in the class [External]; a
    statement holds for every instance of it unless it names one. *)

From Stdlib Require Import ZArith Lia Bool List Ascii String DecimalString.
From Stdlib Require Import Sorted.
From stdpp Require Import gmap strings list.

Local Open Scope string_scope.
Local Open Scope Z_scope.

(** ** JavaScript values *)

(** The values that the handlers inspect in a JSON body or a jsonb
    column.  Numbers are the integers; [JNaN] is the one non-integer
    the code can produce itself (through [Number]).  A [Date] holds its
    time value, [None] for an invalid date. *)
#[local] Unset Elimination Schemes.
Inductive JsVal : Type :=
| JUndefined
| JNull
| JBool (b : bool)
| JNum (n : Z)
| JNaN
| JStr (s : string)
| JDate (t : option Z)
| JObj (fields : list (string * JsVal)).
#[local] Set Elimination Schemes.

(** ToBoolean: what [if (v)] and [a && v] test.  Objects are always
    truthy. *)
Definition truthy (v : JsVal) : bool :=
  match v with
  | JUndefined | JNull | JNaN => false
  | JBool b => b
  | JNum n => negb (n =? 0)
  | JStr s => negb (String.eqb s "")
  | JDate _ | JObj _ => true
  end.

(** [v === true]. *)
Definition strictly_true (v : JsVal) : bool :=
  match v with
  | JBool true => true
  | _ => false
  end.

(** A property read [o[k]]: a missing key reads as [undefined]. *)
Definition get_prop (o : gmap string JsVal) (k : string) : JsVal :=
  default JUndefined (o !! k).

(** [String(n)] for an integer. *)
Definition string_of_Z (n : Z) : string :=
  NilZero.string_of_int (Z.to_int n).

(** [s.padStart(n, '0')]. *)
Definition padStart0 (n : nat) (s : string) : string :=
  string_of_list_ascii (repeat "0"%char (n - String.length s)) +:+ s.

(** ** ECMAScript time values

    A time value is a number of milliseconds since the epoch; the
    functions below are the abstract operations of the language
    specification on which [Date.prototype] is defined.  The local time
    zone is a fixed offset [tza] from UTC in milliseconds. *)
Module JsDate.

Definition msPerDay : Z := 86400000.
Definition maxTime : Z := 8640000000000000.

Definition Day (t : Z) : Z := t / msPerDay.
Definition TimeWithinDay (t : Z) : Z := t mod msPerDay.

Definition DayFromYear (y : Z) : Z :=
  365 * (y - 1970) + (y - 1969) / 4 - (y - 1901) / 100 + (y - 1601) / 400.

Definition DaysInYear (y : Z) : Z :=
  if negb (y mod 4 =? 0) then 365
  else if negb (y mod 100 =? 0) then 366
  else if negb (y mod 400 =? 0) then 365
  else 366.

(** The largest [y] with [DayFromYear y <= d]: an estimate from the
    mean year length, corrected by one in either direction. *)
Definition YearFromDay (d : Z) : Z :=
  let y := 1970 + (400 * d) / 146097 in
  if d <? DayFromYear y then y - 1
  else if DayFromYear (y + 1) <=? d then y + 1
  else y.

Definition YearFromTime (t : Z) : Z := YearFromDay (Day t).

Definition InLeapYear (y : Z) : Z :=
  if DaysInYear y =? 366 then 1 else 0.

(** First day, within its year, of month [m] (0 = January); month 12
    is the end of the year. *)
Definition monthStart (leap m : Z) : Z :=
  match m with
  | 0 => 0
  | 1 => 31
  | 2 => 59 + leap
  | 3 => 90 + leap
  | 4 => 120 + leap
  | 5 => 151 + leap
  | 6 => 181 + leap
  | 7 => 212 + leap
  | 8 => 243 + leap
  | 9 => 273 + leap
  | 10 => 304 + leap
  | 11 => 334 + leap
  | _ => 365 + leap
  end.

Definition DayWithinYear (t : Z) : Z :=
  Day t - DayFromYear (YearFromTime t).

Definition monthOfDay (leap dwy : Z) : Z :=
  if dwy <? monthStart leap 1 then 0
  else if dwy <? monthStart leap 2 then 1
  else if dwy <? monthStart leap 3 then 2
  else if dwy <? monthStart leap 4 then 3
  else if dwy <? monthStart leap 5 then 4
  else if dwy <? monthStart leap 6 then 5
  else if dwy <? monthStart leap 7 then 6
  else if dwy <? monthStart leap 8 then 7
  else if dwy <? monthStart leap 9 then 8
  else if dwy <? monthStart leap 10 then 9
  else if dwy <? monthStart leap 11 then 10
  else 11.

Definition MonthFromTime (t : Z) : Z :=
  monthOfDay (InLeapYear (YearFromTime t)) (DayWithinYear t).

Definition DateFromTime (t : Z) : Z :=
  DayWithinYear t
  - monthStart (InLeapYear (YearFromTime t)) (MonthFromTime t) + 1.

Definition WeekDay (t : Z) : Z := (Day t + 4) mod 7.

(** [MakeDay(year, month, date)]: the day number of the first of the
    month, plus [date - 1]; [date] may be zero or negative. *)
Definition MakeDay (year month date : Z) : Z :=
  let ym := year + month / 12 in
  let mn := month mod 12 in
  DayFromYear ym + monthStart (InLeapYear ym) mn + date - 1.

Definition MakeTime (hour min sec ms : Z) : Z :=
  ((hour * 60 + min) * 60 + sec) * 1000 + ms.

Definition MakeDate (day time : Z) : Z := day * msPerDay + time.

(** [TimeClip]: a time value out of range is [NaN] ([None]). *)
Definition TimeClip (t : Z) : option Z :=
  if maxTime <? Z.abs t then None else Some t.

Section LocalZone.
Variable tza : Z.

Definition LocalTime (t : Z) : Z := t + tza.
Definition UTC (t : Z) : Z := t - tza.

Definition getDate (t : Z) : Z := DateFromTime (LocalTime t).
Definition getDay (t : Z) : Z := WeekDay (LocalTime t).
Definition getFullYear (t : Z) : Z := YearFromTime (LocalTime t).
Definition getMonth (t : Z) : Z := MonthFromTime (LocalTime t).

(** [d.setDate(date)]: the new time value of [d]. *)
Definition setDate (t date : Z) : option Z :=
  let lt := LocalTime t in
  let newDate :=
    MakeDate (MakeDay (YearFromTime lt) (MonthFromTime lt) date)
             (TimeWithinDay lt) in
  TimeClip (UTC newDate).
End LocalZone.

(** The year of [toISOString]: four digits, or a sign and six digits
    outside 0..9999. *)
Definition isoYear (y : Z) : string :=
  if (0 <=? y) && (y <=? 9999) then padStart0 4 (string_of_Z y)
  else if y <? 0 then "-" +:+ padStart0 6 (string_of_Z (- y))
  else "+" +:+ padStart0 6 (string_of_Z y).

(** [new Date(t).toISOString().split('T')[0]] for a finite [t]. *)
Definition isoDate (t : Z) : string :=
  isoYear (YearFromTime t) +:+ "-"
  +:+ padStart0 2 (string_of_Z (MonthFromTime t + 1)) +:+ "-"
  +:+ padStart0 2 (string_of_Z (DateFromTime t)).

(** [Date.UTC(y, m, d, h, min)], used to write timestamps down. *)
Definition utc (y m d h mi : Z) : Z :=
  MakeDate (MakeDay y m d) (MakeTime h mi 0 0).

End JsDate.

(** ** The data model

    [shared/schema.ts], which declares the tables and their types, is
    not among the sources.  The declarations of this part follow the
    data model that replit.md lists (tables, columns, the permission
    names) and section 3 of the specification. *)

(** Modelled from the spec: the closed permission vocabulary
    ([Permission], [ALL_PERMISSIONS] of the missing
    [shared/schema.ts]); [permission_key] is the string stored as a
    key of the jsonb map. *)
Inductive Permission : Type :=
| viewRecords | editRecords | deleteRecords | addRecords | exportRecords
| viewAgents | createAgents | editAgents | manageCustomColumns | viewStats.

Definition ALL_PERMISSIONS : list Permission :=
  [viewRecords; editRecords; deleteRecords; addRecords; exportRecords;
   viewAgents; createAgents; editAgents; manageCustomColumns; viewStats].

Definition permission_key (p : Permission) : string :=
  match p with
  | viewRecords => "viewRecords"
  | editRecords => "editRecords"
  | deleteRecords => "deleteRecords"
  | addRecords => "addRecords"
  | exportRecords => "exportRecords"
  | viewAgents => "viewAgents"
  | createAgents => "createAgents"
  | editAgents => "editAgents"
  | manageCustomColumns => "manageCustomColumns"
  | viewStats => "viewStats"
  end.

Module User.
(** Modelled from the spec: a row of [users], the [User] type of the
    missing [shared/schema.ts].  [permissions] is a nullable jsonb
    object. *)
Record t : Type := mk {
  id : Z;
  username : string;
  password : string;
  plainPassword : option string;
  fullName : string;
  role : string;
  permissions : option (gmap string JsVal);
  isActive : bool
}.
End User.

Module InsertUser.
(** Modelled from the spec: [InsertUser] of the missing
    [shared/schema.ts], what [createUser] receives.  Columns left out
    take the column default. *)
Record t : Type := mk {
  username : string;
  password : string;
  plainPassword : option string;
  fullName : string;
  role : option string;
  permissions : option (gmap string JsVal);
  isActive : option bool
}.
End InsertUser.

Module UpdateUser.
(** Modelled from the spec: [UpdateUserRequest] of the missing
    [shared/schema.ts]: every column optional; [None] is a key that is
    absent from the object. *)
Record t : Type := mk {
  username : option string;
  password : option string;
  plainPassword : option (option string);
  fullName : option string;
  role : option string;
  permissions : option (option (gmap string JsVal));
  isActive : option bool
}.
End UpdateUser.

Module RecordItem.
(** Modelled from the spec: a row of [records], the [RecordItem] type
    of the missing [shared/schema.ts].  The columns that the server
    code reads are fields of their own; the remaining ones
    (recordTitle, personType, tenantName, phoneNumber, section,
    houseNumber, the GPS columns, accompanyingAgents, isSynced) are
    carried in [other].  Timestamps are finite time values; text
    columns are nullable. *)
Record t : Type := mk {
  id : Z;
  collectedBy : Z;
  landlordName : option string;
  town : option string;
  area : option string;
  customFields : gmap string JsVal;
  createdAt : option Z;
  updatedAt : option Z;
  other : gmap string JsVal
}.
End RecordItem.

Module RecordFields.
(** Modelled from the spec: the parsed body of a record creation,
    the insert schema of the missing [shared/schema.ts] with
    [collectedBy] omitted. *)
Record t : Type := mk {
  landlordName : option string;
  town : option string;
  area : option string;
  customFields : gmap string JsVal;
  createdAt : option Z;
  updatedAt : option Z;
  other : gmap string JsVal
}.
End RecordFields.

Module InsertRecord.
(** Modelled from the spec: [InsertRecord] of the missing
    [shared/schema.ts]: the parsed fields and the attribution computed
    by the handler, a number that may be [NaN] ([None]). *)
Record t : Type := mk {
  fields : RecordFields.t;
  collectedBy : option Z
}.
End InsertRecord.

Module UpdateRecord.
(** Modelled from the spec: [UpdateRecordRequest] of the missing
    [shared/schema.ts]: every column optional. *)
Record t : Type := mk {
  collectedBy : option Z;
  landlordName : option (option string);
  town : option (option string);
  area : option (option string);
  customFields : option (gmap string JsVal);
  createdAt : option (option Z);
  other : gmap string JsVal
}.
End UpdateRecord.

(** Modelled from the spec: the field types of a custom column. *)
Inductive FieldType : Type := text | number | select.

Module CustomColumn.
(** Modelled from the spec: a row of [custom_columns], the
    [CustomColumn] type of the missing [shared/schema.ts]. *)
Record t : Type := mk {
  id : Z;
  name : string;
  fieldType : FieldType;
  isRequired : bool;
  options : option (list string);
  isActive : bool;
  createdAt : option Z
}.
End CustomColumn.

(** The store: the three tables in insertion order and the two serial
    counters. *)
Record Db : Type := mkDb {
  users : list User.t;
  records : list RecordItem.t;
  customColumns : list CustomColumn.t;
  nextUserId : Z;
  nextRecordId : Z
}.

Inductive Period : Type := day | week | month.

Module Filters.
(** The filter object of [getRecords]. *)
Record t : Type := mk {
  agentId : option Z;
  search : option string;
  startDate : option Z;
  endDate : option Z;
  town : option string;
  area : option string
}.
Definition none : t := mk None None None None None None.
End Filters.

(** The result of [getStats]: an entry of [recordsPerAgent], an entry
    of [recordsByPeriod], and the whole. *)
Module PerAgent.
Record t : Type := mk {
  agentId : Z;
  agentName : string;
  count : nat
}.
End PerAgent.

Module PerPeriod.
Record t : Type := mk {
  date : string;
  count : nat
}.
End PerPeriod.

Module Stats.
Record t : Type := mk {
  totalRecords : nat;
  recordsPerAgent : list PerAgent.t;
  recordsByPeriod : list PerPeriod.t
}.
End Stats.

(** ** JavaScript objects used as counters

    [Object.entries] lists the keys that are array indices (the
    integers from 0 to 2^32 - 2) in ascending order, then every other
    key in the order of its first assignment. *)
Module JsObject.

Definition isArrayIndex (k : Z) : bool :=
  (0 <=? k) && (k <? 4294967295).

Fixpoint get {K} (eqb : K -> K -> bool) (k : K) (o : list (K * nat))
  : option nat :=
  match o with
  | [] => None
  | (k', v) :: o' => if eqb k' k then Some v else get eqb k o'
  end.

Fixpoint replace {K} (eqb : K -> K -> bool) (k : K) (v : nat)
  (o : list (K * nat)) : list (K * nat) :=
  match o with
  | [] => []
  | (k', v') :: o' =>
      if eqb k' k then (k', v) :: o' else (k', v') :: replace eqb k v o'
  end.

(** A new array-index key goes after the smaller array indices. *)
Fixpoint insertIndex (k : Z) (v : nat) (o : list (Z * nat))
  : list (Z * nat) :=
  match o with
  | [] => [(k, v)]
  | (k', v') :: o' =>
      if isArrayIndex k' && (k' <? k) then (k', v') :: insertIndex k v o'
      else (k, v) :: o
  end.

(** [o[k] = v] on an object whose keys are integers. *)
Definition set (k : Z) (v : nat) (o : list (Z * nat)) : list (Z * nat) :=
  match get Z.eqb k o with
  | Some _ => replace Z.eqb k v o
  | None => if isArrayIndex k then insertIndex k v o else o ++ [(k, v)]
  end.

(** [o[k] = (o[k] || 0) + 1], integer keys. *)
Definition bump (k : Z) (o : list (Z * nat)) : list (Z * nat) :=
  set k (default 0%nat (get Z.eqb k o) + 1)%nat o.

(** [o[k] = v] on an object whose keys are strings that are not
    array indices (the date keys all contain a dash). *)
Definition setStr (k : string) (v : nat) (o : list (string * nat))
  : list (string * nat) :=
  match get String.eqb k o with
  | Some _ => replace String.eqb k v o
  | None => o ++ [(k, v)]
  end.

Definition bumpStr (k : string) (o : list (string * nat))
  : list (string * nat) :=
  setStr k (default 0%nat (get String.eqb k o) + 1)%nat o.

End JsObject.

(** ** Sorting

    [Array.prototype.sort] and SQL [ORDER BY] as a stable insertion
    sort; [before a b] says that [a] must come strictly before [b]. *)
Section Sort.
Context {A : Type} (before : A -> A -> bool).

(** [a] goes past the elements that come strictly before it. *)
Fixpoint insert_sorted (a : A) (l : list A) : list A :=
  match l with
  | [] => [a]
  | b :: l' => if before b a then b :: insert_sorted a l' else a :: l
  end.

Definition stable_sort (l : list A) : list A :=
  foldr insert_sorted [] l.

(** [x] may stand ahead of [y]. *)
Definition inOrder (x y : A) : Prop := before y x = false.
End Sort.

(** ** Code outside the two files *)

(** The outcome of a Zod [parse]: the parsed value, or a [ZodError]
    of which the handlers read the first message and path. *)
Inductive Parsed (A : Type) : Type :=
| ParseOk (a : A)
| ZodError (message field : string).
Arguments ParseOk {A} a.
Arguments ZodError {A} message field.

(** What the server code calls and this development does not define:
    the runtime's string parsers, the password hash, the SQL pattern
    operator, the local time zone of the process, the column defaults
    and the request schemas of [shared/routes.ts]. *)
Class External : Type := {
  StringToNumber : string -> option Z;
  parseDate : string -> option Z;
  hashPassword : string -> string;
  ilike : string -> string -> bool;
  tza : Z;
  defaultRole : string;
  defaultIsActive : bool;
  defaultCreatedAt : Z -> option Z;
  api_records_create_input : gmap string JsVal -> Parsed RecordFields.t;
  api_records_update_input : gmap string JsVal -> Parsed UpdateRecord.t;
  api_agents_update_input : gmap string JsVal -> Parsed UpdateUser.t;
  api_secondaryAdmins_create_input :
    gmap string JsVal -> Parsed InsertUser.t;
  api_secondaryAdmins_update_input :
    gmap string JsVal -> Parsed UpdateUser.t
}.

(** ** [server/storage.ts]: [DatabaseStorage]

    A function that can throw returns an [option]; [None] is the
    exception. *)
Section Storage.
Context `{External}.

(** [Number(v)]; [None] is [NaN]. *)
Definition Number (v : JsVal) : option Z :=
  match v with
  | JUndefined => None
  | JNull => Some 0
  | JBool b => Some (if b then 1 else 0)
  | JNum n => Some n
  | JNaN => None
  | JStr s => StringToNumber s
  | JDate t => t
  | JObj _ => None
  end.

Definition getUser (db : Db) (id : Z) : option User.t :=
  List.find (fun u => User.id u =? id) (users db).

Definition getUserByUsername (db : Db) (username : string)
  : option User.t :=
  List.find (fun u => String.eqb (User.username u) username) (users db).

(** The row that [db.insert(users).values(v)] writes. *)
Definition insertedUser (id : Z) (v : InsertUser.t) : User.t :=
  User.mk id
    (InsertUser.username v)
    (InsertUser.password v)
    (InsertUser.plainPassword v)
    (InsertUser.fullName v)
    (default defaultRole (InsertUser.role v))
    (InsertUser.permissions v)
    (default defaultIsActive (InsertUser.isActive v)).

(** Modelled from the spec: the unique constraint on [username], which
    the missing [shared/schema.ts] declares.  [nameHeld db except n]
    says that a row other than the rows with id [except] holds the
    user name [n]; the store then refuses to write [n]. *)
Definition nameHeld (db : Db) (except : option Z) (n : string) : bool :=
  existsb (fun u =>
             match except with
             | Some id => negb (User.id u =? id)
             | None => true
             end && String.eqb (User.username u) n)
          (users db).

(** [createUser]; the insert throws when the user name is held. *)
Definition createUser (db : Db) (insertUser : InsertUser.t)
  : option (Db * User.t) :=
  let plainPwd := InsertUser.password insertUser in
  let hashedPassword := hashPassword (InsertUser.password insertUser) in
  let values :=
    InsertUser.mk
      (InsertUser.username insertUser)
      hashedPassword
      (Some plainPwd)
      (InsertUser.fullName insertUser)
      (InsertUser.role insertUser)
      (InsertUser.permissions insertUser)
      (InsertUser.isActive insertUser) in
  if nameHeld db None (InsertUser.username values) then None
  else
    let user := insertedUser (nextUserId db) values in
    Some (mkDb (users db ++ [user]) (records db) (customColumns db)
               (nextUserId db + 1) (nextRecordId db),
          user).

(** [if (updates.password) { ... }]: the rewritten [updates]. *)
Definition withHashedPassword (updates : UpdateUser.t) : UpdateUser.t :=
  match UpdateUser.password updates with
  | Some pw =>
      if truthy (JStr pw) then
        UpdateUser.mk
          (UpdateUser.username updates)
          (Some (hashPassword pw))
          (Some (Some pw))
          (UpdateUser.fullName updates)
          (UpdateUser.role updates)
          (UpdateUser.permissions updates)
          (UpdateUser.isActive updates)
      else updates
  | None => updates
  end.

(** [SET] of the columns present in [updates]. *)
Definition setUser (updates : UpdateUser.t) (u : User.t) : User.t :=
  User.mk (User.id u)
    (default (User.username u) (UpdateUser.username updates))
    (default (User.password u) (UpdateUser.password updates))
    (default (User.plainPassword u) (UpdateUser.plainPassword updates))
    (default (User.fullName u) (UpdateUser.fullName updates))
    (default (User.role u) (UpdateUser.role updates))
    (default (User.permissions u) (UpdateUser.permissions updates))
    (default (User.isActive u) (UpdateUser.isActive updates)).

Definition noUserValues (updates : UpdateUser.t) : bool :=
  match updates with
  | UpdateUser.mk None None None None None None None => true
  | _ => false
  end.

(** The update writes a user name that another row holds. *)
Definition usernameTaken (db : Db) (id : Z) (updates : UpdateUser.t)
  : bool :=
  match UpdateUser.username updates with
  | Some n =>
      existsb (fun u => User.id u =? id) (users db)
      && nameHeld db (Some id) n
  | None => false
  end.

(** [updateUser]: the new store and [user], the first row returned,
    [undefined] ([None]) when no row has the id.  The query builder
    throws on an empty [SET], the store on a user name that is held. *)
Definition updateUser (db : Db) (id : Z) (updates : UpdateUser.t)
  : option (Db * option User.t) :=
  let updates := withHashedPassword updates in
  if noUserValues updates then None
  else if usernameTaken db id updates then None
  else
    let users' :=
      map (fun u => if User.id u =? id then setUser updates u else u)
          (users db) in
    Some (mkDb users' (records db) (customColumns db)
               (nextUserId db) (nextRecordId db),
          List.find (fun u => User.id u =? id) users').

Definition getAgents (db : Db) : list User.t :=
  List.filter (fun u => String.eqb (User.role u) "agent") (users db).

Definition getSecondaryAdmins (db : Db) : list User.t :=
  List.filter (fun u => String.eqb (User.role u) "secondary_admin")
              (users db).

(** Ascending [ORDER BY]: nulls last. *)
Definition ascNullsLast (x y : option Z) : bool :=
  match x, y with
  | Some a, Some b => a <? b
  | Some _, None => true
  | None, _ => false
  end.

(** [desc(...)]: nulls first. *)
Definition descNullsFirst (x y : option Z) : bool :=
  match x, y with
  | Some a, Some b => b <? a
  | None, Some _ => true
  | _, None => false
  end.

Definition getCustomColumns (db : Db) : list CustomColumn.t :=
  stable_sort
    (fun a b => ascNullsLast (CustomColumn.createdAt a)
                             (CustomColumn.createdAt b))
    (customColumns db).

(** [ilike(column, `%${s}%`)]; a null column matches nothing. *)
Definition ilikeContains (column : option string) (s : string) : bool :=
  match column with
  | Some v => ilike v ("%" +:+ s +:+ "%")
  | None => false
  end.

(** [gte(records.createdAt, d)] and [lte(records.createdAt, d)]. *)
Definition gte (column : option Z) (d : Z) : bool :=
  match column with Some t => d <=? t | None => false end.
Definition lte (column : option Z) (d : Z) : bool :=
  match column with Some t => t <=? d | None => false end.

(** The [conditions] array that [getRecords] builds, one push per
    truthy filter. *)
Definition conditions (filters : Filters.t)
  : list (RecordItem.t -> bool) :=
  (match Filters.agentId filters with
   | Some a =>
       if truthy (JNum a)
       then [fun r => RecordItem.collectedBy r =? a] else []
   | None => []
   end)
  ++ (match Filters.search filters with
      | Some s =>
          if truthy (JStr s)
          then [fun r => ilikeContains (RecordItem.landlordName r) s]
          else []
      | None => []
      end)
  ++ (match Filters.startDate filters with
      | Some d => [fun r => gte (RecordItem.createdAt r) d]
      | None => []
      end)
  ++ (match Filters.endDate filters with
      | Some d => [fun r => lte (RecordItem.createdAt r) d]
      | None => []
      end)
  ++ (match Filters.town filters with
      | Some s =>
          if truthy (JStr s)
          then [fun r => ilikeContains (RecordItem.town r) s] else []
      | None => []
      end)
  ++ (match Filters.area filters with
      | Some s =>
          if truthy (JStr s)
          then [fun r => ilikeContains (RecordItem.area r) s] else []
      | None => []
      end).

(** [desc(records.createdAt)]. *)
Definition byCreatedAt (a b : RecordItem.t) : bool :=
  descNullsFirst (RecordItem.createdAt a) (RecordItem.createdAt b).

(** [and(...conditions)]. *)
Definition and_ (cs : list (RecordItem.t -> bool)) (r : RecordItem.t)
  : bool :=
  forallb (fun c => c r) cs.

(** [getRecords] over a record collection: the [WHERE] of the
    conditions, then [ORDER BY created_at DESC]. *)
Definition filterRecords (allRecords : list RecordItem.t)
  (filters : Filters.t) : list RecordItem.t :=
  stable_sort byCreatedAt
    (List.filter (and_ (conditions filters)) allRecords).

Definition getRecords (db : Db) (filters : Filters.t)
  : list RecordItem.t :=
  filterRecords (records db) filters.

Definition getRecord (db : Db) (id : Z) : option RecordItem.t :=
  List.find (fun r => RecordItem.id r =? id) (records db).

(** [createRecord]: the insert throws on a [NaN] attribution, the
    column being an integer. *)
Definition createRecord (now : Z) (db : Db) (insertRecord : InsertRecord.t)
  : option (Db * RecordItem.t) :=
  match InsertRecord.collectedBy insertRecord with
  | None => None
  | Some collectedBy =>
      let f := InsertRecord.fields insertRecord in
      let record :=
        RecordItem.mk (nextRecordId db) collectedBy
          (RecordFields.landlordName f)
          (RecordFields.town f)
          (RecordFields.area f)
          (RecordFields.customFields f)
          (match RecordFields.createdAt f with
           | Some t => Some t
           | None => defaultCreatedAt now
           end)
          (RecordFields.updatedAt f)
          (RecordFields.other f) in
      Some (mkDb (users db) (records db ++ [record]) (customColumns db)
                 (nextUserId db) (nextRecordId db + 1),
            record)
  end.

(** [SET] of [{ ...updates, updatedAt: new Date() }]. *)
Definition setRecord (now : Z) (updates : UpdateRecord.t)
  (r : RecordItem.t) : RecordItem.t :=
  RecordItem.mk (RecordItem.id r)
    (default (RecordItem.collectedBy r) (UpdateRecord.collectedBy updates))
    (default (RecordItem.landlordName r)
             (UpdateRecord.landlordName updates))
    (default (RecordItem.town r) (UpdateRecord.town updates))
    (default (RecordItem.area r) (UpdateRecord.area updates))
    (default (RecordItem.customFields r)
             (UpdateRecord.customFields updates))
    (default (RecordItem.createdAt r) (UpdateRecord.createdAt updates))
    (Some now)
    (UpdateRecord.other updates ∪ RecordItem.other r).

(** [updateRecord]: [record] is [undefined] when no row has the id;
    a [NaN] id makes the query throw. *)
Definition updateRecord (now : Z) (db : Db) (id : option Z)
  (updates : UpdateRecord.t) : option (Db * option RecordItem.t) :=
  match id with
  | None => None
  | Some id =>
      let records' :=
        map (fun r => if RecordItem.id r =? id
                      then setRecord now updates r else r)
            (records db) in
      Some (mkDb (users db) records' (customColumns db)
                 (nextUserId db) (nextRecordId db),
            List.find (fun r => RecordItem.id r =? id) records')
  end.

(** The bucket label of a record, [dateKey] in [getStats].  The
    getters read local time, [toISOString] prints UTC and throws a
    [RangeError] ([None]) on an invalid date. *)
Definition dateKey (period : Period) (d : Z) : option string :=
  match period with
  | week =>
      match JsDate.setDate tza d
              (JsDate.getDate tza d - JsDate.getDay tza d) with
      | Some startOfWeek => Some ("W " +:+ JsDate.isoDate startOfWeek)
      | None => None
      end
  | month =>
      Some (string_of_Z (JsDate.getFullYear tza d) +:+ "-"
            +:+ padStart0 2 (string_of_Z (JsDate.getMonth tza d + 1)))
  | day => Some (JsDate.isoDate d)
  end.

(** One turn of the [for (const r of allRecords)] loop over the two
    counter objects. *)
Definition countRecord (period : Period)
  (acc : option (list (Z * nat) * list (string * nat)))
  (r : RecordItem.t) : option (list (Z * nat) * list (string * nat)) :=
  match acc with
  | None => None
  | Some (agentCounts, dateCounts) =>
      let agentCounts :=
        JsObject.bump (RecordItem.collectedBy r) agentCounts in
      match RecordItem.createdAt r with
      | None => Some (agentCounts, dateCounts)
      | Some d =>
          match dateKey period d with
          | Some k => Some (agentCounts, JsObject.bumpStr k dateCounts)
          | None => None
          end
      end
  end.

(** [new Map(agentList.map(a => [a.id, a.fullName]))]: a later pair
    replaces an earlier one. *)
Definition agentMapOf (agentList : list User.t) : gmap Z string :=
  foldl (fun m a => <[User.id a := User.fullName a]> m) ∅ agentList.

(** [agentMap.get(Number(id)) || `Agent #${id}`]. *)
Definition agentNameOf (agentMap : gmap Z string) (id : Z) : string :=
  match agentMap !! id with
  | Some name =>
      if truthy (JStr name) then name else "Agent #" +:+ string_of_Z id
  | None => "Agent #" +:+ string_of_Z id
  end.

(** [a.date.localeCompare(b.date) < 0] on the date keys, which are
    made of digits and dashes after a common prefix. *)
Definition localeBefore (a b : PerPeriod.t) : bool :=
  String.ltb (PerPeriod.date a) (PerPeriod.date b).

Definition getStats (db : Db) (period : Period) : option Stats.t :=
  let allRecords := records db in
  let totalRecords := length allRecords in
  let agentList :=
    List.filter (fun u => String.eqb (User.role u) "agent") (users db) in
  let agentMap := agentMapOf agentList in
  match foldl (countRecord period) (Some ([], [])) allRecords with
  | None => None
  | Some (agentCounts, dateCounts) =>
      let recordsPerAgent :=
        map (fun '(id, cnt) =>
               PerAgent.mk id (agentNameOf agentMap id) cnt)
            agentCounts in
      let recordsByPeriod :=
        stable_sort localeBefore
          (map (fun '(date, cnt) => PerPeriod.mk date cnt)
               dateCounts) in
      Some (Stats.mk totalRecords recordsPerAgent recordsByPeriod)
  end.

End Storage.

(** ** [server/routes.ts] *)

(** The part of an Express request that the handlers read.  Passport's
    [req.isAuthenticated()] is true exactly when [req.user] is set. *)
Record Request : Type := mkRequest {
  user : option User.t;
  body : gmap string JsVal;
  params_id : string;
  query : gmap string string
}.

(** What a handler does with [res], or the exception it lets escape. *)
Inductive Response (A : Type) : Type :=
| Json (status : Z) (payload : A)
| Send (status : Z)
| Message (status : Z) (message : string) (field : option string)
| Throws.
Arguments Json {A} status payload.
Arguments Send {A} status.
Arguments Message {A} status message field.
Arguments Throws {A}.

(** The status code a client sees; an escaped exception is Express's
    500. *)
Definition statusOf {A} (r : Response A) : Z :=
  match r with
  | Json s _ | Send s | Message s _ _ => s
  | Throws => 500
  end.

Section Routes.
Context `{External}.

Definition isAuthenticated (req : Request) : bool :=
  match user req with Some _ => true | None => false end.

(** [req.user?.role === r]. *)
Definition roleIs (req : Request) (r : string) : bool :=
  match user req with
  | Some u => String.eqb (User.role u) r
  | None => false
  end.

Definition coerceDates (body : gmap string JsVal) : gmap string JsVal :=
  let dateFields := ["gpsTimestamp"; "createdAt"; "updatedAt"] in
  foldl (fun result field =>
           match result !! field with
           | Some (JStr s) => <[field := JDate (parseDate s)]> result
           | _ => result
           end)
        body dateFields.

Definition isAdmin (req : Request) : bool :=
  isAuthenticated req && roleIs req "admin".

Definition isAdminOrSecondary (req : Request) : bool :=
  isAuthenticated req
  && (roleIs req "admin" || roleIs req "secondary_admin").

Definition hasPermission (req : Request) (permission : Permission)
  : bool :=
  if negb (isAuthenticated req) then false
  else if roleIs req "admin" then true
  else if roleIs req "secondary_admin" then
    match user req with
    | Some u =>
        match User.permissions u with
        | Some perms =>
            strictly_true (get_prop perms (permission_key permission))
        | None => false
        end
    | None => false
    end
  else false.

(** [POST api.records.create.path]. *)
Definition records_create (now : Z) (db : Db) (req : Request)
  : Db * Response RecordItem.t :=
  match user req with
  | None => (db, Send 401)
  | Some u =>
      if negb (String.eqb (User.role u) "agent")
         && negb (hasPermission req addRecords)
      then (db, Message 403 "No permission to add records" None)
      else
        match api_records_create_input (coerceDates (body req)) with
        | ZodError message field =>
            (db, Message 400 message (Some field))
        | ParseOk input =>
            let collectedBy :=
              if isAdminOrSecondary req
                 && truthy (get_prop (body req) "collectedBy")
              then Number (get_prop (body req) "collectedBy")
              else Some (User.id u) in
            match createRecord now db
                    (InsertRecord.mk input collectedBy) with
            | Some (db', record) => (db', Json 201 record)
            | None => (db, Throws)
            end
        end
  end.

(** [PUT api.records.update.path]. *)
Definition records_update (now : Z) (db : Db) (req : Request)
  : Db * Response RecordItem.t :=
  if negb (isAuthenticated req) then (db, Send 401)
  else if negb (hasPermission req editRecords)
          && negb (roleIs req "agent")
  then (db, Message 403 "No permission to edit records" None)
  else
    let id := Number (JStr (params_id req)) in
    match api_records_update_input (coerceDates (body req)) with
    | ZodError message field => (db, Message 400 message (Some field))
    | ParseOk input =>
        match updateRecord now db id input with
        | None => (db, Throws)
        | Some (db', None) => (db', Message 404 "Record not found" None)
        | Some (db', Some record) => (db', Json 200 record)
        end
    end.

(** [PUT api.agents.update.path]; [res.json(agent)] sends whatever
    [updateUser] returned, [undefined] included. *)
Definition agents_update (db : Db) (req : Request)
  : Db * Response (option User.t) :=
  if negb (hasPermission req editAgents) then (db, Send 403)
  else
    let id := Number (JStr (params_id req)) in
    match api_agents_update_input (body req) with
    | ZodError message field => (db, Message 400 message (Some field))
    | ParseOk input =>
        match id with
        | None => (db, Throws)
        | Some id =>
            match updateUser db id input with
            | None => (db, Throws)
            | Some (db', agent) => (db', Json 200 agent)
            end
        end
    end.

(** [GET api.secondaryAdmins.list.path]. *)
Definition secondaryAdmins_list (db : Db) (req : Request)
  : Db * Response (list User.t) :=
  if negb (isAdmin req) then (db, Send 403)
  else (db, Json 200 (getSecondaryAdmins db)).

(** [{ ...input, role: "secondary_admin" }]. *)
Definition asSecondaryAdmin (input : InsertUser.t) : InsertUser.t :=
  InsertUser.mk
    (InsertUser.username input)
    (InsertUser.password input)
    (InsertUser.plainPassword input)
    (InsertUser.fullName input)
    (Some "secondary_admin")
    (InsertUser.permissions input)
    (InsertUser.isActive input).

(** [POST api.secondaryAdmins.create.path]. *)
Definition secondaryAdmins_create (db : Db) (req : Request)
  : Db * Response User.t :=
  if negb (isAdmin req) then (db, Send 403)
  else
    match api_secondaryAdmins_create_input (body req) with
    | ZodError message field => (db, Message 400 message (Some field))
    | ParseOk input =>
        match getUserByUsername db (InsertUser.username input) with
        | Some _ => (db, Message 400 "Username already exists" None)
        | None =>
            match createUser db (asSecondaryAdmin input) with
            | Some (db', admin) => (db', Json 201 admin)
            | None => (db, Throws)
            end
        end
    end.

(** [PUT api.secondaryAdmins.update.path]. *)
Definition secondaryAdmins_update (db : Db) (req : Request)
  : Db * Response (option User.t) :=
  if negb (isAdmin req) then (db, Send 403)
  else
    let id := Number (JStr (params_id req)) in
    match api_secondaryAdmins_update_input (body req) with
    | ZodError message field => (db, Message 400 message (Some field))
    | ParseOk input =>
        match id with
        | None => (db, Throws)
        | Some id =>
            match updateUser db id input with
            | None => (db, Throws)
            | Some (db', admin) => (db', Json 200 admin)
            end
        end
    end.

(** [validPeriods.includes(period) ? period : 'day'] after
    [req.query.period || 'day']. *)
Definition safePeriod (req : Request) : Period :=
  let period :=
    match query req !! "period" with
    | Some s => if truthy (JStr s) then s else "day"
    | None => "day"
    end in
  if String.eqb period "day" then day
  else if String.eqb period "week" then week
  else if String.eqb period "month" then month
  else day.

(** [GET api.stats.summary.path]. *)
Definition stats_summary (db : Db) (req : Request)
  : Db * Response Stats.t :=
  if negb (hasPermission req viewStats) then (db, Send 403)
  else
    match getStats db (safePeriod req) with
    | Some stats => (db, Json 200 stats)
    | None => (db, Throws)
    end.

End Routes.

(** ** A concrete environment

    One instance of [External], for evaluating the handlers on concrete
    requests: decimal [Number], PostgreSQL's [ILIKE] on ASCII text, a
    tagging hash and schemas that read the typed columns off the
    body. *)
Module Sample.

(** *** [StringToNumber]

    The grammar of ECMAScript's [StringNumericLiteral]: white space
    around an optionally signed decimal literal with an optional
    fraction and exponent, or an unsigned binary, octal or hexadecimal
    integer; the empty string is 0.  The model holds integers only: a
    literal whose value is not an integer ([1.5], [Infinity]) has no
    counterpart and is read as [NaN] here. *)

Definition code (c : ascii) : Z := Z.of_N (N_of_ascii c).

Definition isWhiteSpace (c : ascii) : bool :=
  let n := code c in ((9 <=? n) && (n <=? 13)) || (n =? 32).

Definition digitOf (base : Z) (c : ascii) : option Z :=
  let n := code c in
  let d :=
    if (48 <=? n) && (n <=? 57) then n - 48
    else if (97 <=? n) && (n <=? 102) then n - 87
    else if (65 <=? n) && (n <=? 70) then n - 55
    else base in
  if d <? base then Some d else None.

(** The value of a run of digits, [None] when a character is not a
    digit of the base. *)
Fixpoint digitsFrom (base acc : Z) (l : list ascii) : option Z :=
  match l with
  | [] => Some acc
  | c :: l' =>
      match digitOf base c with
      | Some d => digitsFrom base (acc * base + d) l'
      | None => None
      end
  end.

Definition digits (base : Z) (l : list ascii) : option Z :=
  match l with
  | [] => None
  | _ => digitsFrom base 0 l
  end.

Fixpoint dropSpace (l : list ascii) : list ascii :=
  match l with
  | c :: l' => if isWhiteSpace c then dropSpace l' else l
  | [] => []
  end.

Definition trim (l : list ascii) : list ascii :=
  rev (dropSpace (rev (dropSpace l))).

(** The part before the first [c], and the part after it if there is
    one. *)
Fixpoint splitAt (c : ascii -> bool) (l : list ascii)
  : list ascii * option (list ascii) :=
  match l with
  | [] => ([], None)
  | x :: l' =>
      if c x then ([], Some l')
      else let '(a, b) := splitAt c l' in (x :: a, b)
  end.

Definition signed (l : list ascii) : Z * list ascii :=
  match l with
  | c :: l' =>
      if Ascii.eqb c "-" then (-1, l')
      else if Ascii.eqb c "+" then (1, l')
      else (1, l)
  | [] => (1, [])
  end.

(** [int.frac e exp] with at least one digit in [int] or [frac]. *)
Definition decimal (l : list ascii) : option Z :=
  let '(mantissa, exponent) :=
    splitAt (fun c => Ascii.eqb c "e" || Ascii.eqb c "E") l in
  let '(int, frac) := splitAt (fun c => Ascii.eqb c ".") mantissa in
  let frac := default [] frac in
  let exponent :=
    match exponent with
    | None => Some 0
    | Some e => let '(sign, e') := signed e in
                (fun v => sign * v) <$> digits 10 e'
    end in
  match int, frac with
  | [], [] => None
  | _, _ =>
      match digitsFrom 10 0 (int ++ frac), exponent with
      | Some n, Some e =>
          let scale := e - Z.of_nat (length frac) in
          if 0 <=? scale then Some (n * 10 ^ scale)
          else if n mod 10 ^ (- scale) =? 0
               then Some (n / 10 ^ (- scale))
               else None
      | _, _ => None
      end
  end.

Definition radixOf (l : list ascii) : option (Z * list ascii) :=
  match l with
  | c0 :: c1 :: l' =>
      if negb (Ascii.eqb c0 "0") then None
      else if Ascii.eqb c1 "x" || Ascii.eqb c1 "X" then Some (16, l')
      else if Ascii.eqb c1 "o" || Ascii.eqb c1 "O" then Some (8, l')
      else if Ascii.eqb c1 "b" || Ascii.eqb c1 "B" then Some (2, l')
      else None
  | _ => None
  end.

Definition stringToNumber (s : string) : option Z :=
  let l := trim (list_ascii_of_string s) in
  match l with
  | [] => Some 0
  | _ =>
      match radixOf l with
      | Some (base, l') => digits base l'
      | None =>
          let '(sign, l') := signed l in
          (fun v => sign * v) <$> decimal l'
      end
  end.

(** *** [new Date(string)]

    The date-time string format of ECMAScript with a four-digit year:
    [YYYY], [YYYY-MM] or [YYYY-MM-DD], then optionally [THH:mm],
    [THH:mm:ss] or [THH:mm:ss.sss], then optionally [Z] or an offset
    [+HH:mm] or [-HH:mm].  A date alone is in UTC, a date and time
    without a zone is local time, at [offset] from UTC.  A day of the
    month up to 31 is taken whatever the month is and carries over, as
    Node reads it.  A string of another form, which an engine reads by
    rules of its own, is an invalid date here. *)

Definition expect (c : ascii) (l : list ascii) : option (list ascii) :=
  match l with
  | x :: l' => if Ascii.eqb x c then Some l' else None
  | [] => None
  end.

Definition takeDigits (n : nat) (l : list ascii)
  : option (Z * list ascii) :=
  let f := firstn n l in
  if (length f =? n)%nat
  then (fun v => (v, skipn n l)) <$> digits 10 f
  else None.

(** Month and day, 1 where the string leaves them out. *)
Definition isoMonthDay (l : list ascii) : option (Z * Z * list ascii) :=
  match expect "-" l with
  | None => Some (1, 1, l)
  | Some l =>
      '(m, l) ← takeDigits 2 l;
      match expect "-" l with
      | None => Some (m, 1, l)
      | Some l => '(d, l) ← takeDigits 2 l; Some (m, d, l)
      end
  end.

(** Seconds and milliseconds, 0 where the string leaves them out. *)
Definition isoSeconds (l : list ascii) : option (Z * Z * list ascii) :=
  match expect ":" l with
  | None => Some (0, 0, l)
  | Some l =>
      '(sec, l) ← takeDigits 2 l;
      match expect "." l with
      | None => Some (sec, 0, l)
      | Some l => '(ms, l) ← takeDigits 3 l; Some (sec, ms, l)
      end
  end.

(** The offset of the zone the string names, in milliseconds. *)
Definition isoZone (offset : Z) (l : list ascii) : option Z :=
  match l with
  | [] => Some offset
  | c :: l' =>
      if Ascii.eqb c "Z" then
        match l' with [] => Some 0 | _ => None end
      else
        sign ← (if Ascii.eqb c "+" then Some 1
                else if Ascii.eqb c "-" then Some (-1)
                else None);
        '(zh, l') ← takeDigits 2 l';
        l' ← expect ":" l';
        '(zm, l') ← takeDigits 2 l';
        match l' with
        | [] =>
            if (zh <=? 23) && (zm <=? 59)
            then Some (sign * (zh * 60 + zm) * 60000)
            else None
        | _ => None
        end
  end.

Definition isoDateTime (offset : Z) (s : string) : option Z :=
  '(y, l) ← takeDigits 4 (list_ascii_of_string s);
  '(m, d, l) ← isoMonthDay l;
  if negb ((1 <=? m) && (m <=? 12) && (1 <=? d) && (d <=? 31)) then None
  else
    let date := JsDate.MakeDay y (m - 1) d in
    match l with
    | [] => JsDate.TimeClip (JsDate.MakeDate date 0)
    | _ =>
        l ← expect "T" l;
        '(h, l) ← takeDigits 2 l;
        l ← expect ":" l;
        '(mi, l) ← takeDigits 2 l;
        '(sec, ms, l) ← isoSeconds l;
        zone ← isoZone offset l;
        if ((h <=? 23) && (mi <=? 59) && (sec <=? 59))
           || ((h =? 24) && (mi =? 0) && (sec =? 0) && (ms =? 0))
        then JsDate.TimeClip
               (JsDate.MakeDate date (JsDate.MakeTime h mi sec ms) - zone)
        else None
    end.

Inductive PatItem : Type := PAny | POne | PLit (c : ascii).

(** [%] any run, [_] any character, backslash quotes the next one. *)
Fixpoint parsePattern (p : list ascii) : list PatItem :=
  match p with
  | [] => []
  | c :: p' =>
      if Ascii.eqb c "\"%char then
        match p' with
        | c' :: p'' => PLit c' :: parsePattern p''
        | [] => [PLit c]
        end
      else if Ascii.eqb c "%"%char then PAny :: parsePattern p'
      else if Ascii.eqb c "_"%char then POne :: parsePattern p'
      else PLit c :: parsePattern p'
  end.

Definition lower (c : ascii) : ascii :=
  let n := N_of_ascii c in
  if ((65 <=? n) && (n <=? 90))%N then ascii_of_N (n + 32) else c.

Fixpoint likeMatch (p : list PatItem) (s : list ascii) : bool :=
  match p with
  | [] => match s with [] => true | _ => false end
  | PAny :: p' =>
      (fix skip (s : list ascii) : bool :=
         likeMatch p' s
         || match s with [] => false | _ :: s' => skip s' end) s
  | POne :: p' =>
      match s with [] => false | _ :: s' => likeMatch p' s' end
  | PLit c :: p' =>
      match s with
      | [] => false
      | c' :: s' => Ascii.eqb (lower c) (lower c') && likeMatch p' s'
      end
  end.

Definition pg_ilike (value pattern : string) : bool :=
  likeMatch (parsePattern (list_ascii_of_string pattern))
            (list_ascii_of_string value).

Definition textOf (v : JsVal) : option string :=
  match v with JStr s => Some s | _ => None end.

Definition dateOf (v : JsVal) : option Z :=
  match v with JDate t => t | _ => None end.

Definition objectOf (v : JsVal) : gmap string JsVal :=
  match v with
  | JObj fields => list_to_map fields
  | _ => ∅
  end.

Definition recordFields (b : gmap string JsVal) : Parsed RecordFields.t :=
  ParseOk (RecordFields.mk
             (textOf (get_prop b "landlordName"))
             (textOf (get_prop b "town"))
             (textOf (get_prop b "area"))
             (objectOf (get_prop b "customFields"))
             (dateOf (get_prop b "createdAt"))
             (dateOf (get_prop b "updatedAt"))
             ∅).

Definition recordUpdate (b : gmap string JsVal) : Parsed UpdateRecord.t :=
  ParseOk (UpdateRecord.mk
             None
             (Some <$> textOf (get_prop b "landlordName"))
             (Some <$> textOf (get_prop b "town"))
             (Some <$> textOf (get_prop b "area"))
             None None ∅).

Definition userUpdate (b : gmap string JsVal) : Parsed UpdateUser.t :=
  ParseOk (UpdateUser.mk
             (textOf (get_prop b "username"))
             (textOf (get_prop b "password"))
             None
             (textOf (get_prop b "fullName"))
             None None None).

Definition userInsert (b : gmap string JsVal) : Parsed InsertUser.t :=
  match textOf (get_prop b "username"), textOf (get_prop b "password"),
        textOf (get_prop b "fullName") with
  | Some u, Some p, Some f =>
      ParseOk (InsertUser.mk u p None f None None None)
  | None, _, _ => ZodError "Required" "username"
  | _, None, _ => ZodError "Required" "password"
  | _, _, None => ZodError "Required" "fullName"
  end.

(** The environment, in the time zone at offset [offset]. *)
Definition external (offset : Z) : External := {|
  StringToNumber := stringToNumber;
  parseDate := isoDateTime offset;
  hashPassword := fun pw => "scrypt:" +:+ pw;
  ilike := pg_ilike;
  tza := offset;
  defaultRole := "agent";
  defaultIsActive := true;
  defaultCreatedAt := Some;
  api_records_create_input := recordFields;
  api_records_update_input := recordUpdate;
  api_agents_update_input := userUpdate;
  api_secondaryAdmins_create_input := userInsert;
  api_secondaryAdmins_update_input := userUpdate
|}.

Definition utcServer : External := external 0.

(** The two accounts that [seedDatabase] creates. *)
Definition admin : User.t :=
  User.mk 1 "admin" "scrypt:admin123" (Some "admin123")
    "System Administrator" "admin" None true.

Definition agent1 : User.t :=
  User.mk 2 "agent1" "scrypt:password" (Some "password")
    "John Doe" "agent" None true.

(** A secondary administrator holding every permission. *)
Definition allGranted : gmap string JsVal :=
  list_to_map (map (fun p => (permission_key p, JBool true))
                   ALL_PERMISSIONS).

Definition deputy : User.t :=
  User.mk 3 "deputy" "scrypt:secret" (Some "secret")
    "Jane Roe" "secondary_admin" (Some allGranted) true.

Definition seeded : Db := mkDb [admin; agent1] [] [] 3 1.

Definition requestBy (u : User.t) (b : list (string * JsVal))
  (id : string) : Request :=
  mkRequest (Some u) (list_to_map b) id ∅.

Definition recordAt (id collectedBy : Z) (createdAt : option Z)
  : RecordItem.t :=
  RecordItem.mk id collectedBy None None None ∅ createdAt None ∅.

End Sample.

(** ** Notions used in the statements *)

Section Notions.
Context `{External}.

(** The permission set of an actor: the permissions at which
    [hasPermission] answers true. *)
Definition effectivePermissions (req : Request) : list Permission :=
  List.filter (hasPermission req) ALL_PERMISSIONS.

(** The number of records attributed to [id]. *)
Definition attributedTo (id : Z) (rs : list RecordItem.t) : nat :=
  length (List.filter (fun r => RecordItem.collectedBy r =? id) rs).

(** The store with another custom-column table. *)
Definition withCustomColumns (db : Db) (cols : list CustomColumn.t)
  : Db :=
  mkDb (users db) (records db) cols (nextUserId db) (nextRecordId db).

(** The validation that the specification describes for a select
    column: a record creation whose [customFields] gives the column
    a value outside its options is answered with a validation
    failure (400), and one with a value among the options is not. *)
Definition selectOptionsEnforced : Prop :=
  forall now db req u col opts v,
    user req = Some u ->
    User.role u = "agent" ->
    col ∈ customColumns db ->
    CustomColumn.fieldType col = select ->
    CustomColumn.options col = Some opts ->
    get_prop (body req) "customFields"
      = JObj [(CustomColumn.name col, JStr v)] ->
    (v ∉ opts -> statusOf (records_create now db req).2 = 400)
    /\ (v ∈ opts -> statusOf (records_create now db req).2 <> 400).

End Notions.

(** The three records of the weekly example, and the stores used in
    the examples below. *)
Module Scenario.
Import Sample.

Definition weekRecords : list RecordItem.t :=
  [recordAt 1 2 (Some (JsDate.utc 2024 0 1 10 0));
   recordAt 2 2 (Some (JsDate.utc 2024 0 1 23 0));
   recordAt 3 2 (Some (JsDate.utc 2024 0 8 5 0))].

Definition weekDb : Db := mkDb [admin; agent1] weekRecords [] 3 4.

(** Offset of a zone three hours ahead of UTC, in milliseconds. *)
Definition utcPlus3 : Z := 3 * 3600 * 1000.

(** One record collected by the seeded administrator. *)
Definition adminRecordDb : Db :=
  mkDb [admin; agent1] [recordAt 1 1 (Some 0)] [] 3 2.

Definition roofType (opts : list string) : CustomColumn.t :=
  CustomColumn.mk 1 "Roof Type" select false (Some opts) true (Some 0).

Definition roofDb (opts : list string) : Db :=
  mkDb [admin; agent1] [] [roofType opts] 3 1.

Definition roofRequest (v : string) : Request :=
  requestBy agent1 [("customFields", JObj [("Roof Type", JStr v)])] "".

End Scenario.

(** * The remaining methods and routes *)

(** Modelled from the spec: [InsertCustomColumn] of the missing
    [shared/schema.ts], what [createCustomColumn] receives.  Columns
    left out take the column default. *)
Module InsertCustomColumn.
Record t : Type := mk {
  name : string;
  fieldType : FieldType;
  isRequired : option bool;
  options : option (list string);
  isActive : option bool
}.
End InsertCustomColumn.

(** Modelled from the spec: [Partial<InsertCustomColumn>], every column
    optional. *)
Module UpdateCustomColumn.
Record t : Type := mk {
  name : option string;
  fieldType : option FieldType;
  isRequired : option bool;
  options : option (option (list string));
  isActive : option bool
}.
End UpdateCustomColumn.

(** The request schemas and column defaults that the routes below use
    and [External] does not list. *)
Class Schemas : Type := {
  api_agents_create_input : gmap string JsVal -> Parsed InsertUser.t;
  api_customColumns_create_input :
    gmap string JsVal -> Parsed InsertCustomColumn.t;
  api_customColumns_update_input :
    gmap string JsVal -> Parsed UpdateCustomColumn.t;
  defaultIsRequired : bool;
  defaultColumnIsActive : bool;
  defaultColumnCreatedAt : Z -> option Z
}.

Section MoreStorage.
Context `{External} `{Schemas}.

(** [deleteRecord]; a [NaN] id makes the query throw. *)
Definition deleteRecord (db : Db) (id : option Z) : option Db :=
  match id with
  | None => None
  | Some id =>
      Some (mkDb (users db)
                 (List.filter (fun r => negb (RecordItem.id r =? id))
                              (records db))
                 (customColumns db) (nextUserId db) (nextRecordId db))
  end.

(** Modelled from the spec: the unique constraint on the name of a
    custom column, which the missing [shared/schema.ts] declares. *)
Definition columnNameHeld (db : Db) (except : option Z) (n : string)
  : bool :=
  existsb (fun c =>
             match except with
             | Some id => negb (CustomColumn.id c =? id)
             | None => true
             end && String.eqb (CustomColumn.name c) n)
          (customColumns db).

(** [createCustomColumn].  [serial] is the value that the id sequence
    of the table yields for the insert. *)
Definition createCustomColumn (serial now : Z) (db : Db)
  (column : InsertCustomColumn.t) : option (Db * CustomColumn.t) :=
  if columnNameHeld db None (InsertCustomColumn.name column) then None
  else
    let created :=
      CustomColumn.mk serial
        (InsertCustomColumn.name column)
        (InsertCustomColumn.fieldType column)
        (default defaultIsRequired (InsertCustomColumn.isRequired column))
        (InsertCustomColumn.options column)
        (default defaultColumnIsActive (InsertCustomColumn.isActive column))
        (defaultColumnCreatedAt now) in
    Some (mkDb (users db) (records db) (customColumns db ++ [created])
               (nextUserId db) (nextRecordId db),
          created).

Definition setColumn (updates : UpdateCustomColumn.t) (c : CustomColumn.t)
  : CustomColumn.t :=
  CustomColumn.mk (CustomColumn.id c)
    (default (CustomColumn.name c) (UpdateCustomColumn.name updates))
    (default (CustomColumn.fieldType c)
             (UpdateCustomColumn.fieldType updates))
    (default (CustomColumn.isRequired c)
             (UpdateCustomColumn.isRequired updates))
    (default (CustomColumn.options c) (UpdateCustomColumn.options updates))
    (default (CustomColumn.isActive c)
             (UpdateCustomColumn.isActive updates))
    (CustomColumn.createdAt c).

Definition noColumnValues (updates : UpdateCustomColumn.t) : bool :=
  match updates with
  | UpdateCustomColumn.mk None None None None None => true
  | _ => false
  end.

Definition columnNameTaken (db : Db) (id : Z)
  (updates : UpdateCustomColumn.t) : bool :=
  match UpdateCustomColumn.name updates with
  | Some n =>
      existsb (fun c => CustomColumn.id c =? id) (customColumns db)
      && columnNameHeld db (Some id) n
  | None => false
  end.

(** [updateCustomColumn]: [updated] is [undefined] when no row has the
    id.  The query throws on a [NaN] id, on an empty [SET] and on a
    name that is held. *)
Definition updateCustomColumn (db : Db) (id : option Z)
  (updates : UpdateCustomColumn.t)
  : option (Db * option CustomColumn.t) :=
  match id with
  | None => None
  | Some id =>
      if noColumnValues updates then None
      else if columnNameTaken db id updates then None
      else
        let columns' :=
          map (fun c => if CustomColumn.id c =? id
                        then setColumn updates c else c)
              (customColumns db) in
        Some (mkDb (users db) (records db) columns'
                   (nextUserId db) (nextRecordId db),
              List.find (fun c => CustomColumn.id c =? id) columns')
  end.

(** [deleteCustomColumn]. *)
Definition deleteCustomColumn (db : Db) (id : option Z) : option Db :=
  match id with
  | None => None
  | Some id =>
      Some (mkDb (users db) (records db)
                 (List.filter (fun c => negb (CustomColumn.id c =? id))
                              (customColumns db))
                 (nextUserId db) (nextRecordId db))
  end.

(** The [filters] object that the list route builds from the query
    string.  A [NaN] [agentId] is falsy for [getRecords] and is written
    [None] like an absent one; an invalid date makes the query throw,
    which is the outer [None]. *)
Definition queryDate (q : gmap string string) (k : string)
  : option (option Z) :=
  match q !! k with
  | Some s =>
      if truthy (JStr s) then
        match parseDate s with
        | Some t => Some (Some t)
        | None => None
        end
      else Some None
  | None => Some None
  end.

Definition queryFilters (q : gmap string string) : option Filters.t :=
  match queryDate q "startDate", queryDate q "endDate" with
  | Some startDate, Some endDate =>
      Some (Filters.mk
              (match q !! "agentId" with
               | Some s => if truthy (JStr s) then Number (JStr s) else None
               | None => None
               end)
              (q !! "search") startDate endDate
              (q !! "town") (q !! "area"))
  | _, _ => None
  end.

(** [GET api.records.list.path]. *)
Definition records_list (db : Db) (req : Request)
  : Db * Response (list RecordItem.t) :=
  match user req with
  | None => (db, Send 401)
  | Some u =>
      if String.eqb (User.role u) "secondary_admin"
         && negb (hasPermission req viewRecords)
      then (db, Message 403 "No permission to view records" None)
      else
        match queryFilters (query req) with
        | Some filters => (db, Json 200 (getRecords db filters))
        | None => (db, Throws)
        end
  end.

(** [DELETE api.records.delete.path]. *)
Definition records_delete (db : Db) (req : Request) : Db * Response unit :=
  if negb (hasPermission req deleteRecords) then (db, Send 403)
  else
    match deleteRecord db (Number (JStr (params_id req))) with
    | Some db' => (db', Send 204)
    | None => (db, Throws)
    end.

(** [GET api.customColumns.list.path]. *)
Definition customColumns_list (db : Db) (req : Request)
  : Db * Response (list CustomColumn.t) :=
  if negb (isAuthenticated req) then (db, Send 401)
  else (db, Json 200 (getCustomColumns db)).

(** [POST api.customColumns.create.path]. *)
Definition customColumns_create (serial now : Z) (db : Db) (req : Request)
  : Db * Response CustomColumn.t :=
  if negb (hasPermission req manageCustomColumns) then (db, Send 403)
  else
    match api_customColumns_create_input (body req) with
    | ZodError message field => (db, Message 400 message (Some field))
    | ParseOk input =>
        match createCustomColumn serial now db input with
        | Some (db', column) => (db', Json 201 column)
        | None => (db, Throws)
        end
    end.

(** [PUT api.customColumns.update.path]; [res.json(column)] sends
    whatever [updateCustomColumn] returned. *)
Definition customColumns_update (db : Db) (req : Request)
  : Db * Response (option CustomColumn.t) :=
  if negb (hasPermission req manageCustomColumns) then (db, Send 403)
  else
    match api_customColumns_update_input (body req) with
    | ZodError message field => (db, Message 400 message (Some field))
    | ParseOk input =>
        match updateCustomColumn db (Number (JStr (params_id req)))
                input with
        | Some (db', column) => (db', Json 200 column)
        | None => (db, Throws)
        end
    end.

(** [DELETE api.customColumns.delete.path]. *)
Definition customColumns_delete (db : Db) (req : Request)
  : Db * Response unit :=
  if negb (hasPermission req manageCustomColumns) then (db, Send 403)
  else
    match deleteCustomColumn db (Number (JStr (params_id req))) with
    | Some db' => (db', Send 204)
    | None => (db, Throws)
    end.

(** [GET api.agents.list.path]. *)
Definition agents_list (db : Db) (req : Request)
  : Db * Response (list User.t) :=
  match user req with
  | None => (db, Send 401)
  | Some u =>
      if String.eqb (User.role u) "secondary_admin"
         && negb (hasPermission req viewAgents)
      then (db, Message 403 "No permission to view agents" None)
      else (db, Json 200 (getAgents db))
  end.

(** [POST api.agents.create.path]. *)
Definition agents_create (db : Db) (req : Request)
  : Db * Response User.t :=
  if negb (hasPermission req createAgents) then (db, Send 403)
  else
    match api_agents_create_input (body req) with
    | ZodError message field => (db, Message 400 message (Some field))
    | ParseOk input =>
        match getUserByUsername db (InsertUser.username input) with
        | Some _ => (db, Message 400 "Username already exists" None)
        | None =>
            match createUser db input with
            | Some (db', agent) => (db', Json 201 agent)
            | None => (db, Throws)
            end
        end
    end.

(** The two accounts that [seedDatabase] writes on startup. *)
Definition seedAdmin : InsertUser.t :=
  InsertUser.mk "admin" "admin123" None "System Administrator"
    (Some "admin") None (Some true).

Definition seedAgent : InsertUser.t :=
  InsertUser.mk "agent1" "password" None "John Doe"
    (Some "agent") None (Some true).

(** The store that [seedDatabase] leaves, and whether it returned
    ([true]) or threw; a first insert that succeeded stays written
    when the second one throws. *)
Definition seedDatabase (db : Db) : Db * bool :=
  match getUserByUsername db "admin" with
  | Some _ => (db, true)
  | None =>
      match createUser db seedAdmin with
      | Some (db1, _) =>
          match createUser db1 seedAgent with
          | Some (db2, _) => (db2, true)
          | None => (db1, false)
          end
      | None => (db, false)
      end
  end.

End MoreStorage.

(** The request whose user has the entry [k] of the permissions map
    set to [v], everything else being the same. *)
Definition setPermission (req : Request) (k : string) (v : JsVal)
  : Request :=
  match user req with
  | Some u =>
      mkRequest
        (Some (User.mk (User.id u) (User.username u) (User.password u)
                 (User.plainPassword u) (User.fullName u) (User.role u)
                 (Some (<[k := v]> (default ∅ (User.permissions u))))
                 (User.isActive u)))
        (body req) (params_id req) (query req)
  | None => req
  end.

(** The bucket label of a record: none without [createdAt], or when
    [dateKey] throws. *)
Definition labelOf `{External} (period : Period) (r : RecordItem.t)
  : option string :=
  match RecordItem.createdAt r with
  | Some d => dateKey period d
  | None => None
  end.

(** The number of records bucketed under [label]. *)
Definition bucketed `{External} (period : Period) (label : string)
  (rs : list RecordItem.t) : nat :=
  length (List.filter
            (fun r => match labelOf period r with
                      | Some k => String.eqb k label
                      | None => false
                      end) rs).

(** A record that has a [createdAt]; a record that has a label. *)
Definition isDated (r : RecordItem.t) : bool :=
  match RecordItem.createdAt r with Some _ => true | None => false end.

Definition isLabelled `{External} (period : Period) (r : RecordItem.t)
  : bool :=
  match labelOf period r with Some _ => true | None => false end.

(** One turn of the loop of [getStats], seen from the date counters. *)
Definition bucketStep `{External} (period : Period)
  (o : list (string * nat)) (r : RecordItem.t) : list (string * nat) :=
  match labelOf period r with
  | Some k => JsObject.bumpStr k o
  | None => o
  end.

(** The store invariant of the serial ids: they are distinct and below
    the next value of their sequence. *)
Definition idsFresh (db : Db) : Prop :=
  NoDup (RecordItem.id <$> records db)
  /\ (forall r, r ∈ records db -> RecordItem.id r < nextRecordId db)
  /\ NoDup (User.id <$> users db)
  /\ (forall u, u ∈ users db -> User.id u < nextUserId db).

(** An instance of [Schemas] for the examples. *)
Module SampleSchemas.

Definition columnInsert (b : gmap string JsVal)
  : Parsed InsertCustomColumn.t :=
  match Sample.textOf (get_prop b "name") with
  | Some n => ParseOk (InsertCustomColumn.mk n text None None None)
  | None => ZodError "Required" "name"
  end.

Definition columnUpdate (b : gmap string JsVal)
  : Parsed UpdateCustomColumn.t :=
  ParseOk (UpdateCustomColumn.mk
             (Sample.textOf (get_prop b "name")) None None None
             (match get_prop b "isActive" with
              | JBool v => Some v
              | _ => None
              end)).

Definition schemas : Schemas := {|
  api_agents_create_input := Sample.userInsert;
  api_customColumns_create_input := columnInsert;
  api_customColumns_update_input := columnUpdate;
  defaultIsRequired := false;
  defaultColumnIsActive := true;
  defaultColumnCreatedAt := Some
|}.

Definition emptyDb : Db := mkDb [] [] [] 1 1.

Definition anonymous : Request := mkRequest None ∅ "1" ∅.

End SampleSchemas.

(** * Properties *)

(** ** Time values *)

Section DateFacts.
Import JsDate.

(** [YearFromDay] is the year of the language specification. *)
Lemma YearFromDay_spec d :
  DayFromYear (YearFromDay d) <= d < DayFromYear (YearFromDay d + 1).
Proof.
  unfold YearFromDay.
  destruct (Z.ltb_spec d (DayFromYear (1970 + 400 * d / 146097)))
    as [Hlt | Hge].
  - replace (1970 + 400 * d / 146097 - 1 + 1)
      with (1970 + 400 * d / 146097) by lia.
    unfold DayFromYear in *.
    split; [| lia]. Z.to_euclidean_division_equations; lia.
  - destruct (Z.leb_spec (DayFromYear (1970 + 400 * d / 146097 + 1)) d)
      as [Hle | Hgt]; [| lia].
    unfold DayFromYear in *.
    split; [lia |]. Z.to_euclidean_division_equations; lia.
Qed.

Lemma monthOfDay_range leap dwy : 0 <= monthOfDay leap dwy <= 11.
Proof.
  unfold monthOfDay.
  repeat match goal with
         | |- context [if ?b then _ else _] => destruct b
         end; lia.
Qed.

(** Moving the day of the month by [k] moves the day number by [k],
    across month and year boundaries. *)
Lemma MakeDay_DateFromTime t k :
  MakeDay (YearFromTime t) (MonthFromTime t) (DateFromTime t - k)
  = Day t - k.
Proof.
  pose proof (monthOfDay_range (InLeapYear (YearFromTime t))
                (DayWithinYear t)) as Hm.
  fold (MonthFromTime t) in Hm.
  unfold MakeDay, DateFromTime, DayWithinYear.
  rewrite (Z.div_small (MonthFromTime t) 12) by lia.
  rewrite (Z.mod_small (MonthFromTime t) 12) by lia.
  rewrite Z.add_0_r. lia.
Qed.

(** [d.setDate(d.getDate() - d.getDay())] subtracts the local day of
    the week, in days, from the time value. *)
Lemma setDate_startOfWeek tza t :
  setDate tza t (getDate tza t - getDay tza t)
  = TimeClip (t - WeekDay (LocalTime tza t) * msPerDay).
Proof.
  unfold setDate, getDate, getDay.
  rewrite MakeDay_DateFromTime.
  f_equal. unfold MakeDate, UTC, Day, TimeWithinDay, LocalTime, msPerDay.
  Z.to_euclidean_division_equations; lia.
Qed.

Lemma WeekDay_range t : 0 <= WeekDay t <= 6.
Proof. unfold WeekDay. Z.to_euclidean_division_equations; lia. Qed.

(** Going back by the day of the week lands on a Sunday, at the same
    time of day, at most six days earlier. *)
Lemma startOfWeek_Sunday t :
  let s := t - WeekDay t * msPerDay in
  WeekDay s = 0 /\ Day s = Day t - WeekDay t
  /\ TimeWithinDay s = TimeWithinDay t.
Proof.
  cbn zeta. unfold WeekDay, Day, TimeWithinDay, msPerDay.
  Z.to_euclidean_division_equations; lia.
Qed.

Lemma TimeClip_Some t : - maxTime <= t <= maxTime -> TimeClip t = Some t.
Proof.
  intros Ht. unfold TimeClip.
  destruct (Z.ltb_spec maxTime (Z.abs t)); [lia | reflexivity].
Qed.
End DateFacts.

(** ** The stable sort *)

Section SortFacts.
Context {A : Type} (before : A -> A -> bool).
Hypothesis before_asym :
  forall a b, before a b = true -> before b a = false.
Hypothesis before_negtrans :
  forall a b c, before b a = false -> before c b = false ->
                before c a = false.

Lemma elem_of_insert_sorted a x l :
  x ∈ insert_sorted before a l <-> x = a \/ x ∈ l.
Proof.
  induction l as [| b l IH]; simpl.
  - rewrite list_elem_of_singleton, elem_of_nil. tauto.
  - destruct (before b a); rewrite !elem_of_cons; [rewrite IH |]; tauto.
Qed.

Lemma elem_of_stable_sort x l : x ∈ stable_sort before l <-> x ∈ l.
Proof.
  induction l as [| a l IH]; simpl; [reflexivity |].
  rewrite elem_of_insert_sorted, IH, elem_of_cons. tauto.
Qed.

Lemma length_insert_sorted a l :
  length (insert_sorted before a l) = S (length l).
Proof.
  induction l as [| b l IH]; simpl; [reflexivity |].
  destruct (before b a); simpl; congruence.
Qed.

Lemma length_stable_sort l : length (stable_sort before l) = length l.
Proof.
  induction l as [| a l IH]; simpl; [reflexivity |].
  rewrite length_insert_sorted. congruence.
Qed.

Lemma insert_sorted_ordered a l :
  StronglySorted (inOrder before) l ->
  StronglySorted (inOrder before) (insert_sorted before a l).
Proof.
  induction 1 as [| b l Hl IH Hb]; simpl.
  - repeat constructor.
  - destruct (before b a) eqn:Hba.
    + constructor; [exact IH |].
      apply Forall_forall. intros x Hx.
      apply elem_of_insert_sorted in Hx as [-> | Hx].
      * apply before_asym, Hba.
      * rewrite Forall_forall in Hb. apply Hb, Hx.
    + constructor; [constructor; assumption |].
      constructor; [exact Hba |].
      rewrite Forall_forall in Hb |- *. intros x Hx.
      apply (before_negtrans a b x); [exact Hba | apply Hb, Hx].
Qed.

Lemma stable_sort_ordered l :
  StronglySorted (inOrder before) (stable_sort before l).
Proof.
  induction l as [| a l IH]; simpl; [constructor |].
  apply insert_sorted_ordered, IH.
Qed.

(** Sorting leaves a sorted list alone. *)
Lemma stable_sort_fixed l :
  StronglySorted (inOrder before) l -> stable_sort before l = l.
Proof.
  induction 1 as [| a l Hl IH Ha]; simpl; [reflexivity |].
  rewrite IH. destruct l as [| b l']; simpl; [reflexivity |].
  apply Forall_cons in Ha as [Hab _]. unfold inOrder in Hab.
  rewrite Hab. reflexivity.
Qed.

Lemma stable_sort_idem l :
  stable_sort before (stable_sort before l) = stable_sort before l.
Proof. apply stable_sort_fixed, stable_sort_ordered. Qed.

Lemma filter_insert_sorted (P : A -> bool) a l :
  StronglySorted (inOrder before) l ->
  List.filter P (insert_sorted before a l)
  = if P a then insert_sorted before a (List.filter P l)
    else List.filter P l.
Proof.
  induction 1 as [| b l Hl IH Hb]; simpl.
  - destruct (P a); reflexivity.
  - destruct (before b a) eqn:Hba; simpl.
    + rewrite IH. destruct (P b), (P a); simpl; rewrite ?Hba; reflexivity.
    + destruct (P a) eqn:HPa, (P b) eqn:HPb; simpl;
        rewrite ?Hba, ?HPa, ?HPb; try reflexivity.
      (* [b] is dropped: [a] still goes to the front *)
      destruct (List.filter P l) as [| c l'] eqn:Hf; simpl;
        [reflexivity |].
      assert (Hc : c ∈ l).
      { apply list_elem_of_In.
        apply (proj1 (filter_In P c l)).
        rewrite Hf. left. reflexivity. }
      rewrite Forall_forall in Hb.
      rewrite (before_negtrans a b c Hba (Hb c Hc)). reflexivity.
Qed.

(** Selecting rows commutes with ordering them. *)
Lemma filter_stable_sort (P : A -> bool) l :
  List.filter P (stable_sort before l)
  = stable_sort before (List.filter P l).
Proof.
  induction l as [| a l IH]; simpl; [reflexivity |].
  rewrite filter_insert_sorted by apply stable_sort_ordered.
  rewrite IH. destruct (P a); reflexivity.
Qed.
End SortFacts.

Lemma descNullsFirst_asym x y :
  descNullsFirst x y = true -> descNullsFirst y x = false.
Proof. destruct x, y; simpl; try congruence; lia. Qed.

Lemma descNullsFirst_negtrans x y z :
  descNullsFirst y x = false -> descNullsFirst z y = false ->
  descNullsFirst z x = false.
Proof. destruct x, y, z; simpl; try congruence; lia. Qed.

Lemma filter_filter_andb {A} (P Q : A -> bool) l :
  List.filter P (List.filter Q l) = List.filter (fun x => P x && Q x) l.
Proof.
  induction l as [| a l IH]; simpl; [reflexivity |].
  destruct (Q a) eqn:HQ; simpl; rewrite ?IH, ?andb_true_r, ?andb_false_r;
    [destruct (P a) |]; reflexivity.
Qed.

(** ** The counter objects *)

Section ObjectFacts.
Import JsObject.

Lemma get_replace k v o k' :
  get Z.eqb k' (replace Z.eqb k v o)
  = if k =? k'
    then match get Z.eqb k o with Some _ => Some v | None => None end
    else get Z.eqb k' o.
Proof.
  induction o as [| [k0 v0] o IH]; simpl.
  - destruct (k =? k'); reflexivity.
  - destruct (Z.eqb_spec k0 k) as [-> | Hk0]; simpl.
    + destruct (Z.eqb_spec k k'); reflexivity.
    + destruct (Z.eqb_spec k0 k') as [-> | Hk0']; simpl.
      * destruct (Z.eqb_spec k k'); [congruence | reflexivity].
      * exact IH.
Qed.

Lemma get_insertIndex k v o k' :
  get Z.eqb k' (insertIndex k v o)
  = if k =? k' then Some v else get Z.eqb k' o.
Proof.
  induction o as [| [k0 v0] o IH]; simpl.
  - reflexivity.
  - destruct (isArrayIndex k0 && (k0 <? k)) eqn:Hlt; simpl.
    + apply andb_true_iff in Hlt as [_ Hlt]. apply Z.ltb_lt in Hlt.
      rewrite IH.
      destruct (Z.eqb_spec k0 k'), (Z.eqb_spec k k'); try reflexivity; lia.
    + reflexivity.
Qed.

Lemma get_snoc k v o k' :
  get Z.eqb k' (o ++ [(k, v)])
  = match get Z.eqb k' o with
    | Some x => Some x
    | None => if k =? k' then Some v else None
    end.
Proof.
  induction o as [| [k0 v0] o IH]; simpl; [reflexivity |].
  destruct (k0 =? k'); [reflexivity | exact IH].
Qed.

(** Reading after [o[k] = v]. *)
Lemma get_set k v o k' :
  get Z.eqb k' (set k v o) = if k =? k' then Some v else get Z.eqb k' o.
Proof.
  unfold set. destruct (get Z.eqb k o) as [v0 |] eqn:Hget.
  - rewrite get_replace, Hget. reflexivity.
  - destruct (isArrayIndex k).
    + apply get_insertIndex.
    + rewrite get_snoc.
      destruct (Z.eqb_spec k k') as [<- | Hne].
      * rewrite Hget. reflexivity.
      * destruct (get Z.eqb k' o); reflexivity.
Qed.

Lemma keys_replace k v o : (replace Z.eqb k v o).*1 = o.*1.
Proof.
  induction o as [| [k0 v0] o IH]; simpl; [reflexivity |].
  destruct (k0 =? k); csimpl; [reflexivity | f_equal; exact IH].
Qed.

Lemma keys_insertIndex k v o : (insertIndex k v o).*1 ≡ₚ k :: o.*1.
Proof.
  induction o as [| [k0 v0] o IH]; simpl; [reflexivity |].
  destruct (isArrayIndex k0 && (k0 <? k)); simpl; [| reflexivity].
  rewrite IH. apply Permutation_swap.
Qed.

Lemma get_None_keys k o : get Z.eqb k o = None <-> k ∉ o.*1.
Proof.
  induction o as [| [k0 v0] o IH]; simpl.
  - rewrite elem_of_nil. tauto.
  - rewrite not_elem_of_cons.
    destruct (Z.eqb_spec k0 k) as [-> | Hne].
    + split; [discriminate | tauto].
    + rewrite IH. split; [intros Hk; split; [auto | exact Hk] | tauto].
Qed.

(** The keys of an object stay distinct. *)
Lemma keys_set_NoDup k v o : NoDup o.*1 -> NoDup (set k v o).*1.
Proof.
  intros Hnd. unfold set.
  destruct (get Z.eqb k o) as [v0 |] eqn:Hget.
  - rewrite keys_replace. exact Hnd.
  - apply get_None_keys in Hget. destruct (isArrayIndex k).
    + rewrite keys_insertIndex. constructor; assumption.
    + rewrite fmap_app. simpl. apply NoDup_app.
      split; [exact Hnd |]. split; [| apply NoDup_singleton].
      intros x Hx Hx'. apply list_elem_of_singleton in Hx'. congruence.
Qed.

(** With distinct keys, the entries are what [get] reads. *)
Lemma elem_of_get k v o :
  NoDup o.*1 -> (k, v) ∈ o <-> get Z.eqb k o = Some v.
Proof.
  induction o as [| [k0 v0] o IH]; simpl; intros Hnd.
  - rewrite elem_of_nil. split; [tauto | discriminate].
  - apply NoDup_cons in Hnd as [Hk0 Hnd]. rewrite elem_of_cons.
    destruct (Z.eqb_spec k0 k) as [-> | Hne].
    + split.
      * intros [Heq | Hin]; [congruence |].
        exfalso. apply Hk0. apply list_elem_of_fmap.
        exists (k, v). split; [reflexivity | exact Hin].
      * intros [= ->]. left. reflexivity.
    + rewrite <- (IH Hnd). split; [| tauto].
      intros [Heq | Hin]; [congruence | exact Hin].
Qed.

Lemma sum_replace k v o v0 :
  get Z.eqb k o = Some v0 ->
  (sum_list_with snd (replace Z.eqb k v o) + v0 = sum_list_with snd o + v)%nat.
Proof.
  induction o as [| [k1 v1] o IH]; csimpl; [discriminate |].
  destruct (k1 =? k); csimpl.
  - intros [= ->]. lia.
  - intros Hget. specialize (IH Hget). lia.
Qed.

Lemma sum_insertIndex k v o :
  sum_list_with snd (insertIndex k v o) = (v + sum_list_with snd o)%nat.
Proof.
  induction o as [| [k1 v1] o IH]; csimpl; [reflexivity |].
  destruct (isArrayIndex k1 && (k1 <? k)); csimpl; [rewrite IH |]; lia.
Qed.

(** Every turn of the loop adds one to the sum of the counters. *)
Lemma sum_bump k o :
  sum_list_with snd (bump k o) = S (sum_list_with snd o).
Proof.
  unfold bump, set. destruct (get Z.eqb k o) as [v0 |] eqn:Hget; csimpl.
  - pose proof (sum_replace k (v0 + 1)%nat o v0 Hget). lia.
  - destruct (isArrayIndex k).
    + rewrite sum_insertIndex. reflexivity.
    + rewrite sum_list_with_app. csimpl. lia.
Qed.

Lemma get_bump k o k' :
  get Z.eqb k' (bump k o)
  = if k =? k' then Some (default 0%nat (get Z.eqb k o) + 1)%nat
    else get Z.eqb k' o.
Proof. unfold bump. apply get_set. Qed.

End ObjectFacts.

(** ** Authorization *)

Section Authorization.
Context `{External}.

Lemma roleIs_eq req u r :
  user req = Some u -> roleIs req r = String.eqb (User.role u) r.
Proof. intros Hu. unfold roleIs. rewrite Hu. reflexivity. Qed.

Lemma permission_key_inj p q : permission_key p = permission_key q -> p = q.
Proof.
  destruct p, q; simpl; intros Hpq; first [reflexivity | discriminate].
Qed.

Lemma strictly_true_iff v : strictly_true v = true <-> v = JBool true.
Proof.
  destruct v as [| | [|] | | | | |]; simpl; split;
    first [reflexivity | discriminate | congruence].
Qed.

(** What [hasPermission] computes for each of the three roles. *)
Lemma hasPermission_admin req u p :
  user req = Some u -> User.role u = "admin" -> hasPermission req p = true.
Proof.
  intros Hu Hr. unfold hasPermission, isAuthenticated.
  rewrite (roleIs_eq req u "admin" Hu), Hu, Hr. reflexivity.
Qed.

Lemma hasPermission_secondary req u p :
  user req = Some u -> User.role u = "secondary_admin" ->
  hasPermission req p
  = match User.permissions u with
    | Some perms => strictly_true (get_prop perms (permission_key p))
    | None => false
    end.
Proof.
  intros Hu Hr. unfold hasPermission, isAuthenticated.
  rewrite (roleIs_eq req u "admin" Hu),
          (roleIs_eq req u "secondary_admin" Hu), Hu, Hr.
  reflexivity.
Qed.

Lemma hasPermission_agent req u p :
  user req = Some u -> User.role u = "agent" -> hasPermission req p = false.
Proof.
  intros Hu Hr. unfold hasPermission, isAuthenticated.
  rewrite (roleIs_eq req u "admin" Hu),
          (roleIs_eq req u "secondary_admin" Hu), Hu, Hr.
  reflexivity.
Qed.

Lemma filter_all_true {A} (P : A -> bool) l :
  (forall x, P x = true) -> List.filter P l = l.
Proof.
  intros HP. induction l as [| a l IH]; simpl; [reflexivity |].
  rewrite HP, IH. reflexivity.
Qed.

Lemma filter_all_false {A} (P : A -> bool) l :
  (forall x, P x = false) -> List.filter P l = [].
Proof.
  intros HP. induction l as [| a l IH]; simpl; [reflexivity |].
  rewrite HP. exact IH.
Qed.

Lemma ALL_PERMISSIONS_complete p : p ∈ ALL_PERMISSIONS.
Proof.
  unfold ALL_PERMISSIONS. rewrite !elem_of_cons. destruct p; tauto.
Qed.

Lemma elem_of_effectivePermissions req p :
  p ∈ effectivePermissions req <-> hasPermission req p = true.
Proof.
  unfold effectivePermissions.
  rewrite list_elem_of_In, filter_In, <- list_elem_of_In.
  pose proof (ALL_PERMISSIONS_complete p). tauto.
Qed.

(** C1. For an actor with role admin every permission of the fixed set
    is granted, whatever the stored permissions map holds; for a
    secondary_admin exactly the permissions whose map entry is [true]
    are granted, an absent key (or an absent map) counting as false;
    for an agent no permission is granted. *)
Theorem hasPermission_by_role (req : Request) (u : User.t) :
  user req = Some u ->
  (User.role u = "admin" ->
     (forall p, hasPermission req p = true)
     /\ effectivePermissions req = ALL_PERMISSIONS)
  /\ (User.role u = "secondary_admin" ->
      (forall p,
          hasPermission req p = true <->
          exists perms,
            User.permissions u = Some perms
            /\ perms !! permission_key p = Some (JBool true))
      /\ (forall p perms,
             User.permissions u = Some perms ->
             perms !! permission_key p = None ->
             hasPermission req p = false)
      /\ (User.permissions u = None ->
          forall p, hasPermission req p = false)
      /\ (forall p,
             p ∈ effectivePermissions req <->
             exists perms,
               User.permissions u = Some perms
               /\ perms !! permission_key p = Some (JBool true)))
  /\ (User.role u = "agent" ->
      (forall p, hasPermission req p = false)
      /\ effectivePermissions req = []).
Proof.
  intros Hu.
  assert (Hsec : User.role u = "secondary_admin" ->
                 forall p,
                   hasPermission req p = true <->
                   exists perms,
                     User.permissions u = Some perms
                     /\ perms !! permission_key p = Some (JBool true)).
  { intros Hr p. rewrite (hasPermission_secondary req u p Hu Hr).
    destruct (User.permissions u) as [perms |].
    - rewrite strictly_true_iff. unfold get_prop. split.
      + intros Hv. exists perms. split; [reflexivity |].
        destruct (perms !! permission_key p); simpl in Hv;
          [congruence | discriminate].
      + intros (perms' & [= <-] & Hv). rewrite Hv. reflexivity.
    - split; [discriminate |]. intros (perms' & Hp & _). discriminate. }
  split; [| split].
  - intros Hr. split.
    + intros p. exact (hasPermission_admin req u p Hu Hr).
    + apply filter_all_true. intros p.
      exact (hasPermission_admin req u p Hu Hr).
  - intros Hr. split; [exact (Hsec Hr) |]. split; [| split].
    + intros p perms Hp Hv.
      rewrite (hasPermission_secondary req u p Hu Hr), Hp.
      unfold get_prop. rewrite Hv. reflexivity.
    + intros Hp p.
      rewrite (hasPermission_secondary req u p Hu Hr), Hp. reflexivity.
    + intros p. rewrite elem_of_effectivePermissions. exact (Hsec Hr p).
  - intros Hr. split.
    + intros p. exact (hasPermission_agent req u p Hu Hr).
    + apply filter_all_false. intros p.
      exact (hasPermission_agent req u p Hu Hr).
Qed.

Lemma isAdmin_iff req :
  isAdmin req = true <->
  exists u, user req = Some u /\ User.role u = "admin".
Proof.
  unfold isAdmin, isAuthenticated, roleIs.
  destruct (user req) as [u |]; simpl.
  - rewrite String.eqb_eq. split; [eauto |].
    intros (u' & [= <-] & Hr). exact Hr.
  - split; [discriminate |]. intros (u' & Hu & _). discriminate.
Qed.

End Authorization.

Lemma hasPermission_by_role_witness :
  let req := Sample.requestBy Sample.deputy [] "" in
  user req = Some Sample.deputy
  /\ forall p, p ∈ effectivePermissions req <->
               exists perms,
                 User.permissions Sample.deputy = Some perms
                 /\ perms !! permission_key p = Some (JBool true).
Proof.
  split; [reflexivity |].
  apply (hasPermission_by_role
           (Sample.requestBy Sample.deputy [] "") Sample.deputy eq_refl).
  reflexivity.
Defined.

(** ** Statistics *)

Section StatsFacts.
Context `{External}.
Import JsObject.

(** The agent counters after the loop over [rs]. *)
Lemma countRecord_None period rs :
  foldl (countRecord period) None rs = None.
Proof. induction rs as [| r rs IH]; simpl; [reflexivity | exact IH]. Qed.

Lemma countRecord_agentCounts period rs :
  forall ac dc ac' dc',
    foldl (countRecord period) (Some (ac, dc)) rs = Some (ac', dc') ->
    ac' = foldl (fun o r => bump (RecordItem.collectedBy r) o) ac rs.
Proof.
  induction rs as [| r rs IH]; simpl; intros ac dc ac' dc' Hfold.
  - congruence.
  - destruct (RecordItem.createdAt r) as [d |].
    + destruct (dateKey period d) as [k |].
      * exact (IH _ _ _ _ Hfold).
      * rewrite countRecord_None in Hfold. discriminate.
    + exact (IH _ _ _ _ Hfold).
Qed.

Lemma attributedTo_snoc k rs r :
  attributedTo k (rs ++ [r])
  = (attributedTo k rs
     + if (RecordItem.collectedBy r =? k)%Z then 1 else 0)%nat.
Proof.
  unfold attributedTo. rewrite List.filter_app, length_app. simpl.
  destruct (RecordItem.collectedBy r =? k); reflexivity.
Qed.

Lemma agentCounts_get rs k :
  get Z.eqb k (foldl (fun o r => bump (RecordItem.collectedBy r) o) [] rs)
  = if (attributedTo k rs =? 0)%nat then None
    else Some (attributedTo k rs).
Proof.
  induction rs as [| r rs IH] using rev_ind; [reflexivity |].
  rewrite foldl_app. simpl. rewrite get_bump, attributedTo_snoc.
  destruct (Z.eqb_spec (RecordItem.collectedBy r) k) as [-> | Hne].
  - rewrite IH. destruct (Nat.eqb_spec (attributedTo k rs) 0) as [Hz | Hnz].
    + rewrite Hz. reflexivity.
    + simpl. destruct (Nat.eqb_spec (attributedTo k rs + 1) 0); [lia |].
      reflexivity.
  - rewrite IH, Nat.add_0_r. reflexivity.
Qed.

Lemma agentCounts_NoDup rs :
  NoDup (foldl (fun o r => bump (RecordItem.collectedBy r) o) [] rs).*1.
Proof.
  induction rs as [| r rs IH] using rev_ind; [constructor |].
  rewrite foldl_app. simpl. apply keys_set_NoDup, IH.
Qed.

Lemma agentCounts_sum rs :
  sum_list_with snd
    (foldl (fun o r => bump (RecordItem.collectedBy r) o) [] rs)
  = length rs.
Proof.
  induction rs as [| r rs IH] using rev_ind; [reflexivity |].
  rewrite foldl_app, length_app. simpl. rewrite sum_bump, IH. lia.
Qed.

Lemma attributedTo_pos k rs :
  (attributedTo k rs =? 0)%nat = false <->
  exists r, r ∈ rs /\ RecordItem.collectedBy r = k.
Proof.
  unfold attributedTo. rewrite Nat.eqb_neq. split.
  - intros Hlen.
    destruct (List.filter (fun r => RecordItem.collectedBy r =? k) rs)
      as [| r l] eqn:Hf; [contradiction |].
    assert (Hin : In r (List.filter
                          (fun r => RecordItem.collectedBy r =? k) rs)).
    { rewrite Hf. left. reflexivity. }
    apply filter_In in Hin as [Hin Hk]. exists r.
    split; [apply list_elem_of_In, Hin | apply Z.eqb_eq, Hk].
  - intros (r & Hin & Hk) Hlen.
    apply length_zero_iff_nil in Hlen.
    assert (Hf : In r (List.filter
                         (fun r => RecordItem.collectedBy r =? k) rs)).
    { apply filter_In. split; [apply list_elem_of_In, Hin |].
      apply Z.eqb_eq, Hk. }
    rewrite Hlen in Hf. exact Hf.
Qed.

(** [getStats] returns for the day and month periods, and for the week
    period when no timestamp lies in the first six days of the range
    of time values. *)
Lemma dateKey_returns period d :
  period <> week \/ - JsDate.maxTime + 6 * JsDate.msPerDay <= d
                    /\ d <= JsDate.maxTime ->
  is_Some (dateKey period d).
Proof.
  intros Hok. destruct period; simpl; try (eexists; reflexivity).
  destruct Hok as [Hne | [Hlo Hhi]]; [congruence |].
  rewrite setDate_startOfWeek.
  pose proof (WeekDay_range (JsDate.LocalTime tza d)) as Hwd.
  rewrite TimeClip_Some; [eexists; reflexivity |].
  unfold JsDate.msPerDay, JsDate.maxTime in *. lia.
Qed.

Lemma getStats_returns db period :
  (period <> week
   \/ forall r d, r ∈ records db -> RecordItem.createdAt r = Some d ->
                  - JsDate.maxTime + 6 * JsDate.msPerDay <= d
                  /\ d <= JsDate.maxTime) ->
  is_Some (getStats db period).
Proof.
  intros Hok. unfold getStats.
  assert (Hfold : forall rs acc,
             (forall r, r ∈ rs -> r ∈ records db) ->
             is_Some (foldl (countRecord period) (Some acc) rs)).
  { induction rs as [| r rs IH]; intros [ac dc] Hsub; simpl.
    - eexists; reflexivity.
    - destruct (RecordItem.createdAt r) as [d |] eqn:Hd.
      + destruct (dateKey_returns period d) as [k Hk].
        { destruct Hok as [Hne | Hrange]; [left; exact Hne | right].
          apply (Hrange r d); [apply Hsub; left | exact Hd]. }
        rewrite Hk. apply IH. intros r' Hr'. apply Hsub. right. exact Hr'.
      + apply IH. intros r' Hr'. apply Hsub. right. exact Hr'. }
  destruct (Hfold (records db) ([], []) (fun r Hr => Hr)) as [[ac dc] Hacc].
  rewrite Hacc. eexists; reflexivity.
Qed.

Lemma sum_perAgent (f : Z -> string) o :
  sum_list_with PerAgent.count
    (map (fun '(id, cnt) => PerAgent.mk id (f id) cnt) o)
  = sum_list_with snd o.
Proof.
  induction o as [| [k v] o IH]; simpl; [reflexivity |].
  rewrite IH. reflexivity.
Qed.

(** C4. The [totalRecords] that [getStats] returns is the number of
    records of the whole collection (the function takes no filter),
    for every period, and it equals the sum of the [count] fields of
    [recordsPerAgent].  The function returns for the day and month
    periods, and for the week period when no timestamp lies in the
    first six days of the range of time values. *)
Theorem getStats_totalRecords (db : Db) (period : Period) :
  (forall stats,
      getStats db period = Some stats ->
      Stats.totalRecords stats = length (records db)
      /\ Stats.totalRecords stats
         = sum_list_with PerAgent.count (Stats.recordsPerAgent stats))
  /\ (period <> week
      \/ (forall r d,
             r ∈ records db -> RecordItem.createdAt r = Some d ->
             - JsDate.maxTime + 6 * JsDate.msPerDay <= d
             /\ d <= JsDate.maxTime) ->
      is_Some (getStats db period)).
Proof.
  split; [| apply getStats_returns].
  unfold getStats. intros stats Hstats.
  destruct (foldl (countRecord period) (Some ([], [])) (records db))
    as [[ac dc] |] eqn:Hfold; [| discriminate].
  apply countRecord_agentCounts in Hfold. subst ac.
  injection Hstats as <-. simpl. split; [reflexivity |].
  rewrite sum_perAgent, agentCounts_sum. reflexivity.
Qed.

End StatsFacts.

Lemma getStats_totalRecords_witness :
  exists stats,
    @getStats Sample.utcServer Scenario.weekDb week = Some stats
    /\ Stats.totalRecords stats = 3%nat
    /\ sum_list_with PerAgent.count (Stats.recordsPerAgent stats) = 3%nat.
Proof.
  destruct (@getStats Sample.utcServer Scenario.weekDb week)
    as [stats |] eqn:Hstats; [| vm_compute in Hstats; discriminate].
  exists stats. split; [reflexivity |].
  destruct (proj1 (@getStats_totalRecords Sample.utcServer
                     Scenario.weekDb week) stats Hstats)
    as [Htotal Hsum].
  split; [exact Htotal | rewrite <- Hsum; exact Htotal].
Defined.

(** ** The agent names of the statistics *)

Section AgentNames.
Context `{External}.
Import JsObject.

Lemma agentMapOf_snoc l a :
  agentMapOf (l ++ [a]) = <[User.id a := User.fullName a]> (agentMapOf l).
Proof. unfold agentMapOf. rewrite foldl_app. reflexivity. Qed.

(** An entry of the map comes from a user of the list. *)
Lemma agentMapOf_Some l k name :
  agentMapOf l !! k = Some name ->
  exists a, a ∈ l /\ User.id a = k /\ User.fullName a = name.
Proof.
  induction l as [| a l IH] using rev_ind.
  - unfold agentMapOf. simpl. rewrite lookup_empty. discriminate.
  - rewrite agentMapOf_snoc.
    destruct (decide (User.id a = k)) as [<- | Hne].
    + rewrite lookup_insert_eq. intros [= <-].
      exists a. rewrite elem_of_app, list_elem_of_singleton. auto.
    + rewrite lookup_insert_ne by exact Hne. intros Hl.
      destruct (IH Hl) as (a' & Hin & Hid & Hname).
      exists a'. rewrite elem_of_app. auto.
Qed.

(** With distinct ids, every user of the list is found under its id. *)
Lemma agentMapOf_lookup l a :
  NoDup (User.id <$> l) -> a ∈ l ->
  agentMapOf l !! User.id a = Some (User.fullName a).
Proof.
  induction l as [| x l IH] using rev_ind; intros Hnd Hin.
  - apply elem_of_nil in Hin. contradiction.
  - rewrite agentMapOf_snoc. rewrite fmap_app in Hnd.
    apply NoDup_app in Hnd as (Hnd & Hfresh & _).
    apply elem_of_app in Hin as [Hin | Hin].
    + rewrite lookup_insert_ne; [exact (IH Hnd Hin) |].
      intros Heq. apply (Hfresh (User.id a)).
      * apply list_elem_of_fmap. exists a. auto.
      * simpl. rewrite Heq. apply list_elem_of_singleton. reflexivity.
    + apply list_elem_of_singleton in Hin as ->. apply lookup_insert_eq.
Qed.

Lemma NoDup_fmap_filter {A B} (f : A -> B) (P : A -> bool) l :
  NoDup (f <$> l) -> NoDup (f <$> List.filter P l).
Proof.
  induction l as [| a l IH]; csimpl; [trivial |].
  rewrite NoDup_cons. intros [Ha Hnd].
  destruct (P a); [| exact (IH Hnd)].
  csimpl. rewrite NoDup_cons. split; [| exact (IH Hnd)].
  intros Hin. apply Ha.
  apply list_elem_of_fmap in Hin as (x & -> & Hx).
  apply list_elem_of_In, filter_In in Hx as [Hx _].
  apply list_elem_of_fmap. exists x. split; [reflexivity |].
  apply list_elem_of_In, Hx.
Qed.

Lemma elem_of_agents db a :
  a ∈ List.filter (fun u => String.eqb (User.role u) "agent") (users db)
  <-> a ∈ users db /\ User.role a = "agent".
Proof.
  rewrite list_elem_of_In, filter_In, <- list_elem_of_In, String.eqb_eq.
  reflexivity.
Qed.

Lemma perAgent_ids (f : Z -> string) (o : list (Z * nat)) :
  PerAgent.agentId
  <$> map (fun '(id, cnt) => PerAgent.mk id (f id) cnt) o
  = o.*1.
Proof.
  induction o as [| [k v] o IH]; csimpl; [reflexivity |].
  f_equal. exact IH.
Qed.

Lemma elem_of_perAgent (f : Z -> string) (o : list (Z * nat)) e :
  e ∈ map (fun '(id, cnt) => PerAgent.mk id (f id) cnt) o ->
  (PerAgent.agentId e, PerAgent.count e) ∈ o
  /\ PerAgent.agentName e = f (PerAgent.agentId e).
Proof.
  intros He. apply list_elem_of_In, in_map_iff in He as ([k v] & <- & Hin).
  simpl. split; [apply list_elem_of_In, Hin | reflexivity].
Qed.

(** C7, as the code has it.  When user ids are distinct,
    [recordsPerAgent] has exactly one entry per [collectedBy] value
    present among the records, its [count] is the number of records
    attributed to the value, and its [agentName] is the [fullName] of
    the user with that id whose role is agent, when there is one and
    its name is not empty; otherwise (no such user, a user of another
    role, an empty name) it is the label made of "Agent #" and the
    id.  [getStats] returns under the condition stated first. *)
Theorem getStats_recordsPerAgent (db : Db) (period : Period) :
  NoDup (User.id <$> users db) ->
  (period <> week
   \/ (forall r d,
          r ∈ records db -> RecordItem.createdAt r = Some d ->
          - JsDate.maxTime + 6 * JsDate.msPerDay <= d
          /\ d <= JsDate.maxTime) ->
   is_Some (getStats db period))
  /\ (forall stats,
         getStats db period = Some stats ->
         NoDup (PerAgent.agentId <$> Stats.recordsPerAgent stats)
         /\ (forall k,
                k ∈ PerAgent.agentId <$> Stats.recordsPerAgent stats <->
                exists r, r ∈ records db /\ RecordItem.collectedBy r = k)
         /\ (forall e,
                e ∈ Stats.recordsPerAgent stats ->
                PerAgent.count e
                = attributedTo (PerAgent.agentId e) (records db)
                /\ (forall u,
                       u ∈ users db -> User.id u = PerAgent.agentId e ->
                       User.role u = "agent" -> User.fullName u <> "" ->
                       PerAgent.agentName e = User.fullName u)
                /\ ((forall u,
                        u ∈ users db -> User.id u = PerAgent.agentId e ->
                        User.role u <> "agent" \/ User.fullName u = "") ->
                    PerAgent.agentName e
                    = "Agent #" +:+ string_of_Z (PerAgent.agentId e)))).
Proof.
  intros Hids. split; [apply getStats_returns |].
  intros stats Hstats. unfold getStats in Hstats.
  destruct (foldl (countRecord period) (Some ([], [])) (records db))
    as [[ac dc] |] eqn:Hfold; [| discriminate].
  apply countRecord_agentCounts in Hfold. subst ac.
  injection Hstats as <-. cbn [Stats.recordsPerAgent].
  set (agents := List.filter
                   (fun u => String.eqb (User.role u) "agent") (users db)).
  set (ac := foldl (fun o r => bump (RecordItem.collectedBy r) o) []
                   (records db)).
  rewrite perAgent_ids.
  split; [apply agentCounts_NoDup |]. split.
  - intros k. rewrite <- attributedTo_pos.
    pose proof (agentCounts_get (records db) k) as Hget. fold ac in Hget.
    pose proof (get_None_keys k ac) as Hnone.
    destruct (attributedTo k (records db) =? 0)%nat.
    + split; [| discriminate]. intros Hin. tauto.
    + split; [reflexivity |]. intros _.
      destruct (decide (k ∈ ac.*1)) as [Hin | Hnin]; [exact Hin |].
      apply Hnone in Hnin. congruence.
  - intros e He. apply elem_of_perAgent in He as [Hentry Hname].
    apply (elem_of_get _ _ _ (agentCounts_NoDup (records db))) in Hentry.
    pose proof (agentCounts_get (records db) (PerAgent.agentId e)) as Hget.
    fold ac in Hentry, Hget. rewrite Hentry in Hget.
    split; [| split].
    + destruct (attributedTo (PerAgent.agentId e) (records db) =? 0)%nat;
        congruence.
    + intros u Hu Hid Hrole Hfull. rewrite Hname, <- Hid.
      unfold agentNameOf.
      rewrite (agentMapOf_lookup agents u).
      * simpl. destruct (String.eqb_spec (User.fullName u) "");
          [contradiction | reflexivity].
      * apply NoDup_fmap_filter, Hids.
      * apply elem_of_agents. auto.
    + intros Hnone. rewrite Hname. unfold agentNameOf.
      destruct (agentMapOf agents !! PerAgent.agentId e) as [name |] eqn:Hl;
        [| reflexivity].
      apply agentMapOf_Some in Hl as (a & Ha & Hid & <-).
      apply elem_of_agents in Ha as [Ha Hrole].
      destruct (Hnone a Ha Hid) as [Hr | ->]; [contradiction |].
      reflexivity.
Qed.

End AgentNames.

Lemma getStats_recordsPerAgent_witness :
  exists stats,
    @getStats Sample.utcServer Scenario.weekDb week = Some stats
    /\ forall e, e ∈ Stats.recordsPerAgent stats ->
                 PerAgent.count e
                 = attributedTo (PerAgent.agentId e)
                     (records Scenario.weekDb).
Proof.
  destruct (@getStats Sample.utcServer Scenario.weekDb week)
    as [stats |] eqn:Hstats; [| vm_compute in Hstats; discriminate].
  exists stats. split; [reflexivity |]. intros e He.
  assert (Hids : NoDup (User.id <$> users Scenario.weekDb)).
  { refine (bool_decide_unpack _ _). vm_compute. exact I. }
  destruct (@getStats_recordsPerAgent Sample.utcServer Scenario.weekDb
              week Hids) as (_ & Hresult).
  destruct (Hresult stats Hstats) as (_ & _ & Hentries).
  apply (Hentries e He).
Defined.

(** C7, the counterexample: a record collected by the seeded
    administrator is listed under the label, although the
    administrator exists. *)
Lemma getStats_label_for_admin :
  exists stats,
    @getStats Sample.utcServer Scenario.adminRecordDb day = Some stats
    /\ Stats.recordsPerAgent stats = [PerAgent.mk 1 "Agent #1" 1]
    /\ Sample.admin ∈ users Scenario.adminRecordDb
    /\ User.id Sample.admin = 1
    /\ User.fullName Sample.admin = "System Administrator".
Proof.
  eexists. split; [vm_compute; reflexivity |].
  split; [reflexivity |]. split; [left |]. split; reflexivity.
Qed.

(** ** Week buckets *)

Section WeekBuckets.
Context `{External}.

(** The week label in any zone: the UTC date of the instant found by
    going back the local day of the week, in whole days. *)
Lemma dateKey_week d :
  - JsDate.maxTime + 6 * JsDate.msPerDay <= d <= JsDate.maxTime ->
  dateKey week d
  = Some ("W " +:+ JsDate.isoDate
            (d - JsDate.WeekDay (JsDate.LocalTime tza d) * JsDate.msPerDay)).
Proof.
  intros Hd. simpl. rewrite setDate_startOfWeek.
  pose proof (WeekDay_range (JsDate.LocalTime tza d)) as Hwd.
  rewrite TimeClip_Some; [reflexivity |].
  unfold JsDate.msPerDay, JsDate.maxTime in *. lia.
Qed.

(** On a server whose local zone is UTC the label is the date of the
    Sunday that starts the week of the record. *)
Lemma dateKey_week_UTC d :
  tza = 0 ->
  - JsDate.maxTime + 6 * JsDate.msPerDay <= d <= JsDate.maxTime ->
  exists sunday,
    dateKey week d = Some ("W " +:+ JsDate.isoDate sunday)
    /\ JsDate.WeekDay sunday = 0
    /\ JsDate.Day sunday <= JsDate.Day d < JsDate.Day sunday + 7.
Proof.
  intros Hutc Hd.
  exists (d - JsDate.WeekDay d * JsDate.msPerDay).
  rewrite (dateKey_week d Hd). unfold JsDate.LocalTime.
  rewrite Hutc, Z.add_0_r.
  destruct (startOfWeek_Sunday d) as (Hsun & Hday & _).
  pose proof (WeekDay_range d).
  split; [reflexivity |]. split; [exact Hsun | lia].
Qed.

End WeekBuckets.

(** The weekly example on a server in UTC: two buckets, counts 2 and
    1, the first under the Sunday before 2024-01-01. *)
Lemma getStats_week_UTC_example :
  exists stats,
    @getStats Sample.utcServer Scenario.weekDb week = Some stats
    /\ Stats.recordsByPeriod stats
       = [PerPeriod.mk "W 2023-12-31" 2;
          PerPeriod.mk "W 2024-01-07" 1]
    /\ JsDate.WeekDay (JsDate.utc 2023 11 31 0 0) = 0.
Proof.
  eexists. split; [vm_compute; reflexivity |].
  split; reflexivity.
Qed.

(** C5, on a server three hours east of UTC: the getters of the loop
    read local time and [toISOString] prints UTC, so the two records
    of 2024-01-01 fall in different buckets, one of them labelled with
    a Saturday. *)
Theorem getStats_week_east_of_UTC :
  exists stats,
    @getStats (Sample.external Scenario.utcPlus3) Scenario.weekDb week
    = Some stats
    /\ Stats.recordsByPeriod stats
       = [PerPeriod.mk "W 2023-12-30" 1;
          PerPeriod.mk "W 2023-12-31" 1;
          PerPeriod.mk "W 2024-01-07" 1]
    /\ JsDate.WeekDay (JsDate.utc 2023 11 30 0 0) = 6.
Proof.
  eexists. split; [vm_compute; reflexivity |].
  split; reflexivity.
Qed.

(** ** Record filters *)

Section Filtering.
Context `{External}.

Lemma byCreatedAt_asym (a b : RecordItem.t) :
  byCreatedAt a b = true -> byCreatedAt b a = false.
Proof. apply descNullsFirst_asym. Qed.

Lemma byCreatedAt_negtrans (a b c : RecordItem.t) :
  byCreatedAt b a = false -> byCreatedAt c b = false ->
  byCreatedAt c a = false.
Proof. apply descNullsFirst_negtrans. Qed.

Lemma elem_of_filterRecords r recs f :
  r ∈ filterRecords recs f <-> r ∈ recs /\ and_ (conditions f) r = true.
Proof.
  unfold filterRecords.
  rewrite elem_of_stable_sort, list_elem_of_In, filter_In,
    <- list_elem_of_In.
  reflexivity.
Qed.

(** Filtering a filtered collection keeps the rows that pass both sets
    of conditions. *)
Lemma filterRecords_twice recs f1 f2 :
  filterRecords (filterRecords recs f1) f2
  = stable_sort byCreatedAt
      (List.filter
         (fun r => and_ (conditions f2) r && and_ (conditions f1) r) recs).
Proof.
  unfold filterRecords.
  rewrite (filter_stable_sort _ byCreatedAt_asym byCreatedAt_negtrans).
  rewrite (stable_sort_idem _ byCreatedAt_asym byCreatedAt_negtrans).
  rewrite filter_filter_andb. reflexivity.
Qed.

Lemma conditions_optional {A} (o : option A) (present : A -> bool)
  (P : A -> RecordItem.t -> bool) r :
  forallb (fun c => c r)
    (match o with
     | Some a => if present a then [P a] else []
     | None => []
     end) = true
  <-> forall a, o = Some a -> present a = true -> P a r = true.
Proof.
  destruct o as [a |]; simpl.
  - destruct (present a) eqn:Hp; simpl.
    + rewrite andb_true_r. split.
      * intros HP a' [= <-] _. exact HP.
      * intros HP. exact (HP a eq_refl Hp).
    + split; [| reflexivity]. intros _ a' [= <-] Hp'. congruence.
  - split; [| reflexivity]. intros _ a' Ha. discriminate.
Qed.

Lemma conditions_date (o : option Z) (P : Z -> RecordItem.t -> bool) r :
  forallb (fun c => c r)
    (match o with Some d => [P d] | None => [] end) = true
  <-> forall d, o = Some d -> P d r = true.
Proof.
  destruct o as [d |]; simpl.
  - rewrite andb_true_r. split.
    + intros HP d' [= <-]. exact HP.
    + intros HP. exact (HP d eq_refl).
  - split; [| reflexivity]. intros _ d' Hd. discriminate.
Qed.

Lemma truthy_JNum a : truthy (JNum a) = true <-> a <> 0.
Proof. simpl. rewrite negb_true_iff, Z.eqb_neq. reflexivity. Qed.

Lemma truthy_JStr s : truthy (JStr s) = true <-> s <> "".
Proof. simpl. rewrite negb_true_iff, String.eqb_neq. reflexivity. Qed.

Lemma gte_true column d :
  gte column d = true <-> exists t, column = Some t /\ d <= t.
Proof.
  destruct column as [t |]; simpl.
  - rewrite Z.leb_le. split; [eauto |]. intros (t' & [= <-] & Ht). exact Ht.
  - split; [discriminate |]. intros (t' & Ht & _). discriminate.
Qed.

Lemma lte_true column d :
  lte column d = true <-> exists t, column = Some t /\ t <= d.
Proof.
  destruct column as [t |]; simpl.
  - rewrite Z.leb_le. split; [eauto |]. intros (t' & [= <-] & Ht). exact Ht.
  - split; [discriminate |]. intros (t' & Ht & _). discriminate.
Qed.

(** C6, as the code has it.  [getRecords] keeps the records that
    satisfy every filter that is set to a truthy value, which is how
    the code tests it: a filter that is not set imposes nothing, and
    neither does an agent id of zero or an empty search, town or area
    string.  Filtering by town and then filtering the result by agent
    gives the same records, in the same order, as filtering once by
    both. *)
Theorem filterRecords_conjunction (recs : list RecordItem.t) :
  (forall (X : string) (agent : Z),
      filterRecords
        (filterRecords recs
           (Filters.mk None None None None (Some X) None))
        (Filters.mk (Some agent) None None None None None)
      = filterRecords recs
          (Filters.mk (Some agent) None None None (Some X) None))
  /\ (forall f r,
         r ∈ filterRecords recs f <->
         r ∈ recs
         /\ (forall a, Filters.agentId f = Some a -> a <> 0 ->
                       RecordItem.collectedBy r = a)
         /\ (forall s, Filters.search f = Some s -> s <> "" ->
                       ilikeContains (RecordItem.landlordName r) s = true)
         /\ (forall d, Filters.startDate f = Some d ->
                       exists t, RecordItem.createdAt r = Some t /\ d <= t)
         /\ (forall d, Filters.endDate f = Some d ->
                       exists t, RecordItem.createdAt r = Some t /\ t <= d)
         /\ (forall s, Filters.town f = Some s -> s <> "" ->
                       ilikeContains (RecordItem.town r) s = true)
         /\ (forall s, Filters.area f = Some s -> s <> "" ->
                       ilikeContains (RecordItem.area r) s = true))
  /\ (forall r, r ∈ filterRecords recs Filters.none <-> r ∈ recs)
  /\ (forall search startDate endDate town area,
         filterRecords recs
           (Filters.mk (Some 0) search startDate endDate town area)
         = filterRecords recs
             (Filters.mk None search startDate endDate town area))
  /\ (forall agentId startDate endDate town area,
         filterRecords recs
           (Filters.mk agentId (Some "") startDate endDate town area)
         = filterRecords recs
             (Filters.mk agentId None startDate endDate town area))
  /\ (forall agentId search startDate endDate area,
         filterRecords recs
           (Filters.mk agentId search startDate endDate (Some "") area)
         = filterRecords recs
             (Filters.mk agentId search startDate endDate None area))
  /\ (forall agentId search startDate endDate town,
         filterRecords recs
           (Filters.mk agentId search startDate endDate town (Some ""))
         = filterRecords recs
             (Filters.mk agentId search startDate endDate town None)).
Proof.
  split; [| split; [| split; [| split; [| split; [| split]]]]];
    try (intros; reflexivity).
  - intros X agent. rewrite filterRecords_twice. unfold filterRecords.
    f_equal. apply List.filter_ext. intros r.
    unfold conditions, and_. simpl.
    destruct (negb (agent =? 0)), (negb (String.eqb X "")); simpl;
      rewrite ?andb_true_r; reflexivity.
  - intros f r. rewrite elem_of_filterRecords.
    unfold and_, conditions.
    rewrite !forallb_app, !andb_true_iff.
    rewrite !conditions_optional, !conditions_date.
    setoid_rewrite truthy_JNum. setoid_rewrite truthy_JStr.
    setoid_rewrite Z.eqb_eq. setoid_rewrite gte_true.
    setoid_rewrite lte_true. reflexivity.
  - intros r. rewrite elem_of_filterRecords. simpl. tauto.
Qed.

End Filtering.

Lemma filterRecords_conjunction_witness :
  let recs :=
    [RecordItem.mk 1 3 None (Some "Xanadu") None ∅ (Some 10) None ∅;
     RecordItem.mk 2 4 None (Some "Xanadu") None ∅ (Some 20) None ∅;
     RecordItem.mk 3 3 None (Some "Lusaka") None ∅ (Some 30) None ∅;
     RecordItem.mk 4 3 None (Some "Fort x") None ∅ (Some 40) None ∅] in
  RecordItem.id
  <$> @filterRecords Sample.utcServer
        (@filterRecords Sample.utcServer recs
           (Filters.mk None None None None (Some "X") None))
        (Filters.mk (Some 3) None None None None None)
  = [4; 1]
  /\ RecordItem.id
     <$> @filterRecords Sample.utcServer recs
           (Filters.mk (Some 3) None None None (Some "X") None)
     = [4; 1].
Proof.
  cbn zeta.
  rewrite (proj1 (@filterRecords_conjunction Sample.utcServer _) "X" 3).
  split; vm_compute; reflexivity.
Defined.

(** C6, the counterexample: a filter that is present with a falsy
    value is not applied.  With the agent id 0 the records of the
    agents 3 and 4 are returned; with the empty town the record that
    has no town is returned. *)
Lemma filterRecords_falsy_filter :
  let recs :=
    [RecordItem.mk 1 3 None (Some "Xanadu") None ∅ (Some 10) None ∅;
     RecordItem.mk 2 4 None None None ∅ (Some 20) None ∅] in
  RecordItem.collectedBy
  <$> @filterRecords Sample.utcServer recs
        (Filters.mk (Some 0) None None None None None)
  = [4; 3]
  /\ RecordItem.town
     <$> @filterRecords Sample.utcServer recs
           (Filters.mk None None None None (Some "") None)
     = [None; Some "Xanadu"]
  /\ @ilikeContains Sample.utcServer None "" = false.
Proof. vm_compute. repeat split. Qed.

(** ** Creating records *)

Section RecordCreation.
Context `{External}.

Lemma createRecord_inv now db ins db' r :
  createRecord now db ins = Some (db', r) ->
  InsertRecord.collectedBy ins = Some (RecordItem.collectedBy r)
  /\ RecordItem.customFields r
     = RecordFields.customFields (InsertRecord.fields ins)
  /\ records db' = (records db ++ [r])%list.
Proof.
  unfold createRecord.
  destruct (InsertRecord.collectedBy ins) as [c |]; [| discriminate].
  intros [= <- <-]. simpl. auto.
Qed.

(** A request that passes the permission check and the schema, and
    whose attribution is a number, creates a record. *)
Lemma records_create_succeeds now db req u input :
  user req = Some u ->
  User.role u = "agent" \/ hasPermission req addRecords = true ->
  api_records_create_input (coerceDates (body req)) = ParseOk input ->
  (isAdminOrSecondary req && truthy (get_prop (body req) "collectedBy")
   = true ->
   is_Some (Number (get_prop (body req) "collectedBy"))) ->
  exists db' r, records_create now db req = (db', Json 201 r).
Proof.
  intros Hu Hauth Hparse Hnum. unfold records_create.
  rewrite Hu, Hparse.
  assert (Hgate : negb (String.eqb (User.role u) "agent")
                  && negb (hasPermission req addRecords) = false).
  { destruct Hauth as [-> | ->]; [reflexivity | apply andb_false_r]. }
  rewrite Hgate.
  destruct (isAdminOrSecondary req
            && truthy (get_prop (body req) "collectedBy")).
  - destruct (Hnum eq_refl) as [n ->]. simpl. eauto.
  - simpl. eauto.
Qed.

(** C3, as the code has it.  A record created by an agent is
    attributed to the agent, whatever the body says.  A record created
    by an admin, or by a secondary_admin (who then holds addRecords),
    is attributed to [Number] of the body's [collectedBy] when that
    value is truthy (for a number: when it is not zero) and to the
    requester otherwise.  A record is created whenever the requester
    is an agent or holds addRecords, the body passes the schema and
    the attribution is a number. *)
Theorem records_create_collectedBy
  (now : Z) (db : Db) (req : Request) (u : User.t) :
  user req = Some u ->
  (forall input,
      User.role u = "agent" \/ hasPermission req addRecords = true ->
      api_records_create_input (coerceDates (body req)) = ParseOk input ->
      (isAdminOrSecondary req && truthy (get_prop (body req) "collectedBy")
       = true ->
       is_Some (Number (get_prop (body req) "collectedBy"))) ->
      exists db' r, records_create now db req = (db', Json 201 r))
  /\ (forall db' r,
         records_create now db req = (db', Json 201 r) ->
         r ∈ records db'
         /\ (User.role u = "agent" ->
             RecordItem.collectedBy r = User.id u)
         /\ (User.role u = "admin" \/ User.role u = "secondary_admin" ->
             hasPermission req addRecords = true
             /\ (truthy (get_prop (body req) "collectedBy") = true ->
                 Number (get_prop (body req) "collectedBy")
                 = Some (RecordItem.collectedBy r))
             /\ (forall n,
                    body req !! "collectedBy" = Some (JNum n) -> n <> 0 ->
                    RecordItem.collectedBy r = n)
             /\ (truthy (get_prop (body req) "collectedBy") = false ->
                 RecordItem.collectedBy r = User.id u))).
Proof.
  intros Hu. split.
  { intros input Hauth Hparse Hnum.
    exact (records_create_succeeds now db req u input Hu Hauth Hparse Hnum). }
  intros db' r. unfold records_create. rewrite Hu.
  destruct (negb (String.eqb (User.role u) "agent")
            && negb (hasPermission req addRecords)) eqn:Hgate;
    [discriminate |].
  destruct (api_records_create_input (coerceDates (body req)))
    as [input | m f]; [| discriminate].
  destruct (createRecord now db _) as [[db1 r1] |] eqn:Hcreate;
    [| discriminate].
  intros [= -> ->].
  apply createRecord_inv in Hcreate as (Hby & _ & Hrecs).
  simpl in Hby. split; [| split].
  - rewrite Hrecs, elem_of_app, list_elem_of_singleton. auto.
  - intros Hr. unfold isAdminOrSecondary in Hby.
    rewrite (roleIs_eq req u "admin" Hu),
            (roleIs_eq req u "secondary_admin" Hu), Hr in Hby.
    rewrite andb_false_r in Hby. simpl in Hby. congruence.
  - intros Hr.
    assert (Hadm : isAdminOrSecondary req = true).
    { unfold isAdminOrSecondary, isAuthenticated.
      rewrite (roleIs_eq req u "admin" Hu),
              (roleIs_eq req u "secondary_admin" Hu), Hu.
      destruct Hr as [-> | ->]; reflexivity. }
    rewrite Hadm in Hby. simpl in Hby.
    assert (Hperm : hasPermission req addRecords = true).
    { destruct (hasPermission req addRecords); [reflexivity |].
      rewrite andb_true_r in Hgate. apply negb_false_iff in Hgate.
      apply String.eqb_eq in Hgate.
      destruct Hr as [Hr | Hr]; rewrite Hr in Hgate; discriminate. }
    split; [exact Hperm |]. split; [| split].
    + intros Ht. rewrite Ht in Hby. exact Hby.
    + intros n Hn Hnz. unfold get_prop in Hby. rewrite Hn in Hby.
      simpl in Hby. destruct (Z.eqb_spec n 0); [contradiction |].
      simpl in Hby. congruence.
    + intros Ht. rewrite Ht in Hby. congruence.
Qed.

End RecordCreation.

Lemma records_create_collectedBy_witness :
  exists db' r,
    @records_create Sample.utcServer 5 Sample.seeded
      (Sample.requestBy Sample.deputy [("collectedBy", JNum 2)] "")
    = (db', Json 201 r)
    /\ RecordItem.collectedBy r = 2.
Proof.
  destruct (@records_create_collectedBy Sample.utcServer 5 Sample.seeded
              (Sample.requestBy Sample.deputy [("collectedBy", JNum 2)] "")
              Sample.deputy eq_refl) as [Hruns Hstored].
  destruct (Hruns (RecordFields.mk None None None ∅ None None ∅))
    as (db' & r & Hrun).
  - right. vm_compute. reflexivity.
  - vm_compute. reflexivity.
  - intros _. vm_compute. eexists; reflexivity.
  - exists db', r. split; [exact Hrun |].
    destruct (Hstored db' r Hrun) as (_ & _ & Hadmin).
    destruct Hadmin as (_ & _ & Hnum & _); [right; reflexivity |].
    apply (Hnum 2); [vm_compute; reflexivity | lia].
Defined.

(** C3, the counterexample: the administrator sends [collectedBy: 0];
    the record is stored under the administrator's own id. *)
Lemma records_create_collectedBy_zero :
  let req := Sample.requestBy Sample.admin [("collectedBy", JNum 0)] "" in
  hasPermission req addRecords = true
  /\ body req !! "collectedBy" = Some (JNum 0)
  /\ exists db' r,
       @records_create Sample.utcServer 5 Sample.seeded req
       = (db', Json 201 r)
       /\ RecordItem.collectedBy r = User.id Sample.admin
       /\ RecordItem.collectedBy r <> 0.
Proof.
  cbn zeta. split; [reflexivity |]. split; [reflexivity |].
  eexists _, _. split; [vm_compute; reflexivity |].
  split; [reflexivity | discriminate].
Qed.

(** ** Missing rows *)

Section MissingRows.
Context `{External}.

Lemma map_unmatched {A} (key : A -> Z) (f : A -> A) i l :
  (forall x, x ∈ l -> key x <> i) ->
  map (fun x => if key x =? i then f x else x) l = l.
Proof.
  induction l as [| a l IH]; simpl; intros Hl; [reflexivity |].
  destruct (Z.eqb_spec (key a) i) as [Heq | _].
  - exfalso. apply (Hl a); [left | exact Heq].
  - rewrite IH; [reflexivity |]. intros x Hx. apply Hl. right. exact Hx.
Qed.

Lemma find_unmatched {A} (key : A -> Z) i l :
  (forall x, x ∈ l -> key x <> i) ->
  List.find (fun x => key x =? i) l = None.
Proof.
  induction l as [| a l IH]; simpl; intros Hl; [reflexivity |].
  destruct (Z.eqb_spec (key a) i) as [Heq | _].
  - exfalso. apply (Hl a); [left | exact Heq].
  - apply IH. intros x Hx. apply Hl. right. exact Hx.
Qed.

Lemma existsb_unmatched {A} (key : A -> Z) i l :
  (forall x, x ∈ l -> key x <> i) ->
  existsb (fun x => key x =? i) l = false.
Proof.
  induction l as [| a l IH]; simpl; intros Hl; [reflexivity |].
  destruct (Z.eqb_spec (key a) i) as [Heq | _].
  - exfalso. apply (Hl a); [left | exact Heq].
  - apply IH. intros x Hx. apply Hl. right. exact Hx.
Qed.

(** The record route answers 404 when no record has the id. *)
Lemma records_update_not_found now db req input i :
  isAuthenticated req = true ->
  hasPermission req editRecords = true \/ roleIs req "agent" = true ->
  api_records_update_input (coerceDates (body req)) = ParseOk input ->
  Number (JStr (params_id req)) = Some i ->
  (forall r, r ∈ records db -> RecordItem.id r <> i) ->
  records_update now db req = (db, Message 404 "Record not found" None).
Proof.
  intros Hauth Hperm Hparse Hid Hnone. unfold records_update.
  rewrite Hauth.
  assert (Hgate : negb (hasPermission req editRecords)
                  && negb (roleIs req "agent") = false).
  { destruct Hperm as [-> | ->]; [reflexivity | apply andb_false_r]. }
  cbn [negb]. rewrite Hgate, Hparse, Hid. unfold updateRecord.
  rewrite (map_unmatched RecordItem.id _ i _ Hnone).
  rewrite (find_unmatched RecordItem.id i _ Hnone).
  destruct db; reflexivity.
Qed.

(** The agent route has no such answer: it never sends 404. *)
Lemma agents_update_never_404 db req :
  statusOf (agents_update db req).2 <> 404.
Proof.
  unfold agents_update. repeat case_match; simpl; discriminate.
Qed.

(** When no user has the id, an authorized and well-formed update of an
    agent is answered 200 with an empty body. *)
Lemma agents_update_missing db req input i :
  hasPermission req editAgents = true ->
  api_agents_update_input (body req) = ParseOk input ->
  noUserValues (withHashedPassword input) = false ->
  Number (JStr (params_id req)) = Some i ->
  (forall u, u ∈ users db -> User.id u <> i) ->
  agents_update db req = (db, Json 200 None).
Proof.
  intros Hperm Hparse Hvalues Hid Hnone. unfold agents_update.
  rewrite Hperm, Hparse, Hid. cbn [negb]. unfold updateUser.
  rewrite Hvalues.
  assert (Htaken : usernameTaken db i (withHashedPassword input) = false).
  { unfold usernameTaken.
    destruct (UpdateUser.username (withHashedPassword input));
      [| reflexivity].
    rewrite (existsb_unmatched User.id i _ Hnone). reflexivity. }
  rewrite Htaken.
  rewrite (map_unmatched User.id _ i _ Hnone).
  rewrite (find_unmatched User.id i _ Hnone).
  destruct db; reflexivity.
Qed.

End MissingRows.

(** The two routes on the same missing id, 999, by the seeded
    administrator: the record route answers 404. *)
Lemma records_update_missing_record_404 :
  @records_update Sample.utcServer 5 Sample.seeded
    (Sample.requestBy Sample.admin [("town", JStr "X")] "999")
  = (Sample.seeded, Message 404 "Record not found" None).
Proof. vm_compute. reflexivity. Qed.

(** C8, at the failing input: the administrator updates agent 999,
    which does not exist; the answer is 200 with no body, not 404. *)
Theorem agents_update_missing_agent_200 :
  let req := Sample.requestBy Sample.admin [("fullName", JStr "X")] "999" in
  hasPermission req editAgents = true
  /\ (forall u, u ∈ users Sample.seeded -> User.id u <> 999)
  /\ @agents_update Sample.utcServer Sample.seeded req
     = (Sample.seeded, Json 200 None)
  /\ statusOf (@agents_update Sample.utcServer Sample.seeded req).2 <> 404.
Proof.
  cbn zeta. split; [reflexivity |]. split.
  - intros u Hu. unfold Sample.seeded in Hu. simpl in Hu.
    rewrite !elem_of_cons, elem_of_nil in Hu.
    destruct Hu as [-> | [-> | []]]; discriminate.
  - split; [vm_compute; reflexivity | apply agents_update_never_404].
Qed.

(** ** Custom fields *)

Section CustomFields.
Context `{External}.

Lemma createRecord_withCustomColumns now db cols ins :
  createRecord now (withCustomColumns db cols) ins
  = match createRecord now db ins with
    | Some (db', r) => Some (withCustomColumns db' cols, r)
    | None => None
    end.
Proof.
  unfold createRecord.
  destruct (InsertRecord.collectedBy ins); reflexivity.
Qed.

Lemma records_create_withCustomColumns now db cols req :
  records_create now (withCustomColumns db cols) req
  = (withCustomColumns (records_create now db req).1 cols,
     (records_create now db req).2).
Proof.
  unfold records_create.
  destruct (user req) as [u |]; [| reflexivity].
  destruct (negb (String.eqb (User.role u) "agent")
            && negb (hasPermission req addRecords)); [reflexivity |].
  destruct (api_records_create_input (coerceDates (body req)))
    as [input | m f]; [| reflexivity].
  rewrite createRecord_withCustomColumns.
  destruct (createRecord now db _) as [[db' r] |]; reflexivity.
Qed.

(** C9, as the code has it.  The create route does not read the
    custom-column table: the answer to a request, and the records
    stored, are the same whatever columns are registered; the
    [customFields] of a stored record are those the request schema
    let through. *)
Theorem records_create_ignores_customColumns
  (now : Z) (db : Db) (cols : list CustomColumn.t) (req : Request) :
  (records_create now (withCustomColumns db cols) req).2
  = (records_create now db req).2
  /\ records (records_create now (withCustomColumns db cols) req).1
     = records (records_create now db req).1
  /\ (forall db' r,
         records_create now db req = (db', Json 201 r) ->
         exists input,
           api_records_create_input (coerceDates (body req)) = ParseOk input
           /\ RecordItem.customFields r = RecordFields.customFields input).
Proof.
  rewrite records_create_withCustomColumns. simpl.
  split; [reflexivity |]. split; [reflexivity |].
  intros db' r. unfold records_create.
  destruct (user req) as [u |]; [| discriminate].
  destruct (negb (String.eqb (User.role u) "agent")
            && negb (hasPermission req addRecords)); [discriminate |].
  destruct (api_records_create_input (coerceDates (body req)))
    as [input | m f]; [| discriminate].
  destruct (createRecord now db _) as [[db1 r1] |] eqn:Hcreate;
    [| discriminate].
  intros [= -> ->]. exists input. split; [reflexivity |].
  apply createRecord_inv in Hcreate as (_ & Hcf & _). exact Hcf.
Qed.

End CustomFields.

Lemma records_create_ignores_customColumns_witness :
  exists db' r,
    @records_create Sample.utcServer 5
      (Scenario.roofDb ["Tile"; "Metal"]) (Scenario.roofRequest "Thatch")
    = (db', Json 201 r)
    /\ RecordItem.customFields r !! "Roof Type" = Some (JStr "Thatch").
Proof.
  destruct (@records_create Sample.utcServer 5
              (Scenario.roofDb ["Tile"; "Metal"])
              (Scenario.roofRequest "Thatch"))
    as [db' [s r | s | s m f |]] eqn:Hrun;
    try (vm_compute in Hrun; discriminate).
  assert (Hs : s = 201) by (vm_compute in Hrun; congruence). subst s.
  exists db', r. split; [reflexivity |].
  destruct (@records_create_ignores_customColumns Sample.utcServer 5
              (Scenario.roofDb ["Tile"; "Metal"]) []
              (Scenario.roofRequest "Thatch")) as (_ & _ & Hstored).
  destruct (Hstored db' r Hrun) as (input & Hparse & ->).
  vm_compute in Hparse. injection Hparse as <-. vm_compute. reflexivity.
Defined.

(** C9, the counterexample: under no request schema is the select
    check of the specification performed.  The same request with the
    value "Thatch" would have to fail against the options Tile and
    Metal and to pass against the option Thatch, and the route answers
    both alike. *)
Lemma select_options_not_enforced :
  ~ exists ext : External, @selectOptionsEnforced ext.
Proof.
  intros [ext Henforced].
  assert (Hbody : get_prop (body (Scenario.roofRequest "Thatch"))
                    "customFields"
                  = JObj [("Roof Type", JStr "Thatch")])
    by (vm_compute; reflexivity).
  destruct (Henforced 0 (Scenario.roofDb ["Tile"; "Metal"])
              (Scenario.roofRequest "Thatch") Sample.agent1
              (Scenario.roofType ["Tile"; "Metal"]) ["Tile"; "Metal"]
              "Thatch" eq_refl eq_refl
              ltac:(left) eq_refl eq_refl Hbody) as [Hfail _].
  destruct (Henforced 0 (Scenario.roofDb ["Thatch"])
              (Scenario.roofRequest "Thatch") Sample.agent1
              (Scenario.roofType ["Thatch"]) ["Thatch"]
              "Thatch" eq_refl eq_refl
              ltac:(left) eq_refl eq_refl Hbody) as [_ Hpass].
  apply Hpass; [left |].
  change (Scenario.roofDb ["Thatch"])
    with (withCustomColumns (Scenario.roofDb ["Tile"; "Metal"])
            [Scenario.roofType ["Thatch"]]).
  rewrite records_create_withCustomColumns. simpl.
  apply Hfail. rewrite !elem_of_cons, elem_of_nil.
  intros [Heq | [Heq | []]]; discriminate.
Qed.

(** ** Passwords *)

Section Passwords.
Context `{External}.




Lemma withHashedPassword_truthy updates pw :
  UpdateUser.password updates = Some pw -> pw <> "" ->
  UpdateUser.plainPassword (withHashedPassword updates) = Some (Some pw)
  /\ UpdateUser.password (withHashedPassword updates)
     = Some (hashPassword pw).
Proof.
  intros Hpw Hne. unfold withHashedPassword. rewrite Hpw.
  apply truthy_JStr in Hne. rewrite Hne. simpl. auto.
Qed.






End Passwords.



(** ** Time values, examples *)

Example isoDate_examples :
  JsDate.isoDate 0 = "1970-01-01"
  /\ JsDate.utc 2024 0 1 10 0 = 1704103200000
  /\ JsDate.isoDate 1704103200000 = "2024-01-01"
  /\ JsDate.WeekDay 1704103200000 = 1
  /\ JsDate.isoDate (-1) = "1969-12-31"
  /\ JsDate.isoDate (JsDate.utc 2000 1 29 0 0) = "2000-02-29"
  /\ JsDate.isoDate (JsDate.utc 1900 1 29 0 0) = "1900-03-01"
  /\ JsDate.isoDate (JsDate.utc (-1) 11 31 0 0) = "-000001-12-31"
  /\ JsDate.isoDate (JsDate.utc 10000 0 1 0 0) = "+010000-01-01".
Proof. vm_compute. repeat split. Qed.

Example pg_ilike_examples :
  Sample.pg_ilike "Lusaka" "%USA%" = true
  /\ Sample.pg_ilike "Lusaka" "%u_a%" = true
  /\ Sample.pg_ilike "Lusaka" "%x%" = false
  /\ Sample.pg_ilike "a%b" "%\%%" = true.
Proof. vm_compute. repeat split. Qed.

(** * Further properties of the routes and of the storage *)

(** ** Who may call what *)

Section Gates.
Context `{External} `{Schemas}.

Lemma hasPermission_anonymous req p :
  user req = None -> hasPermission req p = false.
Proof.
  intros Hu. unfold hasPermission, isAuthenticated. rewrite Hu. reflexivity.
Qed.

(** X1. A request without a session never changes the store: the record
    and list routes answer 401, every other route answers 403. *)
Theorem anonymous_request_refused
  (serial now : Z) (db : Db) (req : Request) :
  user req = None ->
  records_list db req = (db, Send 401)
  /\ records_create now db req = (db, Send 401)
  /\ records_update now db req = (db, Send 401)
  /\ records_delete db req = (db, Send 403)
  /\ customColumns_list db req = (db, Send 401)
  /\ customColumns_create serial now db req = (db, Send 403)
  /\ customColumns_update db req = (db, Send 403)
  /\ customColumns_delete db req = (db, Send 403)
  /\ agents_list db req = (db, Send 401)
  /\ agents_create db req = (db, Send 403)
  /\ agents_update db req = (db, Send 403)
  /\ secondaryAdmins_list db req = (db, Send 403)
  /\ secondaryAdmins_create db req = (db, Send 403)
  /\ secondaryAdmins_update db req = (db, Send 403)
  /\ stats_summary db req = (db, Send 403).
Proof.
  intros Hu.
  unfold records_list, records_create, records_update, records_delete,
    customColumns_list, customColumns_create, customColumns_update,
    customColumns_delete, agents_list, agents_create, agents_update,
    secondaryAdmins_list, secondaryAdmins_create, secondaryAdmins_update,
    stats_summary, isAdmin, isAuthenticated.
  rewrite !(hasPermission_anonymous req _ Hu), Hu. simpl.
  repeat split.
Qed.

(** X2. What a requester with role agent may call.  Deleting records,
    writing custom columns, creating and updating agents, the
    secondary-admin routes and the statistics are refused with 403 and
    leave the store as it is; listing, creating and updating records,
    listing custom columns and listing agents are never refused. *)
Theorem agent_routes
  (serial now : Z) (db : Db) (req : Request) (u : User.t) :
  user req = Some u -> User.role u = "agent" ->
  (records_delete db req = (db, Send 403)
   /\ customColumns_create serial now db req = (db, Send 403)
   /\ customColumns_update db req = (db, Send 403)
   /\ customColumns_delete db req = (db, Send 403)
   /\ agents_create db req = (db, Send 403)
   /\ agents_update db req = (db, Send 403)
   /\ secondaryAdmins_list db req = (db, Send 403)
   /\ secondaryAdmins_create db req = (db, Send 403)
   /\ secondaryAdmins_update db req = (db, Send 403)
   /\ stats_summary db req = (db, Send 403))
  /\ (statusOf (records_list db req).2 <> 401
      /\ statusOf (records_list db req).2 <> 403)
  /\ (statusOf (records_create now db req).2 <> 401
      /\ statusOf (records_create now db req).2 <> 403)
  /\ (statusOf (records_update now db req).2 <> 401
      /\ statusOf (records_update now db req).2 <> 403)
  /\ customColumns_list db req = (db, Json 200 (getCustomColumns db))
  /\ agents_list db req = (db, Json 200 (getAgents db)).
Proof.
  intros Hu Hr.
  assert (Hno : forall p, hasPermission req p = false)
    by (intros p; exact (hasPermission_agent req u p Hu Hr)).
  split.
  { unfold records_delete, customColumns_create, customColumns_update,
      customColumns_delete, agents_create, agents_update,
      secondaryAdmins_list, secondaryAdmins_create, secondaryAdmins_update,
      stats_summary, isAdmin.
    rewrite !Hno, (roleIs_eq req u "admin" Hu), Hr, andb_false_r. simpl.
    repeat split. }
  unfold records_list, records_create, records_update, customColumns_list,
    agents_list, isAuthenticated.
  rewrite !Hno, (roleIs_eq req u "agent" Hu), Hu, Hr. simpl.
  repeat split; repeat case_match; simpl; discriminate.
Qed.

End Gates.

Lemma anonymous_request_refused_witness :
  @records_delete Sample.utcServer SampleSchemas.emptyDb
    SampleSchemas.anonymous
  = (SampleSchemas.emptyDb, Send 403)
  /\ @records_create Sample.utcServer 5 SampleSchemas.emptyDb
       SampleSchemas.anonymous
     = (SampleSchemas.emptyDb, Send 401).
Proof.
  destruct (@anonymous_request_refused Sample.utcServer
              SampleSchemas.schemas 1 5 SampleSchemas.emptyDb
              SampleSchemas.anonymous eq_refl)
    as (_ & Hcreate & _ & Hdelete & _).
  split; [exact Hdelete | exact Hcreate].
Defined.

Lemma agent_routes_witness :
  let req := Sample.requestBy Sample.agent1 [] "1" in
  @records_delete Sample.utcServer Sample.seeded req
  = (Sample.seeded, Send 403)
  /\ @agents_list Sample.seeded req
     = (Sample.seeded, Json 200 [Sample.agent1]).
Proof.
  cbn zeta.
  destruct (@agent_routes Sample.utcServer SampleSchemas.schemas 1 5
              Sample.seeded (Sample.requestBy Sample.agent1 [] "1")
              Sample.agent1 eq_refl eq_refl)
    as ((Hdelete & _) & _ & _ & _ & _ & Hagents).
  split; [exact Hdelete | exact Hagents].
Defined.

Section PermissionTable.
Context `{External} `{Schemas}.

Ltac outcome_not_403 :=
  repeat case_match; simpl; first [discriminate | congruence].

(** X3. The permission that each route asks of a secondary_admin: the
    route is refused with 403 exactly when the map of the requester
    does not grant that permission. *)
Theorem secondary_admin_table
  (serial now : Z) (db : Db) (req : Request) (u : User.t) :
  user req = Some u -> User.role u = "secondary_admin" ->
  (statusOf (records_list db req).2 = 403
   <-> hasPermission req viewRecords = false)
  /\ (statusOf (records_create now db req).2 = 403
      <-> hasPermission req addRecords = false)
  /\ (statusOf (records_update now db req).2 = 403
      <-> hasPermission req editRecords = false)
  /\ (statusOf (records_delete db req).2 = 403
      <-> hasPermission req deleteRecords = false)
  /\ (statusOf (customColumns_create serial now db req).2 = 403
      <-> hasPermission req manageCustomColumns = false)
  /\ (statusOf (customColumns_update db req).2 = 403
      <-> hasPermission req manageCustomColumns = false)
  /\ (statusOf (customColumns_delete db req).2 = 403
      <-> hasPermission req manageCustomColumns = false)
  /\ (statusOf (agents_list db req).2 = 403
      <-> hasPermission req viewAgents = false)
  /\ (statusOf (agents_create db req).2 = 403
      <-> hasPermission req createAgents = false)
  /\ (statusOf (agents_update db req).2 = 403
      <-> hasPermission req editAgents = false)
  /\ (statusOf (stats_summary db req).2 = 403
      <-> hasPermission req viewStats = false)
  /\ statusOf (customColumns_list db req).2 = 200.
Proof.
  intros Hu Hr.
  unfold records_list, records_create, records_update, records_delete,
    customColumns_list, customColumns_create, customColumns_update,
    customColumns_delete, agents_list, agents_create, agents_update,
    stats_summary, isAuthenticated.
  rewrite (roleIs_eq req u "agent" Hu), Hu, Hr. simpl.
  repeat split;
    try (intros Hs; destruct (hasPermission req _); [exfalso | reflexivity];
         revert Hs; simpl; outcome_not_403);
    try (intros ->; reflexivity).
Qed.

Lemma get_prop_insert_ne (m : gmap string JsVal) k k' v :
  k <> k' -> get_prop (<[k := v]> m) k' = get_prop m k'.
Proof. intros Hne. unfold get_prop. rewrite lookup_insert_ne; done. Qed.

Lemma hasPermission_setPermission req v p :
  p <> exportRecords ->
  hasPermission (setPermission req "exportRecords" v) p
  = hasPermission req p.
Proof.
  intros Hp. unfold setPermission.
  destruct (user req) as [u |] eqn:Hu; [| reflexivity].
  unfold hasPermission, isAuthenticated, roleIs. simpl. rewrite Hu.
  destruct (String.eqb (User.role u) "admin"); [reflexivity |].
  destruct (String.eqb (User.role u) "secondary_admin"); [| reflexivity].
  rewrite get_prop_insert_ne
    by (destruct p; simpl; first [discriminate | contradiction]).
  destruct (User.permissions u) as [perms |]; simpl; [reflexivity |].
  unfold get_prop. rewrite lookup_empty. reflexivity.
Qed.

(** X4. No route consults the permission exportRecords: whatever value
    the requester's map holds for it, every route answers the same and
    leaves the same store. *)
Theorem exportRecords_never_checked
  (serial now : Z) (db : Db) (req : Request) (v : JsVal) :
  let req' := setPermission req "exportRecords" v in
  records_list db req' = records_list db req
  /\ records_create now db req' = records_create now db req
  /\ records_update now db req' = records_update now db req
  /\ records_delete db req' = records_delete db req
  /\ customColumns_list db req' = customColumns_list db req
  /\ customColumns_create serial now db req'
     = customColumns_create serial now db req
  /\ customColumns_update db req' = customColumns_update db req
  /\ customColumns_delete db req' = customColumns_delete db req
  /\ agents_list db req' = agents_list db req
  /\ agents_create db req' = agents_create db req
  /\ agents_update db req' = agents_update db req
  /\ secondaryAdmins_list db req' = secondaryAdmins_list db req
  /\ secondaryAdmins_create db req' = secondaryAdmins_create db req
  /\ secondaryAdmins_update db req' = secondaryAdmins_update db req
  /\ stats_summary db req' = stats_summary db req.
Proof.
  cbn zeta.
  pose proof (hasPermission_setPermission req v) as Hperm.
  unfold records_list, records_create, records_update, records_delete,
    customColumns_list, customColumns_create, customColumns_update,
    customColumns_delete, agents_list, agents_create, agents_update,
    secondaryAdmins_list, secondaryAdmins_create, secondaryAdmins_update,
    stats_summary.
  rewrite !Hperm by discriminate. clear Hperm.
  unfold setPermission.
  destruct (user req) as [u |] eqn:Hu; [| rewrite ?Hu; repeat split].
  unfold isAdmin, isAdminOrSecondary, isAuthenticated, roleIs, safePeriod.
  simpl. rewrite ?Hu. repeat split.
Qed.

End PermissionTable.

Lemma secondary_admin_table_witness :
  let req := Sample.requestBy Sample.deputy [] "7" in
  hasPermission req deleteRecords = true
  /\ statusOf (@records_delete Sample.utcServer Sample.seeded req).2 <> 403.
Proof.
  cbn zeta. split; [vm_compute; reflexivity |].
  destruct (@secondary_admin_table Sample.utcServer SampleSchemas.schemas
              1 5 Sample.seeded (Sample.requestBy Sample.deputy [] "7")
              Sample.deputy eq_refl eq_refl)
    as (_ & _ & _ & Hdelete & _).
  intros Hs. apply Hdelete in Hs. vm_compute in Hs. discriminate.
Defined.

(** ** Reading, updating and deleting records *)

Section RecordRoutes.
Context `{External} `{Schemas}.

Lemma insert_sorted_Permutation {A} (before : A -> A -> bool) a l :
  insert_sorted before a l ≡ₚ a :: l.
Proof.
  induction l as [| b l IH]; simpl; [reflexivity |].
  destruct (before b a); [| reflexivity].
  rewrite IH. apply Permutation_swap.
Qed.

Lemma stable_sort_Permutation {A} (before : A -> A -> bool) l :
  stable_sort before l ≡ₚ l.
Proof.
  induction l as [| a l IH]; simpl; [reflexivity |].
  rewrite insert_sorted_Permutation, IH. reflexivity.
Qed.

Lemma StronglySorted_weaken {A} (R S : A -> A -> Prop) l :
  (forall a b, R a b -> S a b) ->
  StronglySorted R l -> StronglySorted S l.
Proof.
  intros HRS. induction 1 as [| a l Hl IH Ha]; constructor;
    [exact IH |].
  eapply Forall_impl; [exact Ha | intros b; apply HRS].
Qed.

(** X5. [getRecords] returns each record that passes the conditions
    exactly once, newest first: a record without [createdAt] stands
    before every dated one, and a dated record is followed only by
    records that are not newer. *)
Theorem getRecords_newest_first (db : Db) (filters : Filters.t) :
  getRecords db filters
  ≡ₚ List.filter (and_ (conditions filters)) (records db)
  /\ StronglySorted
       (fun a b =>
          match RecordItem.createdAt a, RecordItem.createdAt b with
          | Some x, Some y => y <= x
          | None, _ => True
          | Some _, None => False
          end)
       (getRecords db filters).
Proof.
  unfold getRecords, filterRecords. split.
  - apply stable_sort_Permutation.
  - eapply StronglySorted_weaken;
      [| apply (stable_sort_ordered _ byCreatedAt_asym
                  byCreatedAt_negtrans)].
    intros a b. unfold inOrder, byCreatedAt, descNullsFirst.
    destruct (RecordItem.createdAt a), (RecordItem.createdAt b);
      try discriminate; try tauto.
    intros Hlt. apply Z.ltb_ge in Hlt. exact Hlt.
Qed.

Lemma elem_of_deleted {A} (key : A -> Z) i l x :
  x ∈ List.filter (fun y => negb (key y =? i)) l <-> x ∈ l /\ key x <> i.
Proof.
  rewrite list_elem_of_In, filter_In, <- list_elem_of_In, negb_true_iff,
    Z.eqb_neq.
  reflexivity.
Qed.

Lemma filter_filter_same {A} (P : A -> bool) l :
  List.filter P (List.filter P l) = List.filter P l.
Proof.
  induction l as [| a l IH]; simpl; [reflexivity |].
  destruct (P a) eqn:HP; simpl; rewrite ?HP, IH; reflexivity.
Qed.

(** X6. A holder of deleteRecords who deletes the record [i] is
    answered 204, whether or not a record has that id.  Afterwards no
    record has the id, every other record is kept, users and custom
    columns are as before, and deleting again changes nothing. *)
Theorem records_delete_removes (db : Db) (req : Request) (i : Z) :
  hasPermission req deleteRecords = true ->
  Number (JStr (params_id req)) = Some i ->
  exists db',
    records_delete db req = (db', Send 204)
    /\ getRecord db' i = None
    /\ (forall r, r ∈ records db' <->
                  r ∈ records db /\ RecordItem.id r <> i)
    /\ users db' = users db
    /\ customColumns db' = customColumns db
    /\ records_delete db' req = (db', Send 204).
Proof.
  intros Hperm Hid. unfold records_delete. rewrite Hperm, Hid. simpl.
  eexists. split; [reflexivity |]. simpl. split; [| split; [| split]].
  - unfold getRecord. simpl. apply find_unmatched.
    intros r Hr. apply elem_of_deleted in Hr. tauto.
  - intros r. apply elem_of_deleted.
  - reflexivity.
  - split; [reflexivity |]. rewrite filter_filter_same. reflexivity.
Qed.

Lemma fmap_map_update {A} (key : A -> Z) (f : A -> A) i l :
  (forall x, key (f x) = key x) ->
  key <$> map (fun x => if key x =? i then f x else x) l = key <$> l.
Proof.
  intros Hkey. induction l as [| a l IH]; csimpl; [reflexivity |].
  f_equal; [| exact IH]. destruct (key a =? i); [apply Hkey | reflexivity].
Qed.

Lemma find_map_update {A} (key : A -> Z) (f : A -> A) i l x :
  (forall y, key (f y) = key y) ->
  NoDup (key <$> l) -> x ∈ l -> key x = i ->
  List.find (fun y => key y =? i)
            (map (fun y => if key y =? i then f y else y) l)
  = Some (f x).
Proof.
  intros Hkey. induction l as [| a l IH]; csimpl; intros Hnd Hx Hi.
  - apply elem_of_nil in Hx. contradiction.
  - apply NoDup_cons in Hnd as [Ha Hnd].
    apply elem_of_cons in Hx as [-> | Hx].
    + rewrite (proj2 (Z.eqb_eq _ _) Hi), Hkey,
        (proj2 (Z.eqb_eq _ _) Hi).
      reflexivity.
    + destruct (Z.eqb_spec (key a) i) as [Heq | Hne].
      * exfalso. apply Ha. apply list_elem_of_fmap. exists x.
        split; [congruence | exact Hx].
      * rewrite (proj2 (Z.eqb_neq _ _) Hne). apply IH; assumption.
Qed.

Lemma NoDup_key_inj {A} (key : A -> Z) l x y :
  NoDup (key <$> l) -> x ∈ l -> y ∈ l -> key x = key y -> x = y.
Proof.
  induction l as [| a l IH]; csimpl; intros Hnd Hx Hy Hk.
  - apply elem_of_nil in Hx. contradiction.
  - apply NoDup_cons in Hnd as [Ha Hnd].
    apply elem_of_cons in Hx as [-> | Hx];
      apply elem_of_cons in Hy as [-> | Hy].
    + reflexivity.
    + exfalso. apply Ha. rewrite Hk. apply list_elem_of_fmap. eauto.
    + exfalso. apply Ha. rewrite <- Hk. apply list_elem_of_fmap. eauto.
    + apply IH; assumption.
Qed.

Lemma elem_of_map_update {A} (key : A -> Z) (f : A -> A) i l x y :
  NoDup (key <$> l) -> x ∈ l -> key x = i ->
  y ∈ map (fun z => if key z =? i then f z else z) l
  <-> (y ∈ l /\ key y <> i) \/ y = f x.
Proof.
  intros Hnd Hx Hi. rewrite list_elem_of_In, in_map_iff. split.
  - intros (z & Hz & Hin). apply list_elem_of_In in Hin.
    destruct (Z.eqb_spec (key z) i) as [Heq | Hne].
    + right. subst y. f_equal.
      apply (NoDup_key_inj key l z x Hnd Hin Hx). congruence.
    + left. subst y. auto.
  - intros [[Hy Hne] | ->].
    + exists y. rewrite (proj2 (Z.eqb_neq _ _) Hne).
      split; [reflexivity | apply list_elem_of_In, Hy].
    + exists x. rewrite (proj2 (Z.eqb_eq _ _) Hi).
      split; [reflexivity | apply list_elem_of_In, Hx].
Qed.

Lemma records_update_found
  (now : Z) (db : Db) (req : Request) (input : UpdateRecord.t)
  (i : Z) (r0 : RecordItem.t) :
  isAuthenticated req = true ->
  hasPermission req editRecords = true \/ roleIs req "agent" = true ->
  api_records_update_input (coerceDates (body req)) = ParseOk input ->
  Number (JStr (params_id req)) = Some i ->
  NoDup (RecordItem.id <$> records db) ->
  r0 ∈ records db -> RecordItem.id r0 = i ->
  exists db',
    records_update now db req = (db', Json 200 (setRecord now input r0))
    /\ RecordItem.id (setRecord now input r0) = i
    /\ RecordItem.updatedAt (setRecord now input r0) = Some now
    /\ (forall r, r ∈ records db' <->
                  (r ∈ records db /\ RecordItem.id r <> i)
                  \/ r = setRecord now input r0)
    /\ RecordItem.id <$> records db' = RecordItem.id <$> records db
    /\ users db' = users db.
Proof.
  intros Hauth Hperm Hparse Hid Hnd Hr0 Hi. unfold records_update.
  rewrite Hauth.
  assert (Hgate : negb (hasPermission req editRecords)
                  && negb (roleIs req "agent") = false).
  { destruct Hperm as [-> | ->]; [reflexivity | apply andb_false_r]. }
  cbn [negb]. rewrite Hgate, Hparse, Hid. unfold updateRecord.
  rewrite (find_map_update RecordItem.id (setRecord now input) i
             (records db) r0 (fun _ => eq_refl) Hnd Hr0 Hi).
  eexists. split; [reflexivity |]. simpl.
  split; [exact Hi |]. split; [reflexivity |]. split; [| split].
  - intros r. apply elem_of_map_update; assumption.
  - apply fmap_map_update. reflexivity.
  - reflexivity.
Qed.

(** X7. Updating an existing record.  When record ids are distinct, a
    requester who is an agent or holds editRecords, with a body that
    passes the schema, is answered 200 with the record rewritten by the
    body, whoever collected it; [updatedAt] becomes the time of the
    call, the id is kept, and every other record is left as it was. *)
Theorem records_update_rewrites
  (now : Z) (db : Db) (req : Request) (input : UpdateRecord.t)
  (i : Z) (r0 : RecordItem.t) :
  isAuthenticated req = true ->
  hasPermission req editRecords = true \/ roleIs req "agent" = true ->
  api_records_update_input (coerceDates (body req)) = ParseOk input ->
  Number (JStr (params_id req)) = Some i ->
  NoDup (RecordItem.id <$> records db) ->
  r0 ∈ records db -> RecordItem.id r0 = i ->
  exists db',
    records_update now db req = (db', Json 200 (setRecord now input r0))
    /\ RecordItem.id (setRecord now input r0) = i
    /\ RecordItem.updatedAt (setRecord now input r0) = Some now
    /\ (forall r, r ∈ records db' <->
                  (r ∈ records db /\ RecordItem.id r <> i)
                  \/ r = setRecord now input r0)
    /\ RecordItem.id <$> records db' = RecordItem.id <$> records db
    /\ users db' = users db.
Proof. apply records_update_found. Qed.

End RecordRoutes.

Lemma records_delete_removes_witness :
  exists db',
    @records_delete Sample.utcServer Scenario.weekDb
      (Sample.requestBy Sample.admin [] "2")
    = (db', Send 204)
    /\ getRecord db' 2 = None
    /\ RecordItem.id <$> records db' = [1; 3].
Proof.
  destruct (@records_delete_removes Sample.utcServer Scenario.weekDb
              (Sample.requestBy Sample.admin [] "2") 2 eq_refl eq_refl)
    as (db' & Hrun & Hgone & _).
  exists db'. split; [exact Hrun |]. split; [exact Hgone |].
  vm_compute in Hrun. injection Hrun as <-. vm_compute. reflexivity.
Defined.

Lemma records_update_rewrites_witness :
  exists db' r,
    @records_update Sample.utcServer 77 Scenario.adminRecordDb
      (Sample.requestBy Sample.agent1 [("town", JStr "Ndola")] "1")
    = (db', Json 200 r)
    /\ RecordItem.collectedBy r = User.id Sample.admin
    /\ RecordItem.town r = Some "Ndola"
    /\ RecordItem.updatedAt r = Some 77.
Proof.
  assert (Hnd : NoDup (RecordItem.id <$> records Scenario.adminRecordDb)).
  { refine (bool_decide_unpack _ _). vm_compute. exact I. }
  destruct (@records_update_rewrites Sample.utcServer 77
              Scenario.adminRecordDb
              (Sample.requestBy Sample.agent1 [("town", JStr "Ndola")] "1")
              (UpdateRecord.mk None None (Some (Some "Ndola")) None
                 None None ∅)
              1 (Sample.recordAt 1 1 (Some 0)))
    as (db' & Hrun & _ & Hupdated & _).
  - reflexivity.
  - right. reflexivity.
  - vm_compute. reflexivity.
  - reflexivity.
  - exact Hnd.
  - left.
  - reflexivity.
  - eexists db', _. split; [exact Hrun |]. repeat split.
Defined.

(** ** Serial ids *)

Section SerialIds.
Context `{External} `{Schemas}.

Lemma find_snoc {A} (P : A -> bool) l x :
  List.find P (l ++ [x])%list
  = match List.find P l with
    | Some y => Some y
    | None => if P x then Some x else None
    end.
Proof.
  induction l as [| a l IH]; simpl; [reflexivity |].
  destruct (P a); [reflexivity | exact IH].
Qed.

Lemma idsBelow_fmap {A} (key : A -> Z) n l :
  (forall x, x ∈ l -> key x < n) <-> Forall (fun i => i < n) (key <$> l).
Proof.
  rewrite Forall_forall. split.
  - intros Hl i Hi. apply list_elem_of_fmap in Hi as (x & -> & Hx). auto.
  - intros Hl x Hx. apply Hl. apply list_elem_of_fmap. eauto.
Qed.

Lemma idsBelow_deleted {A} (key : A -> Z) (P : A -> bool) n l :
  (forall x, x ∈ l -> key x < n) ->
  forall x, x ∈ List.filter P l -> key x < n.
Proof.
  intros Hl x Hx. apply Hl.
  apply list_elem_of_In, filter_In in Hx as [Hx _].
  apply list_elem_of_In, Hx.
Qed.

Lemma NoDup_snoc_fresh {A} (key : A -> Z) n l x :
  NoDup (key <$> l) -> (forall y, y ∈ l -> key y < n) -> key x = n ->
  NoDup (key <$> (l ++ [x])%list).
Proof.
  intros Hnd Hl Hx. rewrite fmap_app. apply NoDup_app.
  split; [exact Hnd |]. split; [| apply NoDup_singleton].
  intros i Hi Hi'. apply list_elem_of_singleton in Hi'. subst i.
  apply list_elem_of_fmap in Hi as (y & Hy & Hin).
  specialize (Hl y Hin). simpl in Hy. lia.
Qed.

Lemma idsBelow_snoc {A} (key : A -> Z) n l x :
  (forall y, y ∈ l -> key y < n) -> key x = n ->
  forall y, y ∈ (l ++ [x])%list -> key y < n + 1.
Proof.
  intros Hl Hx y Hy. apply elem_of_app in Hy as [Hy | Hy].
  - specialize (Hl y Hy). lia.
  - apply list_elem_of_singleton in Hy as ->. lia.
Qed.

Lemma createRecord_idsFresh now db ins db' r :
  idsFresh db -> createRecord now db ins = Some (db', r) -> idsFresh db'.
Proof.
  intros (Hnd & Hlt & Husers) Hrun. unfold createRecord in Hrun.
  destruct (InsertRecord.collectedBy ins); [| discriminate].
  injection Hrun as <- <-. unfold idsFresh. simpl.
  split; [| split; [| exact Husers]].
  - apply (NoDup_snoc_fresh RecordItem.id (nextRecordId db));
      [exact Hnd | exact Hlt | reflexivity].
  - apply (idsBelow_snoc RecordItem.id); [exact Hlt | reflexivity].
Qed.

Lemma updateRecord_idsFresh now db id updates db' res :
  idsFresh db -> updateRecord now db id updates = Some (db', res) ->
  idsFresh db'.
Proof.
  intros (Hnd & Hlt & Husers) Hrun. unfold updateRecord in Hrun.
  destruct id as [i |]; [| discriminate].
  injection Hrun as <- _. unfold idsFresh. simpl.
  split; [| split; [| exact Husers]].
  - rewrite fmap_map_update by reflexivity. exact Hnd.
  - apply idsBelow_fmap. rewrite fmap_map_update by reflexivity.
    apply idsBelow_fmap, Hlt.
Qed.

Lemma deleteRecord_idsFresh db id db' :
  idsFresh db -> deleteRecord db id = Some db' -> idsFresh db'.
Proof.
  intros (Hnd & Hlt & Husers) Hrun. unfold deleteRecord in Hrun.
  destruct id as [i |]; [| discriminate].
  injection Hrun as <-. unfold idsFresh. simpl.
  split; [| split; [| exact Husers]].
  - apply NoDup_fmap_filter, Hnd.
  - apply idsBelow_deleted, Hlt.
Qed.

Lemma createUser_idsFresh db insertUser db' user :
  idsFresh db -> createUser db insertUser = Some (db', user) ->
  idsFresh db'.
Proof.
  intros (Hrnd & Hrlt & Hnd & Hlt) Hrun. unfold createUser in Hrun.
  destruct (nameHeld db None _); [discriminate |].
  injection Hrun as <- <-. unfold idsFresh. simpl.
  split; [exact Hrnd |]. split; [exact Hrlt |]. split.
  - apply (NoDup_snoc_fresh User.id (nextUserId db));
      [exact Hnd | exact Hlt | reflexivity].
  - apply (idsBelow_snoc User.id); [exact Hlt | reflexivity].
Qed.

Lemma updateUser_idsFresh db id updates db' res :
  idsFresh db -> updateUser db id updates = Some (db', res) ->
  idsFresh db'.
Proof.
  intros (Hrnd & Hrlt & Hnd & Hlt) Hrun. unfold updateUser in Hrun.
  destruct (noUserValues _); [discriminate |].
  destruct (usernameTaken _ _ _); [discriminate |].
  injection Hrun as <- _. unfold idsFresh. simpl.
  split; [exact Hrnd |]. split; [exact Hrlt |]. split.
  - rewrite fmap_map_update by reflexivity. exact Hnd.
  - apply idsBelow_fmap. rewrite fmap_map_update by reflexivity.
    apply idsBelow_fmap, Hlt.
Qed.

Lemma seedDatabase_idsFresh db :
  idsFresh db -> idsFresh (seedDatabase db).1.
Proof.
  intros Hfresh. unfold seedDatabase.
  destruct (getUserByUsername db "admin"); [exact Hfresh |].
  destruct (createUser db seedAdmin) as [[db1 u1] |] eqn:H1;
    [| exact Hfresh].
  assert (Hfresh1 : idsFresh db1)
    by (eapply createUser_idsFresh; [exact Hfresh | exact H1]).
  destruct (createUser db1 seedAgent) as [[db2 u2] |] eqn:H2;
    [| exact Hfresh1].
  eapply createUser_idsFresh; [exact Hfresh1 | exact H2].
Qed.

(** X8. The serial ids are an invariant of the store: when the ids of
    records and of users are distinct and below the next value of their
    sequence, they still are after any route has run, and after
    [seedDatabase]. *)
Theorem idsFresh_invariant
  (serial now : Z) (db : Db) (req : Request) :
  idsFresh db ->
  idsFresh (records_list db req).1
  /\ idsFresh (records_create now db req).1
  /\ idsFresh (records_update now db req).1
  /\ idsFresh (records_delete db req).1
  /\ idsFresh (customColumns_list db req).1
  /\ idsFresh (customColumns_create serial now db req).1
  /\ idsFresh (customColumns_update db req).1
  /\ idsFresh (customColumns_delete db req).1
  /\ idsFresh (agents_list db req).1
  /\ idsFresh (agents_create db req).1
  /\ idsFresh (agents_update db req).1
  /\ idsFresh (secondaryAdmins_list db req).1
  /\ idsFresh (secondaryAdmins_create db req).1
  /\ idsFresh (secondaryAdmins_update db req).1
  /\ idsFresh (stats_summary db req).1
  /\ idsFresh (seedDatabase db).1.
Proof.
  intros Hfresh.
  unfold records_list, records_create, records_update, records_delete,
    customColumns_list, customColumns_create, customColumns_update,
    customColumns_delete, agents_list, agents_create, agents_update,
    secondaryAdmins_list, secondaryAdmins_create, secondaryAdmins_update,
    stats_summary.
  repeat match goal with |- _ /\ _ => split end;
    try exact (seedDatabase_idsFresh db Hfresh);
    repeat case_match; simpl; try exact Hfresh;
    first
      [ eapply createRecord_idsFresh; [exact Hfresh | eassumption]
      | eapply updateRecord_idsFresh; [exact Hfresh | eassumption]
      | eapply deleteRecord_idsFresh; [exact Hfresh | eassumption]
      | eapply createUser_idsFresh; [exact Hfresh | eassumption]
      | eapply updateUser_idsFresh; [exact Hfresh | eassumption]
      | idtac ].
  all: match goal with
       | Hc : createCustomColumn _ _ _ _ = Some _ |- _ =>
           unfold createCustomColumn in Hc
       | Hc : updateCustomColumn _ _ _ = Some _ |- _ =>
           unfold updateCustomColumn in Hc
       | Hc : deleteCustomColumn _ _ = Some _ |- _ =>
           unfold deleteCustomColumn in Hc
       end;
    repeat case_match; simplify_eq; exact Hfresh.
Qed.

(** X9. Insert and lookup.  In a store with fresh ids a created record
    gets the next id of the sequence and is what [getRecord] reads at
    that id; every other id reads as before. *)
Theorem createRecord_getRecord
  (now : Z) (db db' : Db) (ins : InsertRecord.t) (r : RecordItem.t) :
  idsFresh db ->
  createRecord now db ins = Some (db', r) ->
  RecordItem.id r = nextRecordId db
  /\ getRecord db' (RecordItem.id r) = Some r
  /\ (forall i, i <> RecordItem.id r -> getRecord db' i = getRecord db i)
  /\ getRecord db (RecordItem.id r) = None.
Proof.
  intros (_ & Hlt & _) Hrun. unfold createRecord in Hrun.
  destruct (InsertRecord.collectedBy ins); [| discriminate].
  injection Hrun as <- <-. unfold getRecord. simpl.
  assert (Hnone : List.find (fun r => RecordItem.id r =? nextRecordId db)
                            (records db) = None).
  { apply find_unmatched. intros x Hx. specialize (Hlt x Hx). lia. }
  split; [reflexivity |]. split; [| split; [| exact Hnone]].
  - rewrite find_snoc, Hnone. simpl. rewrite Z.eqb_refl. reflexivity.
  - intros i Hi. rewrite find_snoc. simpl.
    destruct (List.find (fun r => RecordItem.id r =? i) (records db));
      [reflexivity |].
    rewrite (proj2 (Z.eqb_neq _ _)); [reflexivity | congruence].
Qed.

End SerialIds.

Lemma idsFresh_weekDb : idsFresh Scenario.weekDb.
Proof.
  unfold idsFresh.
  split; [refine (bool_decide_unpack _ _); vm_compute; exact I |].
  split; [apply idsBelow_fmap; vm_compute; repeat constructor |].
  split; [refine (bool_decide_unpack _ _); vm_compute; exact I |].
  apply idsBelow_fmap; vm_compute; repeat constructor.
Qed.

Lemma idsFresh_invariant_witness :
  idsFresh
    (@records_create Sample.utcServer 5 Scenario.weekDb
       (Sample.requestBy Sample.agent1 [] "")).1.
Proof.
  destruct (@idsFresh_invariant Sample.utcServer SampleSchemas.schemas 1 5
              Scenario.weekDb (Sample.requestBy Sample.agent1 [] "")
              idsFresh_weekDb) as (_ & Hcreate & _).
  exact Hcreate.
Defined.

Lemma createRecord_getRecord_witness :
  exists db' r,
    @createRecord Sample.utcServer 5 Scenario.weekDb
      (InsertRecord.mk (RecordFields.mk None None None ∅ None None ∅)
         (Some 2))
    = Some (db', r)
    /\ RecordItem.id r = 4
    /\ getRecord db' 4 = Some r.
Proof.
  destruct (@createRecord Sample.utcServer 5 Scenario.weekDb
              (InsertRecord.mk (RecordFields.mk None None None ∅ None
                                  None ∅) (Some 2)))
    as [[db' r] |] eqn:Hrun; [| vm_compute in Hrun; discriminate].
  exists db', r. split; [reflexivity |].
  destruct (@createRecord_getRecord Sample.utcServer 5 Scenario.weekDb db'
              _ r idsFresh_weekDb Hrun) as (Hid & Hget & _).
  split; [exact Hid |]. rewrite Hid in Hget. exact Hget.
Defined.

(** ** The period buckets *)

Section StringObjects.
Import JsObject.

Lemma getStr_replace k v o k' :
  get String.eqb k' (replace String.eqb k v o)
  = if String.eqb k k'
    then match get String.eqb k o with Some _ => Some v | None => None end
    else get String.eqb k' o.
Proof.
  induction o as [| [k0 v0] o IH]; simpl.
  - destruct (String.eqb k k'); reflexivity.
  - destruct (String.eqb_spec k0 k) as [-> | Hk0]; simpl.
    + destruct (String.eqb_spec k k'); reflexivity.
    + destruct (String.eqb_spec k0 k') as [-> | Hk0']; simpl.
      * destruct (String.eqb_spec k k'); [congruence | reflexivity].
      * exact IH.
Qed.

Lemma getStr_snoc k v o k' :
  get String.eqb k' (o ++ [(k, v)])%list
  = match get String.eqb k' o with
    | Some x => Some x
    | None => if String.eqb k k' then Some v else None
    end.
Proof.
  induction o as [| [k0 v0] o IH]; simpl; [reflexivity |].
  destruct (String.eqb k0 k'); [reflexivity | exact IH].
Qed.

Lemma getStr_setStr k v o k' :
  get String.eqb k' (setStr k v o)
  = if String.eqb k k' then Some v else get String.eqb k' o.
Proof.
  unfold setStr. destruct (get String.eqb k o) as [v0 |] eqn:Hget.
  - rewrite getStr_replace, Hget. reflexivity.
  - rewrite getStr_snoc.
    destruct (String.eqb_spec k k') as [<- | Hne].
    + rewrite Hget. reflexivity.
    + destruct (get String.eqb k' o); reflexivity.
Qed.

Lemma keysStr_replace k v (o : list (string * nat)) :
  (replace String.eqb k v o).*1 = o.*1.
Proof.
  induction o as [| [k0 v0] o IH]; simpl; [reflexivity |].
  destruct (String.eqb k0 k); csimpl; [reflexivity | f_equal; exact IH].
Qed.

Lemma getStr_None_keys k (o : list (string * nat)) :
  get String.eqb k o = None <-> k ∉ o.*1.
Proof.
  induction o as [| [k0 v0] o IH]; simpl.
  - rewrite elem_of_nil. tauto.
  - rewrite not_elem_of_cons.
    destruct (String.eqb_spec k0 k) as [-> | Hne].
    + split; [discriminate | tauto].
    + rewrite IH. split; [intros Hk; split; [auto | exact Hk] | tauto].
Qed.

Lemma keysStr_setStr_NoDup k v o : NoDup o.*1 -> NoDup (setStr k v o).*1.
Proof.
  intros Hnd. unfold setStr.
  destruct (get String.eqb k o) as [v0 |] eqn:Hget.
  - rewrite keysStr_replace. exact Hnd.
  - apply getStr_None_keys in Hget.
    rewrite fmap_app. simpl. apply NoDup_app.
    split; [exact Hnd |]. split; [| apply NoDup_singleton].
    intros x Hx Hx'. apply list_elem_of_singleton in Hx'. congruence.
Qed.

Lemma elem_of_getStr k v (o : list (string * nat)) :
  NoDup o.*1 -> (k, v) ∈ o <-> get String.eqb k o = Some v.
Proof.
  induction o as [| [k0 v0] o IH]; simpl; intros Hnd.
  - rewrite elem_of_nil. split; [tauto | discriminate].
  - apply NoDup_cons in Hnd as [Hk0 Hnd]. rewrite elem_of_cons.
    destruct (String.eqb_spec k0 k) as [-> | Hne].
    + split.
      * intros [Heq | Hin]; [congruence |].
        exfalso. apply Hk0. apply list_elem_of_fmap.
        exists (k, v). split; [reflexivity | exact Hin].
      * intros [= ->]. left. reflexivity.
    + rewrite <- (IH Hnd). split; [| tauto].
      intros [Heq | Hin]; [congruence | exact Hin].
Qed.

Lemma sumStr_replace k v (o : list (string * nat)) v0 :
  get String.eqb k o = Some v0 ->
  (sum_list_with snd (replace String.eqb k v o) + v0
   = sum_list_with snd o + v)%nat.
Proof.
  induction o as [| [k1 v1] o IH]; csimpl; [discriminate |].
  destruct (String.eqb k1 k); csimpl.
  - intros [= ->]. lia.
  - intros Hget. specialize (IH Hget). lia.
Qed.

Lemma sum_bumpStr k o :
  sum_list_with snd (bumpStr k o) = S (sum_list_with snd o).
Proof.
  unfold bumpStr, setStr.
  destruct (get String.eqb k o) as [v0 |] eqn:Hget; csimpl.
  - pose proof (sumStr_replace k (v0 + 1)%nat o v0 Hget). lia.
  - rewrite sum_list_with_app. csimpl. lia.
Qed.

Lemma getStr_bumpStr k o k' :
  get String.eqb k' (bumpStr k o)
  = if String.eqb k k'
    then Some (default 0%nat (get String.eqb k o) + 1)%nat
    else get String.eqb k' o.
Proof. unfold bumpStr. apply getStr_setStr. Qed.

End StringObjects.

Lemma ltb_asym a b : String.ltb a b = true -> String.ltb b a = false.
Proof.
  unfold String.ltb. rewrite (String.compare_antisym a b).
  destruct (String.compare b a); simpl; congruence.
Qed.

Lemma ltb_false_leb a b : String.ltb b a = false <-> String.leb a b = true.
Proof.
  unfold String.ltb, String.leb. rewrite (String.compare_antisym a b).
  destruct (String.compare b a); simpl; split; congruence.
Qed.

Lemma ltb_negtrans a b c :
  String.ltb b a = false -> String.ltb c b = false ->
  String.ltb c a = false.
Proof.
  rewrite !ltb_false_leb. intros Hab Hbc.
  apply Is_true_true. apply Is_true_true in Hab, Hbc.
  exact (transitivity (R := String.le) Hab Hbc).
Qed.

Lemma ltb_total a b :
  String.ltb b a = false -> a <> b -> String.ltb a b = true.
Proof.
  unfold String.ltb. rewrite (String.compare_antisym a b).
  destruct (String.compare b a) eqn:Hc; simpl; try congruence.
  apply String.compare_eq_iff in Hc. congruence.
Qed.

Section PeriodBuckets.
Context `{External}.
Import JsObject.

Lemma bucketStep_dated period o r d k :
  RecordItem.createdAt r = Some d -> dateKey period d = Some k ->
  bucketStep period o r = bumpStr k o
  /\ isLabelled period r = true /\ isDated r = true.
Proof.
  intros Hd Hk. unfold bucketStep, isLabelled, isDated, labelOf.
  rewrite Hd, Hk. auto.
Qed.

Lemma bucketStep_undated period o r :
  RecordItem.createdAt r = None ->
  bucketStep period o r = o
  /\ isLabelled period r = false /\ isDated r = false.
Proof.
  intros Hd. unfold bucketStep, isLabelled, isDated, labelOf.
  rewrite Hd. auto.
Qed.

Lemma countRecord_dateCounts period rs :
  forall ac dc ac' dc',
    foldl (countRecord period) (Some (ac, dc)) rs = Some (ac', dc') ->
    dc' = foldl (bucketStep period) dc rs
    /\ List.filter (isLabelled period) rs = List.filter isDated rs.
Proof.
  induction rs as [| r rs IH]; cbn [foldl List.filter];
    intros ac dc ac' dc' Hfold.
  - split; [congruence | reflexivity].
  - unfold countRecord at 2 in Hfold.
    destruct (RecordItem.createdAt r) as [d |] eqn:Hd.
    + destruct (dateKey period d) as [k |] eqn:Hk.
      * destruct (bucketStep_dated period dc r d k Hd Hk)
          as (-> & -> & ->).
        destruct (IH _ _ _ _ Hfold) as [-> ->]. auto.
      * rewrite countRecord_None in Hfold. discriminate.
    + destruct (bucketStep_undated period dc r Hd) as (-> & -> & ->).
      exact (IH _ _ _ _ Hfold).
Qed.

Lemma bucketed_snoc period k rs r :
  bucketed period k (rs ++ [r])
  = (bucketed period k rs
     + match labelOf period r with
       | Some k' => if String.eqb k' k then 1 else 0
       | None => 0
       end)%nat.
Proof.
  unfold bucketed. rewrite List.filter_app, length_app. simpl.
  destruct (labelOf period r) as [k' |]; [| reflexivity].
  destruct (String.eqb k' k); reflexivity.
Qed.

Lemma dateCounts_get period rs k :
  get String.eqb k (foldl (bucketStep period) [] rs)
  = if (bucketed period k rs =? 0)%nat then None
    else Some (bucketed period k rs).
Proof.
  induction rs as [| r rs IH] using rev_ind; [reflexivity |].
  rewrite foldl_app, bucketed_snoc. simpl. unfold bucketStep at 1.
  destruct (labelOf period r) as [k' |]; [| rewrite Nat.add_0_r; exact IH].
  rewrite getStr_bumpStr.
  destruct (String.eqb_spec k' k) as [-> | Hne].
  - rewrite IH.
    destruct (Nat.eqb_spec (bucketed period k rs) 0) as [Hz | Hnz].
    + rewrite Hz. reflexivity.
    + simpl.
      destruct (Nat.eqb_spec (bucketed period k rs + 1) 0); [lia |].
      reflexivity.
  - rewrite IH, Nat.add_0_r. reflexivity.
Qed.

Lemma dateCounts_NoDup period rs :
  NoDup (foldl (bucketStep period) [] rs).*1.
Proof.
  induction rs as [| r rs IH] using rev_ind; [constructor |].
  rewrite foldl_app. simpl. unfold bucketStep at 1.
  destruct (labelOf period r); [| exact IH].
  apply keysStr_setStr_NoDup, IH.
Qed.

Lemma dateCounts_sum period rs :
  sum_list_with snd (foldl (bucketStep period) [] rs)
  = length (List.filter (isLabelled period) rs).
Proof.
  induction rs as [| r rs IH] using rev_ind; [reflexivity |].
  rewrite foldl_app, List.filter_app, length_app. simpl.
  unfold bucketStep at 1, isLabelled at 2.
  destruct (labelOf period r); simpl.
  - rewrite sum_bumpStr, IH. lia.
  - rewrite IH. lia.
Qed.

Lemma bucketed_pos period k rs :
  (bucketed period k rs =? 0)%nat = false <->
  exists r, r ∈ rs /\ labelOf period r = Some k.
Proof.
  unfold bucketed. rewrite Nat.eqb_neq. split.
  - intros Hlen.
    destruct (List.filter _ rs) as [| r l] eqn:Hf; [contradiction |].
    assert (Hin : In r (r :: l)) by (left; reflexivity).
    rewrite <- Hf in Hin. apply filter_In in Hin as [Hin Hk].
    exists r. split; [apply list_elem_of_In, Hin |].
    destruct (labelOf period r) as [k' |]; [| discriminate].
    apply String.eqb_eq in Hk. congruence.
  - intros (r & Hin & Hk) Hlen. apply length_zero_iff_nil in Hlen.
    assert (Hf : In r (List.filter
                         (fun r => match labelOf period r with
                                   | Some k' => String.eqb k' k
                                   | None => false
                                   end) rs)).
    { apply filter_In. split; [apply list_elem_of_In, Hin |].
      rewrite Hk. apply String.eqb_refl. }
    rewrite Hlen in Hf. exact Hf.
Qed.

Lemma perPeriod_dates (o : list (string * nat)) :
  PerPeriod.date <$> map (fun '(date, cnt) => PerPeriod.mk date cnt) o
  = o.*1.
Proof.
  induction o as [| [k v] o IH]; csimpl; [reflexivity |].
  f_equal. exact IH.
Qed.

Lemma sum_perPeriod (o : list (string * nat)) :
  sum_list_with PerPeriod.count
    (map (fun '(date, cnt) => PerPeriod.mk date cnt) o)
  = sum_list_with snd o.
Proof.
  induction o as [| [k v] o IH]; simpl; [reflexivity |].
  rewrite IH. reflexivity.
Qed.

Lemma elem_of_perPeriod (o : list (string * nat)) e :
  e ∈ map (fun '(date, cnt) => PerPeriod.mk date cnt) o <->
  (PerPeriod.date e, PerPeriod.count e) ∈ o.
Proof.
  rewrite list_elem_of_In, in_map_iff. split.
  - intros ([k v] & <- & Hin). apply list_elem_of_In, Hin.
  - intros Hin. exists (PerPeriod.date e, PerPeriod.count e).
    split; [destruct e; reflexivity | apply list_elem_of_In, Hin].
Qed.

Lemma StronglySorted_strict {A} (f : A -> string) (l : list A) :
  StronglySorted (fun a b => String.ltb (f b) (f a) = false) l ->
  NoDup (f <$> l) ->
  StronglySorted (fun a b => String.ltb (f a) (f b) = true) l.
Proof.
  induction 1 as [| a l Hl IH Ha]; csimpl; intros Hnd; constructor.
  - apply NoDup_cons in Hnd as [_ Hnd]. exact (IH Hnd).
  - apply NoDup_cons in Hnd as [Hfresh _].
    rewrite Forall_forall in Ha |- *. intros b Hb.
    apply ltb_total; [exact (Ha b Hb) |].
    intros Heq. apply Hfresh. rewrite Heq.
    apply list_elem_of_fmap. eauto.
Qed.

Lemma recordsByPeriod_facts
  (db : Db) (period : Period) (stats : Stats.t) :
  getStats db period = Some stats ->
  StronglySorted
    (fun a b => String.ltb (PerPeriod.date a) (PerPeriod.date b) = true)
    (Stats.recordsByPeriod stats)
  /\ NoDup (PerPeriod.date <$> Stats.recordsByPeriod stats)
  /\ (forall k,
         k ∈ PerPeriod.date <$> Stats.recordsByPeriod stats <->
         exists r, r ∈ records db /\ labelOf period r = Some k)
  /\ (forall e,
         e ∈ Stats.recordsByPeriod stats ->
         PerPeriod.count e
         = bucketed period (PerPeriod.date e) (records db))
  /\ sum_list_with PerPeriod.count (Stats.recordsByPeriod stats)
     = length (List.filter isDated (records db)).
Proof.
  unfold getStats. intros Hstats.
  destruct (foldl (countRecord period) (Some ([], [])) (records db))
    as [[ac dc] |] eqn:Hfold; [| discriminate].
  apply countRecord_dateCounts in Hfold as [-> Hdated].
  injection Hstats as <-. cbn [Stats.recordsByPeriod].
  set (dc := foldl (bucketStep period) [] (records db)).
  set (entries := map (fun '(date, cnt) => PerPeriod.mk date cnt) dc).
  assert (Hperm : stable_sort localeBefore entries ≡ₚ entries)
    by apply stable_sort_Permutation.
  assert (Hnd : NoDup (PerPeriod.date <$> stable_sort localeBefore entries)).
  { rewrite Hperm. unfold entries. rewrite perPeriod_dates.
    apply dateCounts_NoDup. }
  split; [| split; [exact Hnd | split; [| split]]].
  - apply (StronglySorted_strict PerPeriod.date); [| exact Hnd].
    apply (stable_sort_ordered localeBefore).
    + intros a b. apply ltb_asym.
    + intros a b c. apply ltb_negtrans.
  - intros k. rewrite Hperm. unfold entries. rewrite perPeriod_dates.
    rewrite <- bucketed_pos.
    pose proof (dateCounts_get period (records db) k) as Hget.
    fold dc in Hget.
    pose proof (getStr_None_keys k dc) as Hnone.
    destruct (bucketed period k (records db) =? 0)%nat.
    + split; [| discriminate]. intros Hin. tauto.
    + split; [reflexivity |]. intros _.
      destruct (decide (k ∈ dc.*1)) as [Hin | Hnin]; [exact Hin |].
      apply Hnone in Hnin. congruence.
  - intros e He. apply elem_of_stable_sort in He.
    apply elem_of_perPeriod in He.
    apply (elem_of_getStr _ _ _ (dateCounts_NoDup period (records db)))
      in He.
    pose proof (dateCounts_get period (records db) (PerPeriod.date e))
      as Hget.
    fold dc in He, Hget. rewrite He in Hget.
    destruct (bucketed period (PerPeriod.date e) (records db) =? 0)%nat;
      congruence.
  - rewrite Hperm. unfold entries. rewrite sum_perPeriod.
    unfold dc. rewrite dateCounts_sum, Hdated. reflexivity.
Qed.

(** X10. The buckets of [getStats].  [recordsByPeriod] holds one entry
    per label that some record falls under, in strictly ascending
    order of the labels; the count of an entry is the number of
    records under its label, and the counts add up to the number of
    records that have a [createdAt]. *)
Theorem getStats_recordsByPeriod
  (db : Db) (period : Period) (stats : Stats.t) :
  getStats db period = Some stats ->
  StronglySorted
    (fun a b => String.ltb (PerPeriod.date a) (PerPeriod.date b) = true)
    (Stats.recordsByPeriod stats)
  /\ NoDup (PerPeriod.date <$> Stats.recordsByPeriod stats)
  /\ (forall k,
         k ∈ PerPeriod.date <$> Stats.recordsByPeriod stats <->
         exists r, r ∈ records db /\ labelOf period r = Some k)
  /\ (forall e,
         e ∈ Stats.recordsByPeriod stats ->
         PerPeriod.count e
         = bucketed period (PerPeriod.date e) (records db))
  /\ sum_list_with PerPeriod.count (Stats.recordsByPeriod stats)
     = length (List.filter isDated (records db)).
Proof. apply recordsByPeriod_facts. Qed.

Lemma isoDate_Day t t' :
  JsDate.Day t = JsDate.Day t' -> JsDate.isoDate t = JsDate.isoDate t'.
Proof.
  intros Hday.
  unfold JsDate.isoDate, JsDate.DateFromTime, JsDate.MonthFromTime,
    JsDate.DayWithinYear, JsDate.YearFromTime.
  rewrite Hday. reflexivity.
Qed.

Lemma filter_all_members {A} (P : A -> bool) l :
  (forall x, x ∈ l -> P x = true) -> List.filter P l = l.
Proof.
  induction l as [| a l IH]; simpl; intros HP; [reflexivity |].
  rewrite (HP a) by left. f_equal. apply IH.
  intros x Hx. apply HP. right. exact Hx.
Qed.

Lemma singleton_of_constant {A} (f : A -> string) k (l : list A) :
  NoDup (f <$> l) -> (forall e, e ∈ l -> f e = k) -> l <> [] ->
  exists e, l = [e].
Proof.
  destruct l as [| a [| b l]]; csimpl; intros Hnd Hk Hne.
  - contradiction.
  - eauto.
  - exfalso. apply NoDup_cons in Hnd as [Hfresh _]. apply Hfresh.
    rewrite (Hk a), <- (Hk b); [left | right; left | left].
Qed.

(** X11. Records of one UTC day make one bucket.  With the period day,
    when every record has a [createdAt] on the UTC day of [t] and
    there is at least one record, [recordsByPeriod] is the single entry
    of that date, counting all the records. *)
Theorem getStats_one_day (db : Db) (t : Z) :
  records db <> [] ->
  (forall r, r ∈ records db ->
             exists d, RecordItem.createdAt r = Some d
                       /\ JsDate.Day d = JsDate.Day t) ->
  exists stats,
    getStats db day = Some stats
    /\ Stats.recordsByPeriod stats
       = [PerPeriod.mk (JsDate.isoDate t) (length (records db))].
Proof.
  intros Hne Hday.
  assert (Hperiod : day <> week) by discriminate.
  destruct (getStats_returns db day (or_introl Hperiod)) as [stats Hstats].
  exists stats. split; [exact Hstats |].
  destruct (recordsByPeriod_facts db day stats Hstats)
    as (_ & Hnd & Hkeys & Hcount & _).
  assert (Hlabel : forall r, r ∈ records db ->
                             labelOf day r = Some (JsDate.isoDate t)).
  { intros r Hr. destruct (Hday r Hr) as (d & Hd & Hsame).
    unfold labelOf. rewrite Hd. unfold dateKey. f_equal.
    apply isoDate_Day, Hsame. }
  assert (Hconst : forall e, e ∈ Stats.recordsByPeriod stats ->
                             PerPeriod.date e = JsDate.isoDate t).
  { intros e He.
    assert (Hin : PerPeriod.date e
                  ∈ PerPeriod.date <$> Stats.recordsByPeriod stats)
      by (apply list_elem_of_fmap; eauto).
    apply Hkeys in Hin as (r & Hr & Hk).
    rewrite (Hlabel r Hr) in Hk. congruence. }
  assert (Hsome : Stats.recordsByPeriod stats <> []).
  { destruct (records db) as [| r rs] eqn:Hrs; [contradiction |].
    assert (Hin : JsDate.isoDate t
                  ∈ PerPeriod.date <$> Stats.recordsByPeriod stats).
    { apply Hkeys. exists r. split; [left | apply Hlabel; left]. }
    intros Hnil. rewrite Hnil in Hin. apply elem_of_nil in Hin.
    exact Hin. }
  destruct (singleton_of_constant PerPeriod.date (JsDate.isoDate t)
              (Stats.recordsByPeriod stats) Hnd Hconst Hsome) as [e He].
  rewrite He. f_equal.
  assert (Hce : e ∈ Stats.recordsByPeriod stats) by (rewrite He; left).
  specialize (Hcount e Hce). specialize (Hconst e Hce).
  destruct e as [date cnt].
  cbn [PerPeriod.date PerPeriod.count] in Hcount, Hconst.
  subst date cnt. f_equal.
  unfold bucketed. f_equal. apply filter_all_members.
  intros r Hr. rewrite (Hlabel r Hr). apply String.eqb_refl.
Qed.

End PeriodBuckets.

Lemma getStats_recordsByPeriod_witness :
  exists stats,
    @getStats Sample.utcServer Scenario.weekDb week = Some stats
    /\ sum_list_with PerPeriod.count (Stats.recordsByPeriod stats) = 3%nat.
Proof.
  destruct (@getStats Sample.utcServer Scenario.weekDb week)
    as [stats |] eqn:Hstats; [| vm_compute in Hstats; discriminate].
  exists stats. split; [reflexivity |].
  destruct (@getStats_recordsByPeriod Sample.utcServer Scenario.weekDb
              week stats Hstats) as (_ & _ & _ & _ & Hsum).
  rewrite Hsum. reflexivity.
Defined.

Lemma getStats_one_day_witness :
  let db :=
    mkDb []
      [Sample.recordAt 1 2 (Some (JsDate.utc 2024 0 1 10 0));
       Sample.recordAt 2 5 (Some (JsDate.utc 2024 0 1 23 0))] [] 1 3 in
  exists stats,
    @getStats Sample.utcServer db day = Some stats
    /\ Stats.recordsByPeriod stats = [PerPeriod.mk "2024-01-01" 2].
Proof.
  cbn zeta.
  destruct (@getStats_one_day Sample.utcServer
              (mkDb []
                 [Sample.recordAt 1 2 (Some (JsDate.utc 2024 0 1 10 0));
                  Sample.recordAt 2 5 (Some (JsDate.utc 2024 0 1 23 0))]
                 [] 1 3)
              (JsDate.utc 2024 0 1 0 0))
    as (stats & Hstats & Hbuckets).
  - discriminate.
  - intros r Hr. cbn [records] in Hr.
    rewrite !elem_of_cons, elem_of_nil in Hr.
    destruct Hr as [-> | [-> | []]]; eexists; split;
      [reflexivity | vm_compute; reflexivity
      | reflexivity | vm_compute; reflexivity].
  - exists stats. split; [exact Hstats |]. rewrite Hbuckets.
    vm_compute. reflexivity.
Defined.

(** ** The statistics route *)

Section StatsRoute.
Context `{External}.

(** X12. The statistics route never changes the store, and a period
    other than week never makes it fail: for a holder of viewStats the
    answer is 200 with the statistics by month when the query says
    month, and by day when the period is absent, empty or not one of
    the three names. *)
Theorem stats_summary_period (db : Db) (req : Request) :
  hasPermission req viewStats = true ->
  query req !! "period" <> Some "week" ->
  (stats_summary db req).1 = db
  /\ exists stats,
       stats_summary db req = (db, Json 200 stats)
       /\ (query req !! "period" = Some "month" ->
           getStats db month = Some stats)
       /\ (query req !! "period" <> Some "month" ->
           getStats db day = Some stats).
Proof.
  intros Hperm Hweek. unfold stats_summary. rewrite Hperm. cbn [negb].
  assert (Hperiod : safePeriod req <> week
                    /\ (query req !! "period" = Some "month" ->
                        safePeriod req = month)
                    /\ (query req !! "period" <> Some "month" ->
                        safePeriod req = day)).
  { unfold safePeriod. destruct (query req !! "period") as [s |].
    - destruct (String.eqb_spec s "") as [-> | Hs].
      { simpl. repeat split; congruence. }
      apply truthy_JStr in Hs. rewrite Hs.
      destruct (String.eqb_spec s "day") as [-> | _];
        [repeat split; congruence |].
      destruct (String.eqb_spec s "week") as [-> | _]; [congruence |].
      destruct (String.eqb_spec s "month") as [-> | Hm];
        repeat split; congruence.
    - simpl. repeat split; congruence. }
  destruct Hperiod as (Hnw & Hmonth & Hday).
  destruct (getStats_returns db (safePeriod req) (or_introl Hnw))
    as [stats Hstats].
  rewrite Hstats. split; [reflexivity |]. exists stats.
  split; [reflexivity |]. split.
  - intros Hq. rewrite <- (Hmonth Hq). exact Hstats.
  - intros Hq. rewrite <- (Hday Hq). exact Hstats.
Qed.

End StatsRoute.

Lemma stats_summary_period_witness :
  let req :=
    mkRequest (Some Sample.admin) ∅ "" (list_to_map [("period", "year")]) in
  exists stats,
    @stats_summary Sample.utcServer Scenario.weekDb req
    = (Scenario.weekDb, Json 200 stats)
    /\ @getStats Sample.utcServer Scenario.weekDb day = Some stats.
Proof.
  cbn zeta.
  destruct (@stats_summary_period Sample.utcServer Scenario.weekDb
              (mkRequest (Some Sample.admin) ∅ ""
                 (list_to_map [("period", "year")])))
    as (_ & stats & Hrun & _ & Hday).
  - reflexivity.
  - vm_compute. discriminate.
  - exists stats. split; [exact Hrun |]. apply Hday.
    vm_compute. discriminate.
Defined.

(** ** Accounts *)

Section Accounts.
Context `{External} `{Schemas}.

Lemma nameHeld_getUserByUsername db n :
  getUserByUsername db n = None -> nameHeld db None n = false.
Proof.
  unfold getUserByUsername, nameHeld.
  induction (users db) as [| u l IH]; simpl; [reflexivity |].
  destruct (String.eqb (User.username u) n); [discriminate | exact IH].
Qed.

Lemma getUserByUsername_held db n u :
  getUserByUsername db n = Some u -> nameHeld db None n = true.
Proof.
  unfold getUserByUsername, nameHeld.
  induction (users db) as [| a l IH]; simpl; [discriminate |].
  destruct (String.eqb (User.username a) n); [reflexivity | exact IH].
Qed.

Lemma getUserByUsername_snoc db n u (l : list User.t) :
  users db = (l ++ [u])%list -> User.username u = n ->
  is_Some (getUserByUsername db n).
Proof.
  intros Hl Hn. unfold getUserByUsername. rewrite Hl, find_snoc.
  destruct (List.find _ l); [eexists; reflexivity |].
  rewrite Hn, String.eqb_refl. eexists; reflexivity.
Qed.

(** What [createUser] writes when the name is free. *)
Lemma createUser_free db (insertUser : InsertUser.t) :
  getUserByUsername db (InsertUser.username insertUser) = None ->
  createUser db insertUser
  = Some (mkDb (users db
                ++ [User.mk (nextUserId db)
                      (InsertUser.username insertUser)
                      (hashPassword (InsertUser.password insertUser))
                      (Some (InsertUser.password insertUser))
                      (InsertUser.fullName insertUser)
                      (default defaultRole (InsertUser.role insertUser))
                      (InsertUser.permissions insertUser)
                      (default defaultIsActive
                               (InsertUser.isActive insertUser))])
               (records db) (customColumns db)
               (nextUserId db + 1) (nextRecordId db),
          User.mk (nextUserId db)
            (InsertUser.username insertUser)
            (hashPassword (InsertUser.password insertUser))
            (Some (InsertUser.password insertUser))
            (InsertUser.fullName insertUser)
            (default defaultRole (InsertUser.role insertUser))
            (InsertUser.permissions insertUser)
            (default defaultIsActive (InsertUser.isActive insertUser))).
Proof.
  intros Hfree. unfold createUser. cbn [InsertUser.username].
  rewrite (nameHeld_getUserByUsername db _ Hfree). reflexivity.
Qed.

(** X13. Seeding.  A store that has a user named admin is left as it
    is.  A store with no user named admin or agent1 gains exactly the
    two seed accounts, an admin and an agent whose plaintext passwords
    are stored beside the hashes, and seeding the result again changes
    nothing.  When only agent1 is there, the admin is written and the
    second insert throws. *)
Theorem seedDatabase_accounts (db : Db) :
  (is_Some (getUserByUsername db "admin") ->
   seedDatabase db = (db, true))
  /\ (getUserByUsername db "admin" = None ->
      getUserByUsername db "agent1" = None ->
      exists db',
        seedDatabase db = (db', true)
        /\ users db'
           = (users db
              ++ [User.mk (nextUserId db) "admin"
                    (hashPassword "admin123") (Some "admin123")
                    "System Administrator" "admin" None true;
                  User.mk (nextUserId db + 1) "agent1"
                    (hashPassword "password") (Some "password")
                    "John Doe" "agent" None true])%list
        /\ records db' = records db
        /\ seedDatabase db' = (db', true))
  /\ (getUserByUsername db "admin" = None ->
      is_Some (getUserByUsername db "agent1") ->
      exists db',
        seedDatabase db = (db', false)
        /\ is_Some (getUserByUsername db' "admin")).
Proof.
  split; [| split].
  - intros [a Ha]. unfold seedDatabase. rewrite Ha. reflexivity.
  - intros Hadmin Hagent. unfold seedDatabase. rewrite Hadmin.
    rewrite (createUser_free db seedAdmin Hadmin).
    set (db1 := mkDb _ _ _ _ _).
    assert (Hagent1 : getUserByUsername db1 "agent1" = None).
    { unfold getUserByUsername, db1. cbn [users]. rewrite find_snoc.
      unfold getUserByUsername in Hagent. rewrite Hagent. reflexivity. }
    rewrite (createUser_free db1 seedAgent Hagent1).
    eexists. split; [reflexivity |]. cbn [users records db1 seedAdmin
      seedAgent InsertUser.username InsertUser.password
      InsertUser.fullName InsertUser.role InsertUser.permissions
      InsertUser.isActive nextUserId default].
    split; [rewrite <- app_assoc; reflexivity |].
    split; [reflexivity |].
    set (db2 := mkDb _ _ _ _ _).
    assert (Hseeded : is_Some (getUserByUsername db2 "admin")).
    { unfold getUserByUsername, db2. cbn [users].
      rewrite find_snoc, find_snoc.
      destruct (List.find _ (users db)); [eexists; reflexivity |].
      cbn. eexists; reflexivity. }
    destruct Hseeded as [a Ha]. rewrite Ha. reflexivity.
  - intros Hadmin [a Hagent]. unfold seedDatabase. rewrite Hadmin.
    rewrite (createUser_free db seedAdmin Hadmin).
    set (db1 := mkDb _ _ _ _ _).
    assert (Hheld : nameHeld db1 None "agent1" = true).
    { unfold nameHeld, db1. cbn [users]. rewrite existsb_app.
      apply getUserByUsername_held in Hagent. unfold nameHeld in Hagent.
      rewrite Hagent. reflexivity. }
    unfold createUser at 1. cbn [InsertUser.username seedAgent].
    rewrite Hheld. eexists. split; [reflexivity |].
    eapply (getUserByUsername_snoc db1 "admin" _ (users db));
      reflexivity.
Qed.

(** X14. Creating a secondary administrator.  For an administrator
    whose body passes the schema: a name that is taken is answered 400
    and nothing is written; otherwise the answer is 201 and exactly
    one user is added, with the next id, the role secondary_admin
    whatever role the body carries, and the plaintext password stored
    beside the hash. *)
Theorem secondaryAdmins_create_role
  (db : Db) (req : Request) (input : InsertUser.t) :
  isAdmin req = true ->
  api_secondaryAdmins_create_input (body req) = ParseOk input ->
  (is_Some (getUserByUsername db (InsertUser.username input)) ->
   secondaryAdmins_create db req
   = (db, Message 400 "Username already exists" None))
  /\ (getUserByUsername db (InsertUser.username input) = None ->
      exists db' admin,
        secondaryAdmins_create db req = (db', Json 201 admin)
        /\ users db' = (users db ++ [admin])%list
        /\ User.id admin = nextUserId db
        /\ User.username admin = InsertUser.username input
        /\ User.role admin = "secondary_admin"
        /\ User.permissions admin = InsertUser.permissions input
        /\ User.plainPassword admin = Some (InsertUser.password input)
        /\ User.password admin = hashPassword (InsertUser.password input)).
Proof.
  intros Hadmin Hparse. unfold secondaryAdmins_create.
  rewrite Hadmin, Hparse. cbn [negb]. split.
  - intros [a Ha]. rewrite Ha. reflexivity.
  - intros Hfree. rewrite Hfree.
    rewrite (createUser_free db (asSecondaryAdmin input) Hfree).
    eexists _, _. split; [reflexivity |]. simpl. repeat split.
Qed.

Lemma agents_create_outcome
  (db : Db) (req : Request) (input : InsertUser.t) :
  hasPermission req createAgents = true ->
  api_agents_create_input (body req) = ParseOk input ->
  (is_Some (getUserByUsername db (InsertUser.username input)) ->
   agents_create db req
   = (db, Message 400 "Username already exists" None))
  /\ (getUserByUsername db (InsertUser.username input) = None ->
      exists db' agent,
        agents_create db req = (db', Json 201 agent)
        /\ users db' = (users db ++ [agent])%list
        /\ User.id agent = nextUserId db
        /\ User.role agent = default defaultRole (InsertUser.role input)
        /\ User.permissions agent = InsertUser.permissions input
        /\ User.plainPassword agent = Some (InsertUser.password input)).
Proof.
  intros Hperm Hparse. unfold agents_create.
  rewrite Hperm, Hparse. cbn [negb]. split.
  - intros [a Ha]. rewrite Ha. reflexivity.
  - intros Hfree. rewrite Hfree.
    rewrite (createUser_free db input Hfree).
    eexists _, _. split; [reflexivity |]. simpl. repeat split.
Qed.

(** X15. Creating an agent.  For a holder of createAgents whose body
    passes the schema: a name that is taken is answered 400 and
    nothing is written; otherwise exactly one user is added, and its
    role is the one the parsed body carries, the column default when
    it carries none: the route itself does not set the role. *)
Theorem agents_create_role
  (db : Db) (req : Request) (input : InsertUser.t) :
  hasPermission req createAgents = true ->
  api_agents_create_input (body req) = ParseOk input ->
  (is_Some (getUserByUsername db (InsertUser.username input)) ->
   agents_create db req
   = (db, Message 400 "Username already exists" None))
  /\ (getUserByUsername db (InsertUser.username input) = None ->
      exists db' agent,
        agents_create db req = (db', Json 201 agent)
        /\ users db' = (users db ++ [agent])%list
        /\ User.id agent = nextUserId db
        /\ User.role agent = default defaultRole (InsertUser.role input)
        /\ User.permissions agent = InsertUser.permissions input
        /\ User.plainPassword agent = Some (InsertUser.password input)).
Proof. apply agents_create_outcome. Qed.

(** X16. Updating a user through the agent route.  The route looks the
    row up by id alone: a holder of editAgents whose body passes the
    schema rewrites the row with that id whatever its role is, an
    administrator's included, and is answered 200 with the new row;
    the role of the row becomes the one in the parsed body when it
    carries one. *)
Theorem agents_update_any_role
  (db : Db) (req : Request) (input : UpdateUser.t) (i : Z) (u0 : User.t) :
  hasPermission req editAgents = true ->
  api_agents_update_input (body req) = ParseOk input ->
  Number (JStr (params_id req)) = Some i ->
  NoDup (User.id <$> users db) ->
  u0 ∈ users db -> User.id u0 = i ->
  noUserValues (withHashedPassword input) = false ->
  usernameTaken db i (withHashedPassword input) = false ->
  exists db',
    agents_update db req
    = (db', Json 200 (Some (setUser (withHashedPassword input) u0)))
    /\ (forall u, u ∈ users db' <->
                  (u ∈ users db /\ User.id u <> i)
                  \/ u = setUser (withHashedPassword input) u0)
    /\ (forall r, UpdateUser.role input = Some r ->
                  User.role (setUser (withHashedPassword input) u0) = r)
    /\ (forall pw, UpdateUser.password input = Some pw -> pw <> "" ->
                   User.plainPassword (setUser (withHashedPassword input) u0)
                   = Some pw).
Proof.
  intros Hperm Hparse Hid Hnd Hu0 Hi Hvalues Hfree. unfold agents_update.
  rewrite Hperm, Hparse, Hid. cbn [negb]. unfold updateUser.
  rewrite Hvalues, Hfree.
  rewrite (find_map_update User.id (setUser (withHashedPassword input)) i
             (users db) u0 (fun _ => eq_refl) Hnd Hu0 Hi).
  eexists. split; [reflexivity |]. cbn [users]. split; [| split].
  - intros u. apply elem_of_map_update; assumption.
  - intros r Hr. unfold setUser, withHashedPassword. cbn [User.role].
    destruct (UpdateUser.password input) as [pw |]; [| rewrite Hr; reflexivity].
    destruct (truthy (JStr pw)); cbn [UpdateUser.role]; rewrite Hr;
      reflexivity.
  - intros pw Hpw Hne.
    destruct (withHashedPassword_truthy input pw Hpw Hne) as [Hplain _].
    unfold setUser. cbn [User.plainPassword]. rewrite Hplain. reflexivity.
Qed.

End Accounts.

Lemma seedDatabase_accounts_witness :
  exists db',
    @seedDatabase Sample.utcServer SampleSchemas.emptyDb = (db', true)
    /\ users db'
       = [User.mk 1 "admin" "scrypt:admin123" (Some "admin123")
            "System Administrator" "admin" None true;
          User.mk 2 "agent1" "scrypt:password" (Some "password")
            "John Doe" "agent" None true].
Proof.
  destruct (@seedDatabase_accounts Sample.utcServer SampleSchemas.emptyDb)
    as (_ & Hfresh & _).
  destruct (Hfresh eq_refl eq_refl) as (db' & Hrun & Husers & _).
  exists db'. split; [exact Hrun | exact Husers].
Defined.

Lemma secondaryAdmins_create_role_witness :
  exists db' created,
    @secondaryAdmins_create Sample.utcServer Sample.seeded
      (Sample.requestBy Sample.admin
         [("username", JStr "deputy"); ("password", JStr "secret");
          ("fullName", JStr "Jane Roe"); ("role", JStr "admin")] "")
    = (db', Json 201 created)
    /\ User.role created = "secondary_admin"
    /\ User.plainPassword created = Some "secret".
Proof.
  destruct (@secondaryAdmins_create_role Sample.utcServer Sample.seeded
              (Sample.requestBy Sample.admin
                 [("username", JStr "deputy"); ("password", JStr "secret");
                  ("fullName", JStr "Jane Roe"); ("role", JStr "admin")] "")
              (InsertUser.mk "deputy" "secret" None "Jane Roe" None None
                 None))
    as (_ & Hfree).
  - reflexivity.
  - vm_compute. reflexivity.
  - destruct (Hfree eq_refl)
      as (db' & created & Hrun & _ & _ & _ & Hrole & _ & Hplain & _).
    exists db', created. auto.
Defined.

Lemma agents_create_role_witness :
  exists db' created,
    @agents_create Sample.utcServer SampleSchemas.schemas Sample.seeded
      (Sample.requestBy Sample.deputy
         [("username", JStr "agent2"); ("password", JStr "pw");
          ("fullName", JStr "Ann Lee")] "")
    = (db', Json 201 created)
    /\ User.role created = "agent"
    /\ User.id created = 3.
Proof.
  destruct (@agents_create_role Sample.utcServer SampleSchemas.schemas
              Sample.seeded
              (Sample.requestBy Sample.deputy
                 [("username", JStr "agent2"); ("password", JStr "pw");
                  ("fullName", JStr "Ann Lee")] "")
              (InsertUser.mk "agent2" "pw" None "Ann Lee" None None None))
    as (_ & Hfree).
  - vm_compute. reflexivity.
  - vm_compute. reflexivity.
  - destruct (Hfree eq_refl)
      as (db' & created & Hrun & _ & Hid & Hrole & _).
    exists db', created. auto.
Defined.

Lemma agents_update_any_role_witness :
  exists db' row,
    @agents_update Sample.utcServer Sample.seeded
      (Sample.requestBy Sample.deputy [("password", JStr "owned")] "1")
    = (db', Json 200 (Some row))
    /\ User.role row = "admin"
    /\ User.plainPassword row = Some "owned".
Proof.
  assert (Hnd : NoDup (User.id <$> users Sample.seeded)).
  { refine (bool_decide_unpack _ _). vm_compute. exact I. }
  destruct (@agents_update_any_role Sample.utcServer Sample.seeded
              (Sample.requestBy Sample.deputy [("password", JStr "owned")]
                 "1")
              (UpdateUser.mk None (Some "owned") None None None None None)
              1 Sample.admin)
    as (db' & Hrun & _ & _ & Hplain).
  - vm_compute. reflexivity.
  - vm_compute. reflexivity.
  - reflexivity.
  - exact Hnd.
  - left.
  - reflexivity.
  - reflexivity.
  - reflexivity.
  - eexists db', _. split; [exact Hrun |]. split; [reflexivity |].
    apply (Hplain "owned"); [reflexivity | discriminate].
Defined.

Section Exposure.
Context `{External} `{Schemas}.

(** X17. Creating an agent and then listing agents.  When a holder of
    createAgents creates a user whose role comes out as agent, any
    requester with role agent who lists the agents afterwards receives
    the whole new row, with the plaintext of the password in
    [plainPassword]. *)
Theorem created_agent_is_listed
  (db : Db) (creator reader : Request) (input : InsertUser.t)
  (u : User.t) :
  hasPermission creator createAgents = true ->
  api_agents_create_input (body creator) = ParseOk input ->
  getUserByUsername db (InsertUser.username input) = None ->
  default defaultRole (InsertUser.role input) = "agent" ->
  user reader = Some u -> User.role u = "agent" ->
  exists db' agent rows,
    agents_create db creator = (db', Json 201 agent)
    /\ agents_list db' reader = (db', Json 200 rows)
    /\ agent ∈ rows
    /\ User.username agent = InsertUser.username input
    /\ User.plainPassword agent = Some (InsertUser.password input).
Proof.
  intros Hperm Hparse Hfree Hrole Hu Hagent.
  destruct (agents_create_outcome db creator input Hperm Hparse)
    as [_ Hnew].
  destruct (Hnew Hfree)
    as (db' & agent & Hrun & Husers & _ & Hr & _ & Hplain).
  exists db', agent, (getAgents db'). split; [exact Hrun |].
  split.
  { unfold agents_list. rewrite Hu, Hagent. reflexivity. }
  split.
  { unfold getAgents. apply list_elem_of_In, filter_In. split.
    - rewrite Husers. apply in_or_app. right. left. reflexivity.
    - rewrite Hr, Hrole. reflexivity. }
  split; [| exact Hplain].
  unfold agents_create in Hrun. rewrite Hperm, Hparse, Hfree in Hrun.
  cbn [negb] in Hrun. rewrite (createUser_free db input Hfree) in Hrun.
  injection Hrun as _ <-. reflexivity.
Qed.

(** X18. The records list for a requester who is not refused (an
    admin, an agent, or a secondary_admin holding viewRecords).  With
    an empty query the answer holds every record of the store exactly
    once, whoever collected it; an [agentId] that is not a number
    filters nothing. *)
Theorem records_list_unfiltered (db : Db) (req : Request) (u : User.t) :
  user req = Some u ->
  User.role u <> "secondary_admin" \/ hasPermission req viewRecords = true ->
  (query req = ∅ \/
   exists s, query req = {[ "agentId" := s ]}
             /\ Number (JStr s) = None) ->
  exists rows,
    records_list db req = (db, Json 200 rows)
    /\ rows ≡ₚ records db.
Proof.
  intros Hu Hallowed Hquery. unfold records_list. rewrite Hu.
  assert (Hgate : String.eqb (User.role u) "secondary_admin"
                  && negb (hasPermission req viewRecords) = false).
  { destruct Hallowed as [Hr | ->]; [| apply andb_false_r].
    apply String.eqb_neq in Hr. rewrite Hr. reflexivity. }
  rewrite Hgate.
  assert (Hfilters : exists f,
             queryFilters (query req) = Some f
             /\ and_ (conditions f) = fun _ => true).
  { destruct Hquery as [-> | (s & -> & Hnan)].
    - eexists. split; [reflexivity | reflexivity].
    - unfold queryFilters, queryDate.
      rewrite !lookup_singleton_ne by discriminate.
      rewrite lookup_singleton_eq, Hnan.
      eexists. split; [reflexivity |].
      destruct (truthy (JStr s)); reflexivity. }
  destruct Hfilters as (f & -> & Hconds).
  eexists. split; [reflexivity |].
  unfold getRecords, filterRecords. rewrite stable_sort_Permutation, Hconds.
  rewrite filter_all_true by reflexivity. reflexivity.
Qed.

End Exposure.

Lemma created_agent_is_listed_witness :
  exists db' agent rows,
    @agents_create Sample.utcServer SampleSchemas.schemas Sample.seeded
      (Sample.requestBy Sample.admin
         [("username", JStr "agent2"); ("password", JStr "pw");
          ("fullName", JStr "Ann Lee")] "")
    = (db', Json 201 agent)
    /\ agents_list db' (Sample.requestBy Sample.agent1 [] "")
       = (db', Json 200 rows)
    /\ agent ∈ rows
    /\ User.plainPassword agent = Some "pw".
Proof.
  destruct (@created_agent_is_listed Sample.utcServer SampleSchemas.schemas
              Sample.seeded
              (Sample.requestBy Sample.admin
                 [("username", JStr "agent2"); ("password", JStr "pw");
                  ("fullName", JStr "Ann Lee")] "")
              (Sample.requestBy Sample.agent1 [] "")
              (InsertUser.mk "agent2" "pw" None "Ann Lee" None None None)
              Sample.agent1)
    as (db' & agent & rows & Hrun & Hlist & Hin & _ & Hplain).
  - reflexivity.
  - vm_compute. reflexivity.
  - reflexivity.
  - reflexivity.
  - reflexivity.
  - reflexivity.
  - exists db', agent, rows. auto.
Defined.

Lemma records_list_unfiltered_witness :
  exists rows,
    @records_list Sample.utcServer Scenario.weekDb
      (mkRequest (Some Sample.agent1) ∅ "" {[ "agentId" := "abc" ]})
    = (Scenario.weekDb, Json 200 rows)
    /\ rows ≡ₚ records Scenario.weekDb.
Proof.
  apply (@records_list_unfiltered Sample.utcServer Scenario.weekDb
           (mkRequest (Some Sample.agent1) ∅ "" {[ "agentId" := "abc" ]})
           Sample.agent1 eq_refl).
  - left. discriminate.
  - right. exists "abc". split; [reflexivity | vm_compute; reflexivity].
Defined.

(** ** Date coercion *)

Section Coercion.
Context `{External}.

Lemma coerceStep_lookup (b : gmap string JsVal) (f k : string) :
  match b !! f with
  | Some (JStr s) => <[f := JDate (parseDate s)]> b
  | _ => b
  end !! k
  = if decide (k = f)
    then match b !! f with
         | Some (JStr s) => Some (JDate (parseDate s))
         | v => v
         end
    else b !! k.
Proof.
  destruct (decide (k = f)) as [-> | Hne].
  - destruct (b !! f) as [[] |] eqn:Hb; rewrite ?lookup_insert_eq;
      try exact Hb; reflexivity.
  - destruct (b !! f) as [[] |]; rewrite ?lookup_insert_ne by congruence;
      reflexivity.
Qed.

Lemma coerceDates_lookup (body : gmap string JsVal) (k : string) :
  coerceDates body !! k
  = if bool_decide (k ∈ ["gpsTimestamp"; "createdAt"; "updatedAt"])
    then match body !! k with
         | Some (JStr s) => Some (JDate (parseDate s))
         | v => v
         end
    else body !! k.
Proof.
  unfold coerceDates. cbn [foldl].
  set (b1 := match body !! "gpsTimestamp" with
             | Some (JStr s) => <["gpsTimestamp" := JDate (parseDate s)]> body
             | _ => body
             end).
  set (b2 := match b1 !! "createdAt" with
             | Some (JStr s) => <["createdAt" := JDate (parseDate s)]> b1
             | _ => b1
             end).
  assert (H1 : forall j, b1 !! j = _)
    by (intros j; apply (coerceStep_lookup body "gpsTimestamp" j)).
  assert (H2 : forall j, b2 !! j = _)
    by (intros j; apply (coerceStep_lookup b1 "createdAt" j)).
  rewrite (coerceStep_lookup b2 "updatedAt" k).
  clearbody b1 b2.
  destruct (decide (k = "updatedAt")) as [-> | Hu].
  { rewrite bool_decide_eq_true_2 by (rewrite !elem_of_cons; tauto).
    rewrite H2, decide_False by discriminate.
    rewrite H1, decide_False by discriminate. reflexivity. }
  rewrite H2.
  destruct (decide (k = "createdAt")) as [-> | Hc].
  { rewrite bool_decide_eq_true_2 by (rewrite !elem_of_cons; tauto).
    rewrite H1, decide_False by discriminate. reflexivity. }
  rewrite H1.
  destruct (decide (k = "gpsTimestamp")) as [-> | Hg].
  { rewrite bool_decide_eq_true_2 by (rewrite !elem_of_cons; tauto).
    reflexivity. }
  rewrite bool_decide_eq_false_2; [reflexivity |].
  rewrite !elem_of_cons, elem_of_nil. tauto.
Qed.

(** X19. [coerceDates] replaces a string held by one of the three date
    fields by the date it parses to, an invalid one when it does not
    parse, and changes nothing else: other keys, and date fields that
    hold no string, read as before, no key appears or disappears, and
    a second pass changes nothing. *)
Theorem coerceDates_fields (body : gmap string JsVal) :
  (forall k,
      k ∈ ["gpsTimestamp"; "createdAt"; "updatedAt"] ->
      forall s, body !! k = Some (JStr s) ->
                coerceDates body !! k = Some (JDate (parseDate s)))
  /\ (forall k,
         (k ∉ ["gpsTimestamp"; "createdAt"; "updatedAt"]
          \/ forall s, body !! k <> Some (JStr s)) ->
         coerceDates body !! k = body !! k)
  /\ (forall k, is_Some (coerceDates body !! k) <-> is_Some (body !! k))
  /\ coerceDates (coerceDates body) = coerceDates body.
Proof.
  split; [| split; [| split]].
  - intros k Hk s Hs. rewrite coerceDates_lookup, Hs.
    rewrite bool_decide_eq_true_2 by exact Hk. reflexivity.
  - intros k Hk. rewrite coerceDates_lookup.
    destruct (bool_decide _) eqn:Hd; [| reflexivity].
    apply bool_decide_eq_true_1 in Hd.
    destruct Hk as [Hk | Hk]; [contradiction |].
    destruct (body !! k) as [[] |] eqn:Hb; try reflexivity.
    exfalso. exact (Hk _ eq_refl).
  - intros k. rewrite coerceDates_lookup.
    destruct (bool_decide _); [| reflexivity].
    destruct (body !! k) as [[] |]; split; intros [x Hx];
      first [discriminate | eexists; reflexivity].
  - apply map_eq. intros k. rewrite !coerceDates_lookup.
    destruct (bool_decide _); [| reflexivity].
    destruct (body !! k) as [[] |]; reflexivity.
Qed.

End Coercion.

Lemma coerceDates_fields_witness :
  let body : gmap string JsVal :=
    list_to_map [("createdAt", JStr "2024-01-01"); ("town", JStr "X")] in
  @coerceDates Sample.utcServer body !! "createdAt"
  = Some (JDate (Some (JsDate.utc 2024 0 1 0 0)))
  /\ @coerceDates Sample.utcServer body !! "town" = Some (JStr "X").
Proof.
  cbn zeta.
  destruct (@coerceDates_fields Sample.utcServer
              (list_to_map [("createdAt", JStr "2024-01-01");
                            ("town", JStr "X")]))
    as (Hdate & Hother & _).
  split.
  - rewrite (Hdate "createdAt" ltac:(right; left) "2024-01-01");
      vm_compute; reflexivity.
  - rewrite Hother; [vm_compute; reflexivity |].
    left. rewrite !elem_of_cons, elem_of_nil.
    intros [Hk | [Hk | [Hk | []]]]; discriminate.
Defined.

(** ** Custom columns *)

Section Columns.
Context `{External} `{Schemas}.

(** X20. Deleting a custom column.  A holder of manageCustomColumns is
    answered 204 whether or not a column has the id; afterwards no
    column has it, the other columns are kept, and the records, their
    [customFields] included, and the users are untouched. *)
Theorem customColumns_delete_removes (db : Db) (req : Request) (i : Z) :
  hasPermission req manageCustomColumns = true ->
  Number (JStr (params_id req)) = Some i ->
  exists db',
    customColumns_delete db req = (db', Send 204)
    /\ (forall c, c ∈ customColumns db' <->
                  c ∈ customColumns db /\ CustomColumn.id c <> i)
    /\ records db' = records db
    /\ users db' = users db.
Proof.
  intros Hperm Hid. unfold customColumns_delete. rewrite Hperm, Hid.
  simpl. eexists. split; [reflexivity |]. simpl.
  split; [| split; reflexivity].
  intros c. apply elem_of_deleted.
Qed.

(** X21. Updating a custom column, for a holder of manageCustomColumns
    whose body passes the schema with at least one value and a name
    that no other column holds.  When column ids are distinct and a
    column has the id, the answer is 200 with that column rewritten,
    its id and [createdAt] kept, and the records untouched; when no
    column has the id the answer is still 200, with no body, and the
    store is unchanged. *)
Theorem customColumns_update_rewrites
  (db : Db) (req : Request) (input : UpdateCustomColumn.t) (i : Z) :
  hasPermission req manageCustomColumns = true ->
  api_customColumns_update_input (body req) = ParseOk input ->
  Number (JStr (params_id req)) = Some i ->
  noColumnValues input = false ->
  columnNameTaken db i input = false ->
  (forall c0,
      NoDup (CustomColumn.id <$> customColumns db) ->
      c0 ∈ customColumns db -> CustomColumn.id c0 = i ->
      exists db',
        customColumns_update db req
        = (db', Json 200 (Some (setColumn input c0)))
        /\ CustomColumn.id (setColumn input c0) = i
        /\ CustomColumn.createdAt (setColumn input c0)
           = CustomColumn.createdAt c0
        /\ (forall c, c ∈ customColumns db' <->
                      (c ∈ customColumns db /\ CustomColumn.id c <> i)
                      \/ c = setColumn input c0)
        /\ records db' = records db)
  /\ ((forall c, c ∈ customColumns db -> CustomColumn.id c <> i) ->
      customColumns_update db req = (db, Json 200 None)).
Proof.
  intros Hperm Hparse Hid Hvalues Hfree. unfold customColumns_update.
  rewrite Hperm, Hparse, Hid. cbn [negb]. unfold updateCustomColumn.
  rewrite Hvalues, Hfree. split.
  - intros c0 Hnd Hc0 Hi.
    rewrite (find_map_update CustomColumn.id (setColumn input) i
               (customColumns db) c0 (fun _ => eq_refl) Hnd Hc0 Hi).
    eexists. split; [reflexivity |]. cbn [customColumns records].
    split; [exact Hi |]. split; [reflexivity |].
    split; [| reflexivity].
    intros c. apply elem_of_map_update; assumption.
  - intros Hnone.
    rewrite (map_unmatched CustomColumn.id _ i _ Hnone).
    rewrite (find_unmatched CustomColumn.id i _ Hnone).
    destruct db; reflexivity.
Qed.

Lemma ascNullsLast_asym x y :
  ascNullsLast x y = true -> ascNullsLast y x = false.
Proof. destruct x, y; simpl; try congruence; lia. Qed.

Lemma ascNullsLast_negtrans x y z :
  ascNullsLast y x = false -> ascNullsLast z y = false ->
  ascNullsLast z x = false.
Proof. destruct x, y, z; simpl; try congruence; lia. Qed.

(** X22. Any authenticated requester may list the custom columns; the
    answer holds every column exactly once, oldest first, the columns
    without [createdAt] last. *)
Theorem customColumns_list_oldest_first
  (db : Db) (req : Request) (u : User.t) :
  user req = Some u ->
  exists columns,
    customColumns_list db req = (db, Json 200 columns)
    /\ columns ≡ₚ customColumns db
    /\ StronglySorted
         (fun a b =>
            match CustomColumn.createdAt a, CustomColumn.createdAt b with
            | Some x, Some y => x <= y
            | _, None => True
            | None, Some _ => False
            end)
         columns.
Proof.
  intros Hu. unfold customColumns_list, isAuthenticated. rewrite Hu.
  eexists. split; [reflexivity |]. unfold getCustomColumns. split.
  - apply stable_sort_Permutation.
  - eapply StronglySorted_weaken;
      [| apply stable_sort_ordered;
         [intros a b; apply ascNullsLast_asym
         | intros a b c; apply ascNullsLast_negtrans]].
    intros a b. unfold inOrder, ascNullsLast.
    destruct (CustomColumn.createdAt a), (CustomColumn.createdAt b);
      try discriminate; try tauto.
    intros Hlt. apply Z.ltb_ge in Hlt. exact Hlt.
Qed.

End Columns.

Lemma customColumns_delete_removes_witness :
  exists db',
    @customColumns_delete Sample.utcServer (Scenario.roofDb ["Tile"])
      (Sample.requestBy Sample.admin [] "1")
    = (db', Send 204)
    /\ customColumns db' = [].
Proof.
  destruct (@customColumns_delete_removes Sample.utcServer
              (Scenario.roofDb ["Tile"])
              (Sample.requestBy Sample.admin [] "1") 1 eq_refl eq_refl)
    as (db' & Hrun & _).
  exists db'. split; [exact Hrun |].
  vm_compute in Hrun. injection Hrun as <-. reflexivity.
Defined.

Lemma customColumns_update_rewrites_witness :
  exists db' column,
    @customColumns_update Sample.utcServer SampleSchemas.schemas
      (Scenario.roofDb ["Tile"])
      (Sample.requestBy Sample.admin [("name", JStr "Roof")] "1")
    = (db', Json 200 (Some column))
    /\ CustomColumn.name column = "Roof"
    /\ CustomColumn.id column = 1.
Proof.
  destruct (@customColumns_update_rewrites Sample.utcServer
              SampleSchemas.schemas (Scenario.roofDb ["Tile"])
              (Sample.requestBy Sample.admin [("name", JStr "Roof")] "1")
              (UpdateCustomColumn.mk (Some "Roof") None None None None) 1)
    as (Hfound & _).
  - reflexivity.
  - vm_compute. reflexivity.
  - reflexivity.
  - reflexivity.
  - reflexivity.
  - destruct (Hfound (Scenario.roofType ["Tile"]))
      as (db' & Hrun & Hid & _).
    + refine (bool_decide_unpack _ _). vm_compute. exact I.
    + left.
    + reflexivity.
    + eexists db', _. split; [exact Hrun |]. split; [reflexivity | exact Hid].
Defined.

Lemma customColumns_list_oldest_first_witness :
  exists columns,
    customColumns_list (Scenario.roofDb ["Tile"])
      (Sample.requestBy Sample.agent1 [] "")
    = (Scenario.roofDb ["Tile"], Json 200 columns)
    /\ columns ≡ₚ customColumns (Scenario.roofDb ["Tile"]).
Proof.
  destruct (customColumns_list_oldest_first (Scenario.roofDb ["Tile"])
              (Sample.requestBy Sample.agent1 [] "") Sample.agent1 eq_refl)
    as (columns & Hrun & Hperm & _).
  exists columns. split; [exact Hrun | exact Hperm].
Defined.

Section WeekLabels.
Context `{External}.

(** X23. Week buckets on a server whose local zone is UTC.  When every
    dated record lies at least six days after the smallest time value,
    [getStats] with period week returns, and every bucket is labelled
    with the date of a Sunday and holds a record created on that
    Sunday or on one of the six days after it. *)
Theorem getStats_week_labels_UTC (db : Db) :
  tza = 0 ->
  (forall r d, r ∈ records db -> RecordItem.createdAt r = Some d ->
               - JsDate.maxTime + 6 * JsDate.msPerDay <= d
               /\ d <= JsDate.maxTime) ->
  exists stats,
    getStats db week = Some stats
    /\ forall e, e ∈ Stats.recordsByPeriod stats ->
         exists sunday r d,
           PerPeriod.date e = "W " +:+ JsDate.isoDate sunday
           /\ JsDate.WeekDay sunday = 0
           /\ r ∈ records db
           /\ RecordItem.createdAt r = Some d
           /\ JsDate.Day sunday <= JsDate.Day d < JsDate.Day sunday + 7.
Proof.
  intros Hutc Hrange.
  destruct (getStats_returns db week (or_intror Hrange)) as [stats Hstats].
  exists stats. split; [exact Hstats |]. intros e He.
  destruct (recordsByPeriod_facts db week stats Hstats)
    as (_ & _ & Hkeys & _).
  assert (Hk : PerPeriod.date e
               ∈ PerPeriod.date <$> Stats.recordsByPeriod stats).
  { apply list_elem_of_fmap. exists e. split; [reflexivity | exact He]. }
  apply Hkeys in Hk as (r & Hr & Hlabel). unfold labelOf in Hlabel.
  destruct (RecordItem.createdAt r) as [d |] eqn:Hd; [| discriminate].
  destruct (dateKey_week_UTC d Hutc) as (sunday & Hkey & Hsun & Hday).
  { destruct (Hrange r d Hr Hd). split; assumption. }
  rewrite Hkey in Hlabel. injection Hlabel as Hlabel.
  exists sunday, r, d. repeat split; try assumption; try tauto.
  symmetry. exact Hlabel.
Qed.

End WeekLabels.

Lemma getStats_week_labels_UTC_witness :
  exists stats,
    @getStats Sample.utcServer Scenario.weekDb week = Some stats
    /\ length (Stats.recordsByPeriod stats) = 2%nat.
Proof.
  destruct (@getStats_week_labels_UTC Sample.utcServer Scenario.weekDb
              eq_refl)
    as (stats & Hstats & _).
  - intros r d Hr Hd. unfold Scenario.weekDb in Hr. cbn [records] in Hr.
    unfold Scenario.weekRecords in Hr.
    rewrite !elem_of_cons, elem_of_nil in Hr.
    destruct Hr as [-> | [-> | [-> | []]]];
      injection Hd as <-; vm_compute; split; discriminate.
  - exists stats. split; [exact Hstats |].
    vm_compute in Hstats. injection Hstats as <-. reflexivity.
Defined.

Section NotFound.
Context `{External}.

(** X24. The record update route answers 404 exactly for a missing
    record.  For a requester who is an agent or holds editRecords, a
    body that passes the schema and distinct record ids, the answer is
    404 if and only if no record has the id of the path, and then the
    store is unchanged. *)
Theorem records_update_404_iff
  (now : Z) (db : Db) (req : Request) (input : UpdateRecord.t) (i : Z) :
  isAuthenticated req = true ->
  hasPermission req editRecords = true \/ roleIs req "agent" = true ->
  api_records_update_input (coerceDates (body req)) = ParseOk input ->
  Number (JStr (params_id req)) = Some i ->
  NoDup (RecordItem.id <$> records db) ->
  (statusOf (records_update now db req).2 = 404
   <-> forall r, r ∈ records db -> RecordItem.id r <> i)
  /\ (statusOf (records_update now db req).2 = 404 ->
      (records_update now db req).1 = db).
Proof.
  intros Hauth Hperm Hparse Hid Hnd.
  assert (Hcases : (forall r, r ∈ records db -> RecordItem.id r <> i)
                   \/ exists r0, r0 ∈ records db /\ RecordItem.id r0 = i).
  { clear. induction (records db) as [| r rs IH].
    - left. intros r Hr. apply elem_of_nil in Hr. destruct Hr.
    - destruct (decide (RecordItem.id r = i)) as [Heq | Hne].
      + right. exists r. split; [left | exact Heq].
      + destruct IH as [Hnone | (r0 & Hr0 & Hi)].
        * left. intros r' Hr'. apply elem_of_cons in Hr' as [-> | Hr'];
            [exact Hne | apply Hnone; exact Hr'].
        * right. exists r0. split; [right; exact Hr0 | exact Hi]. }
  destruct Hcases as [Hnone | (r0 & Hr0 & Hi)].
  - rewrite (records_update_not_found now db req input i
               Hauth Hperm Hparse Hid Hnone).
    split; [split; [intros _; exact Hnone | reflexivity] | reflexivity].
  - destruct (records_update_found now db req input i r0
                Hauth Hperm Hparse Hid Hnd Hr0 Hi) as (db' & -> & _).
    simpl. split; [split |]; try discriminate.
    intros Hnone. exfalso. exact (Hnone r0 Hr0 Hi).
Qed.

End NotFound.

Lemma records_update_404_iff_witness :
  statusOf
    (@records_update Sample.utcServer 5 Scenario.weekDb
       (Sample.requestBy Sample.agent1 [("town", JStr "X")] "999")).2
  = 404.
Proof.
  destruct (@records_update_404_iff Sample.utcServer 5 Scenario.weekDb
              (Sample.requestBy Sample.agent1 [("town", JStr "X")] "999")
              (UpdateRecord.mk None None (Some (Some "X")) None None None ∅)
              999) as [[_ Hmissing] _].
  - reflexivity.
  - right. reflexivity.
  - vm_compute. reflexivity.
  - reflexivity.
  - refine (bool_decide_unpack _ _). vm_compute. exact I.
  - apply Hmissing. intros r Hr.
    unfold Scenario.weekDb in Hr. cbn [records] in Hr.
    unfold Scenario.weekRecords in Hr.
    rewrite !elem_of_cons, elem_of_nil in Hr.
    destruct Hr as [-> | [-> | [-> | []]]]; discriminate.
Defined.

Section Atomic.
Context `{External} `{Schemas}.

Lemma map_update_unfound {A} (key : A -> Z) (f : A -> A) i l :
  (forall x, key (f x) = key x) ->
  List.find (fun x => key x =? i)
    (map (fun x => if key x =? i then f x else x) l) = None ->
  map (fun x => if key x =? i then f x else x) l = l.
Proof.
  intros Hkey. induction l as [| a l IH]; simpl; [reflexivity |].
  destruct (Z.eqb_spec (key a) i) as [Heq | Hne].
  - rewrite Hkey. destruct (Z.eqb_spec (key a) i); [discriminate | tauto].
  - destruct (Z.eqb_spec (key a) i); [tauto |].
    intros Hfind. rewrite (IH Hfind). reflexivity.
Qed.

Lemma updateRecord_unfound now db id updates db' :
  updateRecord now db id updates = Some (db', None) -> db' = db.
Proof.
  unfold updateRecord. destruct id as [i |]; [| discriminate].
  intros Hrun. injection Hrun as <- Hfind.
  rewrite (map_update_unfound RecordItem.id (setRecord now updates) i
             (records db) (fun _ => eq_refl) Hfind).
  destruct db; reflexivity.
Qed.

(** X25. A request that is answered with an error writes nothing.
    Whenever one of the ten writing handlers answers with a status of
    400 or more, an escaped exception included, the store is the one
    it was given. *)
Theorem refused_request_writes_nothing
  (serial now : Z) (db : Db) (req : Request) :
  (400 <= statusOf (records_create now db req).2 ->
   (records_create now db req).1 = db)
  /\ (400 <= statusOf (records_update now db req).2 ->
      (records_update now db req).1 = db)
  /\ (400 <= statusOf (records_delete db req).2 ->
      (records_delete db req).1 = db)
  /\ (400 <= statusOf (customColumns_create serial now db req).2 ->
      (customColumns_create serial now db req).1 = db)
  /\ (400 <= statusOf (customColumns_update db req).2 ->
      (customColumns_update db req).1 = db)
  /\ (400 <= statusOf (customColumns_delete db req).2 ->
      (customColumns_delete db req).1 = db)
  /\ (400 <= statusOf (agents_create db req).2 ->
      (agents_create db req).1 = db)
  /\ (400 <= statusOf (agents_update db req).2 ->
      (agents_update db req).1 = db)
  /\ (400 <= statusOf (secondaryAdmins_create db req).2 ->
      (secondaryAdmins_create db req).1 = db)
  /\ (400 <= statusOf (secondaryAdmins_update db req).2 ->
      (secondaryAdmins_update db req).1 = db).
Proof.
  unfold records_create, records_update, records_delete,
    customColumns_create, customColumns_update, customColumns_delete,
    agents_create, agents_update, secondaryAdmins_create,
    secondaryAdmins_update.
  repeat match goal with |- _ /\ _ => split end;
    repeat case_match; simpl; intros Hstatus;
    first [reflexivity | exfalso; lia
          | eapply updateRecord_unfound; eassumption].
Qed.

End Atomic.

Lemma refused_request_writes_nothing_witness :
  (@records_update Sample.utcServer 5 Scenario.weekDb
     (Sample.requestBy Sample.agent1 [("town", JStr "X")] "999")).1
  = Scenario.weekDb.
Proof.
  destruct (@refused_request_writes_nothing Sample.utcServer
              SampleSchemas.schemas 1 5 Scenario.weekDb
              (Sample.requestBy Sample.agent1 [("town", JStr "X")] "999"))
    as (_ & Hupdate & _).
  apply Hupdate. vm_compute. discriminate.
Defined.

(** ** The secondary-admin routes *)

Section SecondaryAdministrators.
Context `{External}.

(** C2. Listing, creating and updating secondary administrators is
    allowed exactly for an authenticated actor with role admin; a
    secondary_admin is answered 403 on all three, whatever its
    permissions map grants.  An administrator is served: the list
    answers 200 with the users whose role is secondary_admin; a body
    that passes the schema with a free user name creates the
    secondary administrator and answers 201; a body that passes the
    schema rewrites the user with the id of the path and answers 200
    with the new row; and no answer to an administrator is 401. *)
Theorem secondaryAdmins_admin_only (db : Db) (req : Request) :
  (isAdmin req = true <->
   exists u, user req = Some u /\ User.role u = "admin")
  /\ (statusOf (secondaryAdmins_list db req).2 <> 403
      <-> isAdmin req = true)
  /\ (statusOf (secondaryAdmins_create db req).2 <> 403
      <-> isAdmin req = true)
  /\ (statusOf (secondaryAdmins_update db req).2 <> 403
      <-> isAdmin req = true)
  /\ (isAdmin req = false ->
      secondaryAdmins_list db req = (db, Send 403)
      /\ secondaryAdmins_create db req = (db, Send 403)
      /\ secondaryAdmins_update db req = (db, Send 403))
  /\ (forall u,
         user req = Some u -> User.role u = "secondary_admin" ->
         secondaryAdmins_list db req = (db, Send 403)
         /\ secondaryAdmins_create db req = (db, Send 403)
         /\ secondaryAdmins_update db req = (db, Send 403))
  /\ (isAdmin req = true ->
      secondaryAdmins_list db req = (db, Json 200 (getSecondaryAdmins db))
      /\ (forall u, u ∈ getSecondaryAdmins db <->
                    u ∈ users db /\ User.role u = "secondary_admin")
      /\ statusOf (secondaryAdmins_create db req).2 <> 401
      /\ statusOf (secondaryAdmins_update db req).2 <> 401
      /\ (forall input,
             api_secondaryAdmins_create_input (body req) = ParseOk input ->
             getUserByUsername db (InsertUser.username input) = None ->
             exists db' admin,
               secondaryAdmins_create db req = (db', Json 201 admin)
               /\ users db' = (users db ++ [admin])%list
               /\ User.username admin = InsertUser.username input
               /\ User.role admin = "secondary_admin")
      /\ (forall input i u0,
             api_secondaryAdmins_update_input (body req) = ParseOk input ->
             Number (JStr (params_id req)) = Some i ->
             NoDup (User.id <$> users db) ->
             u0 ∈ users db -> User.id u0 = i ->
             noUserValues (withHashedPassword input) = false ->
             usernameTaken db i (withHashedPassword input) = false ->
             exists db',
               secondaryAdmins_update db req
               = (db',
                  Json 200 (Some (setUser (withHashedPassword input) u0)))
               /\ forall u,
                    u ∈ users db' <->
                    (u ∈ users db /\ User.id u <> i)
                    \/ u = setUser (withHashedPassword input) u0)).
Proof.
  assert (Hdeny : isAdmin req = false ->
                  secondaryAdmins_list db req = (db, Send 403)
                  /\ secondaryAdmins_create db req = (db, Send 403)
                  /\ secondaryAdmins_update db req = (db, Send 403)).
  { intros Hna.
    unfold secondaryAdmins_list, secondaryAdmins_create,
      secondaryAdmins_update.
    rewrite Hna. simpl. auto. }
  split; [apply isAdmin_iff |].
  split; [| split; [| split; [| split; [exact Hdeny | split]]]].
  - destruct (isAdmin req) eqn:Ha.
    + unfold secondaryAdmins_list. rewrite Ha. simpl.
      split; [reflexivity | discriminate].
    + destruct (Hdeny eq_refl) as (-> & _). simpl.
      split; [congruence | discriminate].
  - destruct (isAdmin req) eqn:Ha.
    + unfold secondaryAdmins_create. rewrite Ha. simpl.
      split; [reflexivity | intros _].
      repeat case_match; simpl; discriminate.
    + destruct (Hdeny eq_refl) as (_ & -> & _). simpl.
      split; [congruence | discriminate].
  - destruct (isAdmin req) eqn:Ha.
    + unfold secondaryAdmins_update. rewrite Ha. simpl.
      split; [reflexivity | intros _].
      repeat case_match; simpl; discriminate.
    + destruct (Hdeny eq_refl) as (_ & _ & ->). simpl.
      split; [congruence | discriminate].
  - intros u Hu Hr. apply Hdeny.
    unfold isAdmin. rewrite (roleIs_eq req u "admin" Hu), Hr.
    apply andb_false_r.
  - intros Ha.
    unfold secondaryAdmins_list, secondaryAdmins_create,
      secondaryAdmins_update.
    rewrite Ha. cbn [negb].
    split; [reflexivity |]. split; [| split; [| split; [| split]]].
    + intros u. unfold getSecondaryAdmins.
      rewrite list_elem_of_In, filter_In, String.eqb_eq,
        <- list_elem_of_In.
      reflexivity.
    + repeat case_match; simpl; discriminate.
    + repeat case_match; simpl; discriminate.
    + intros input Hparse Hfree. rewrite Hparse, Hfree.
      rewrite (createUser_free db (asSecondaryAdmin input) Hfree).
      eexists _, _. split; [reflexivity |]. simpl. repeat split.
    + intros input i u0 Hparse Hid Hnd Hu0 Hi Hvalues Hfree.
      rewrite Hparse, Hid. unfold updateUser. rewrite Hvalues, Hfree.
      rewrite (find_map_update User.id
                 (setUser (withHashedPassword input)) i
                 (users db) u0 (fun _ => eq_refl) Hnd Hu0 Hi).
      eexists. split; [reflexivity |]. cbn [users].
      intros u. apply elem_of_map_update; assumption.
Qed.

End SecondaryAdministrators.

Lemma secondaryAdmins_admin_only_witness :
  let req :=
    Sample.requestBy Sample.deputy
      [("username", JStr "x"); ("password", JStr "y");
       ("fullName", JStr "z")] "3" in
  let db :=
    mkDb [Sample.admin; Sample.agent1; Sample.deputy] [] [] 4 1 in
  hasPermission req manageCustomColumns = true
  /\ @secondaryAdmins_create Sample.utcServer Sample.seeded req
     = (Sample.seeded, Send 403)
  /\ secondaryAdmins_list db (Sample.requestBy Sample.admin [] "")
     = (db, Json 200 [Sample.deputy]).
Proof.
  split; [vm_compute; reflexivity |]. split.
  - apply (@secondaryAdmins_admin_only Sample.utcServer Sample.seeded
             (Sample.requestBy Sample.deputy
                [("username", JStr "x"); ("password", JStr "y");
                 ("fullName", JStr "z")] "3")).
    all: reflexivity.
  - destruct (@secondaryAdmins_admin_only Sample.utcServer
                (mkDb [Sample.admin; Sample.agent1; Sample.deputy]
                   [] [] 4 1)
                (Sample.requestBy Sample.admin [] ""))
      as (_ & _ & _ & _ & _ & _ & Hserved).
    destruct (Hserved eq_refl) as [Hlist _].
    rewrite Hlist. reflexivity.
Defined.
